(** * Stable-study ingestion pipeline (orthanc.routes): a shallow embedding

    The development follows the source file
    [MedicalProject/.../routes/orthanc.routes copy 7.js]:

    - [Js]: the JavaScript string primitives the code relies on
      ([trim], [split], [join], [toUpperCase], the two regular-expression
      replacements), over ASCII strings;
    - [processDicomPersonName], [formatDicomDateToISO];
    - the pipeline monad (state of the document store, the result cache and
      the request log, with exceptions), [findOrCreatePatientFromTags],
      [findOrCreateSourceLab], [processStableStudy];
    - [Queue]: the class [StableStudyQueue], the in-memory job queue, as a
      transition system;
    - [Routes]: the handlers of [POST /stable-study] and
      [GET /job-status/:requestId].

    How the collaborators are modelled:

    - strings are ASCII strings: the white-space class of [trim] and of the
      regular expression [\s] is the six ASCII white-space characters, and
      [toUpperCase] acts on [a]..[z] only, which is what JavaScript does
      on strings of ASCII characters ([Js.is_ascii]); a tag set maps field
      names to strings;
    - the archive answers each request with data or with an error ([Env]);
      every request sent is recorded in [requests];
    - a collection is the list of its documents in insertion order;
      [findOne] returns the first match; reads do not fail; [save] fails
      when [Env] refuses the document (the schemas are in [models/*.js])
      or when a new document's [_id] is already stored;
    - the result cache is a finite map and [setex] does not fail;
    - the clock and the ObjectId generator are read from [Env] by the
      number of readings so far;
    - a pipeline runs in one piece; the queue's moves (an [add], a wake-up
      of the processor loop, a progress report, the end of a pipeline) are
      the pieces between two [await]s. *)

From Stdlib Require Import ZArith Ascii String List Bool Lia.
From Stdlib Require Import DecimalString.
From stdpp Require Import base option list strings gmap fin_maps.

Import ListNotations.
Local Open Scope string_scope.
Local Open Scope Z_scope.

(* ===================================================================== *)
(** ** JavaScript string primitives *)
(* ===================================================================== *)

Module Js.

(** [\s] and the characters removed by [String.prototype.trim], on ASCII:
    TAB, LF, VT, FF, CR and SPACE. *)
Definition is_space (c : ascii) : bool :=
  let n := nat_of_ascii c in
  ((9 <=? n)%nat && (n <=? 13)%nat) || (n =? 32)%nat.

Definition is_digit (c : ascii) : bool :=
  let n := nat_of_ascii c in (48 <=? n)%nat && (n <=? 57)%nat.

Definition upper_char (c : ascii) : ascii :=
  let n := nat_of_ascii c in
  if ((97 <=? n)%nat && (n <=? 122)%nat)%bool then ascii_of_nat (n - 32) else c.

(** [s.toUpperCase()] *)
Fixpoint toUpperCase (s : string) : string :=
  match s with
  | EmptyString => EmptyString
  | String c r => String (upper_char c) (toUpperCase r)
  end.

Fixpoint trim_start (s : string) : string :=
  match s with
  | EmptyString => EmptyString
  | String c r => if is_space c then trim_start r else s
  end.

Fixpoint trim_end (s : string) : string :=
  match s with
  | EmptyString => EmptyString
  | String c r =>
      match trim_end r with
      | EmptyString => if is_space c then EmptyString else String c EmptyString
      | r' => String c r'
      end
  end.

(** [s.trim()] *)
Definition trim (s : string) : string := trim_end (trim_start s).

(** [s.split(sep)] for a one-character separator: never the empty list. *)
Fixpoint split (sep : ascii) (s : string) : list string :=
  match s with
  | EmptyString => [EmptyString]
  | String c r =>
      if Ascii.eqb c sep then EmptyString :: split sep r
      else match split sep r with
           | [] => [String c EmptyString]
           | p :: ps => String c p :: ps
           end
  end.

(** [parts.join(sep)] *)
Fixpoint join (sep : string) (l : list string) : string :=
  match l with
  | [] => EmptyString
  | [x] => x
  | x :: r => x ++ sep ++ join sep r
  end.

(** [s.includes(c)] for a one-character needle. *)
Fixpoint includes (c : ascii) (s : string) : bool :=
  match s with
  | EmptyString => false
  | String d r => Ascii.eqb d c || includes c r
  end.

(** [s.replace(/c/g, d)] for a literal one-character pattern. *)
Fixpoint replace_char (c d : ascii) (s : string) : string :=
  match s with
  | EmptyString => EmptyString
  | String x r => String (if Ascii.eqb x c then d else x) (replace_char c d r)
  end.

(** [s.replace(/-/g, '')]: every occurrence of the character removed. *)
Fixpoint remove_char (c : ascii) (s : string) : string :=
  match s with
  | EmptyString => EmptyString
  | String x r => if Ascii.eqb x c then remove_char c r else String x (remove_char c r)
  end.

(** Every maximal run of characters satisfying [p] replaced by the single
    character [d]: [d] is written where a run starts ([in_run] tells
    whether the previous character belongs to a run). *)
Fixpoint collapse_from (p : ascii -> bool) (d : ascii) (in_run : bool) (s : string) : string :=
  match s with
  | EmptyString => EmptyString
  | String c r =>
      if p c then
        if in_run then collapse_from p d true r
        else String d (collapse_from p d true r)
      else String c (collapse_from p d false r)
  end.

Definition collapse (p : ascii -> bool) (d : ascii) (s : string) : string :=
  collapse_from p d false s.

(** [s.replace(/\s+/g, d)] *)
Definition replace_ws (d : ascii) (s : string) : string := collapse is_space d s.

(** [s.substring(a, b)] with [a <= b]. *)
Definition substring (a b : nat) (s : string) : string := String.substring a (b - a) s.

Definition all_digits (s : string) : bool :=
  forallb is_digit (list_ascii_of_string s).

(** [parseInt(s)] on a string of decimal digits. *)
Definition parseInt (s : string) : Z :=
  fold_left (fun acc c => 10 * acc + (Z.of_nat (nat_of_ascii c) - 48))
            (list_ascii_of_string s) 0.

(** Decimal rendering of an integer, as in a template literal. *)
Definition of_Z (z : Z) : string := NilZero.string_of_int (Z.to_int z).

(** A string of ASCII characters (code below 128). On these strings the
    white-space class and [toUpperCase] of this module are JavaScript's;
    a character outside ASCII may be white space or have an upper-case
    form in JavaScript that this module does not know. *)
Definition is_ascii_char (c : ascii) : bool := (nat_of_ascii c <? 128)%nat.

Definition is_ascii (s : string) : bool :=
  forallb is_ascii_char (list_ascii_of_string s).

(** Truthiness of a string: non-empty. *)
Definition nonempty (s : string) : bool :=
  match s with EmptyString => false | _ => true end.

(** Truthiness of a possibly missing string property. *)
Definition truthy (o : option string) : bool :=
  match o with Some s => nonempty s | None => false end.

(** [o || d] for a possibly missing string property [o]. *)
Definition or_else (o : option string) (d : string) : string :=
  match o with
  | Some s => if nonempty s then s else d
  | None => d
  end.

End Js.

(** A tag set: a mapping from metadata field name to string value. *)
Abbreviation Tags := (gmap string string).

(* ===================================================================== *)
(** ** processDicomPersonName *)
(* ===================================================================== *)

Record NameInfo := {
  fullName : string;
  firstName : string;
  lastName : string;
  middleName : string;
  namePrefix : string;
  nameSuffix : string;
  originalDicomFormat : string;
  formattedForDisplay : string
}.

(** [parts[i] || ''], trimmed. *)
Definition part (parts : list string) (i : nat) : string :=
  Js.trim (nth i parts EmptyString).

(** [if (x) nameParts.push(x)] *)
Definition push_if (x : string) (acc : list string) : list string :=
  if Js.nonempty x then acc ++ [x] else acc.

(** The argument is [tags.PatientName]: [None] when the property is
    missing (undefined). *)
Definition processDicomPersonName (dicomNameField : option string) : NameInfo :=
  if negb (Js.truthy dicomNameField) then
    {| fullName := "Unknown Patient"; firstName := ""; lastName := "Unknown";
       middleName := ""; namePrefix := ""; nameSuffix := "";
       originalDicomFormat := Js.or_else dicomNameField "";
       formattedForDisplay := "Unknown Patient" |}
  else
    let nameString := Js.trim (Js.or_else dicomNameField "") in
    if (String.eqb nameString "" || String.eqb nameString "^"
        || String.eqb nameString "^^^")%bool then
      {| fullName := "Anonymous Patient"; firstName := ""; lastName := "Anonymous";
         middleName := ""; namePrefix := ""; nameSuffix := "";
         originalDicomFormat := nameString;
         formattedForDisplay := "Anonymous Patient" |}
    else
      let parts := Js.split "^" nameString in
      let familyName := part parts 0 in
      let givenName := part parts 1 in
      let middle := part parts 2 in
      let prefix := part parts 3 in
      let suffix := part parts 4 in
      let nameParts :=
        push_if suffix (push_if familyName (push_if middle
          (push_if givenName (push_if prefix [])))) in
      let displayName :=
        match nameParts with
        | [] => "Unknown Patient"
        | _ => Js.join " " nameParts
        end in
      {| fullName := displayName; firstName := givenName; lastName := familyName;
         middleName := middle; namePrefix := prefix; nameSuffix := suffix;
         originalDicomFormat := nameString;
         formattedForDisplay := displayName |}.

(* ===================================================================== *)
(** ** Data model *)
(* ===================================================================== *)

(** [error.message] of a thrown exception. *)
Definition Err := string.

(** The value of a call that may throw. *)
Definition Result (A : Type) : Type := (Err + A)%type.

(** A JavaScript [Date] as the pipeline builds it. *)
Inductive JsDate :=
| DateUTC (year month day : string)  (* new Date(`${year}-${month}-${day}T00:00:00.000Z`) *)
| DateParsed (src : string)          (* new Date(src), a valid date *)
| DateAt (t : Z).                    (* new Date(), read from the clock *)

(** An element of an instance listing: an identifier string, or an object
    with an optional [ID] property. *)
Inductive Instance :=
| InstanceId (s : string)
| InstanceObj (ID : option string).

Module StudyInfo.
(** [GET /studies/{id}] *)
Record t := {
  ID : string;
  MainDicomTags : option Tags;
  Series : option (list string);
  Instances : option (list Instance);
  ParentPatient : string
}.
End StudyInfo.

Module SeriesInfo.
(** [GET /series/{id}] *)
Record t := {
  MainDicomTags : option Tags;
  Instances : option (list Instance)
}.
End SeriesInfo.

Module Patient.
Record Computed := {
  fullName : string;
  namePrefix : string;
  nameSuffix : string;
  originalDicomName : string
}.
Inductive Dob := DobString (s : string) | DobDate (d : JsDate) | DobNull.
Record t := {
  _id : string;
  mrn : option string;
  patientID : string;
  patientNameRaw : string;
  firstName : string;
  lastName : string;
  computed : option Computed;
  gender : string;
  dateOfBirth : Dob;
  isAnonymous : bool
}.
End Patient.

Module Lab.
Record Metadata := {
  sourceField : string;
  originalDicomValue : string;
  createdFromStableStudy : bool;
  originalCustomLabId : option string
}.
Record t := {
  _id : string;
  name : string;
  identifier : string;
  isActive : bool;
  notes : string;
  contactPerson : string;
  metadata : option Metadata
}.
End Lab.

Module Study.
Record PatientInfo := {
  patientID : string; patientName : string; gender : string; dateOfBirth : string
}.
Record Physician := {
  name : string; email : string; mobile : string; institution : string
}.
Record Physicians := { referring : Physician; requesting : Physician }.
Record Technologist := {
  t_name : string; t_mobile : string; comments : string; reasonToSend : string
}.
Record Equipment := {
  manufacturer : string; model : string; stationName : string; softwareVersion : string
}.
Record CustomLabInfo := {
  dicomLabId : option string; labIdSource : string; labDetectionMethod : string
}.
Record DebugInfo := {
  apiInstancesFound : Z; webUIShowsInstances : bool; apiMethodUsed : string;
  customLabIdProvided : bool; customLabIdValue : option string
}.
Record StorageInfo := {
  type : string; orthancStudyId : string; receivedAt : Z; isStableStudy : bool;
  instancesFound : Z; processingMethod : string; debugInfo : DebugInfo
}.
(** The object literal [studyData]. *)
Record Data := {
  orthancStudyID : string;
  studyInstanceUID : string;
  accessionNumber : string;
  patient : string;
  patientId : string;
  sourceLab : string;
  studyDate : option JsDate;
  studyTime : string;
  modalitiesInStudy : list string;
  examDescription : string;
  institutionName : string;
  workflowStatus : string;
  seriesCount : Z;
  instanceCount : Z;
  seriesImages : string;
  patientInfo : PatientInfo;
  referringPhysicianName : string;
  physicians : Physicians;
  technologist : Technologist;
  studyPriority : string;
  caseType : string;
  equipment : Equipment;
  protocolName : string;
  bodyPartExamined : string;
  contrastBolusAgent : string;
  contrastBolusRoute : string;
  acquisitionDate : string;
  acquisitionTime : string;
  studyComments : string;
  additionalPatientHistory : string;
  customLabInfo : CustomLabInfo;
  storageInfo : StorageInfo
}.
(** [data.workflowStatus = v], the move of a later workflow step. *)
Definition set_workflowStatus (v : string) (d : Data) : Data :=
  {| orthancStudyID := orthancStudyID d; studyInstanceUID := studyInstanceUID d;
     accessionNumber := accessionNumber d; patient := patient d;
     patientId := patientId d; sourceLab := sourceLab d; studyDate := studyDate d;
     studyTime := studyTime d; modalitiesInStudy := modalitiesInStudy d;
     examDescription := examDescription d; institutionName := institutionName d;
     workflowStatus := v;
     seriesCount := seriesCount d; instanceCount := instanceCount d;
     seriesImages := seriesImages d; patientInfo := patientInfo d;
     referringPhysicianName := referringPhysicianName d; physicians := physicians d;
     technologist := technologist d; studyPriority := studyPriority d;
     caseType := caseType d; equipment := equipment d;
     protocolName := protocolName d; bodyPartExamined := bodyPartExamined d;
     contrastBolusAgent := contrastBolusAgent d;
     contrastBolusRoute := contrastBolusRoute d;
     acquisitionDate := acquisitionDate d; acquisitionTime := acquisitionTime d;
     studyComments := studyComments d;
     additionalPatientHistory := additionalPatientHistory d;
     customLabInfo := customLabInfo d; storageInfo := storageInfo d |}.
Record StatusEntry := { status : string; changedAt : Z; note : string }.
(** A stored study document: the fields written by [Object.assign] and
    its status history. *)
Record t := {
  _id : string;
  data : Data;
  statusHistory : list StatusEntry
}.
End Study.

Module JobResult.
Record MetadataSummary := {
  patientName : string; patientId : string; modalities : list string;
  studyDate : string; labName : string; institutionName : string
}.
(** [result], the value returned by a successful run. *)
Record t := {
  orthancStudyId : string;
  studyDatabaseId : string;
  studyInstanceUID : string;
  seriesCount : Z;
  instanceCount : Z;
  processedAt : Z;
  elapsedTime : Z;
  processingMethod : string;
  metadataSummary : MetadataSummary
}.
(** [errorResult] *)
Record Failure := {
  error : string;
  f_elapsedTime : Z;
  f_orthancStudyId : string;
  failedAt : Z
}.
(** What is stored in the cache: [success: true] with a result, or
    [success: false] with an error result. *)
Inductive Outcome := Success (r : t) | NoSuccess (e : Failure).
End JobResult.

(** An archive request: the resource path and the [timeout] option. *)
Inductive Resource :=
| StudyPath (id : string)             (* /studies/{id} *)
| StudyInstancesPath (id : string)    (* /studies/{id}/instances *)
| SeriesPath (id : string)            (* /series/{id} *)
| InstancePath (id : string)          (* /instances/{id} *)
| SimplifiedTagsPath (id : string).   (* /instances/{id}/simplified-tags *)

Record Request := { resource : Resource; timeout : Z }.

(** The collaborators of one pipeline run: the archive's answers, the
    clock, the ObjectId generator, what the document store accepts on
    [save] (the schemas live in [models/*.js]) and the notifier. *)
Record Env := {
  clock : nat -> Z;                        (* the n-th reading of Date.now() *)
  toISOString : Z -> string;               (* Date.prototype.toISOString *)
  dateFullYear : string -> option Z;       (* new Date(s).getFullYear(); None: invalid date *)
  newObjectId : nat -> string;             (* the n-th generated ObjectId, as a string *)
  castObjectId : string -> option string;  (* ObjectId of a string; None: not valid *)
  getStudy : string -> Result StudyInfo.t;
  getStudyInstances : string -> Result (list Instance);
  getSeries : Z -> string -> Result SeriesInfo.t;
  getInstance : string -> Result unit;
  getSimplifiedTags : string -> Result Tags;
  patientAccepted : list Patient.t -> Patient.t -> option Err;
  labAccepted : list Lab.t -> Lab.t -> option Err;
  studyAccepted : list Study.t -> Study.t -> option Err;
  notifier : option Err
}.

(** What a run reads and writes. *)
Record St := {
  patients : list Patient.t;
  labs : list Lab.t;
  studies : list Study.t;
  redis : gmap string (Z * JobResult.Outcome);   (* key -> (ttl, value) *)
  requests : list Request;                       (* archive requests, oldest first *)
  clockReads : nat;
  objectIds : nat;
  notifications : nat;
  progress : Z                                   (* job.progress *)
}.

Definition set_patients (v : list Patient.t) (s : St) : St :=
  {| patients := v; labs := labs s; studies := studies s; redis := redis s;
     requests := requests s; clockReads := clockReads s; objectIds := objectIds s;
     notifications := notifications s; progress := progress s |}.
Definition set_labs (v : list Lab.t) (s : St) : St :=
  {| patients := patients s; labs := v; studies := studies s; redis := redis s;
     requests := requests s; clockReads := clockReads s; objectIds := objectIds s;
     notifications := notifications s; progress := progress s |}.
Definition set_studies (v : list Study.t) (s : St) : St :=
  {| patients := patients s; labs := labs s; studies := v; redis := redis s;
     requests := requests s; clockReads := clockReads s; objectIds := objectIds s;
     notifications := notifications s; progress := progress s |}.
Definition set_redis (v : gmap string (Z * JobResult.Outcome)) (s : St) : St :=
  {| patients := patients s; labs := labs s; studies := studies s; redis := v;
     requests := requests s; clockReads := clockReads s; objectIds := objectIds s;
     notifications := notifications s; progress := progress s |}.
Definition set_requests (v : list Request) (s : St) : St :=
  {| patients := patients s; labs := labs s; studies := studies s; redis := redis s;
     requests := v; clockReads := clockReads s; objectIds := objectIds s;
     notifications := notifications s; progress := progress s |}.
Definition set_clockReads (v : nat) (s : St) : St :=
  {| patients := patients s; labs := labs s; studies := studies s; redis := redis s;
     requests := requests s; clockReads := v; objectIds := objectIds s;
     notifications := notifications s; progress := progress s |}.
Definition set_objectIds (v : nat) (s : St) : St :=
  {| patients := patients s; labs := labs s; studies := studies s; redis := redis s;
     requests := requests s; clockReads := clockReads s; objectIds := v;
     notifications := notifications s; progress := progress s |}.
Definition set_notifications (v : nat) (s : St) : St :=
  {| patients := patients s; labs := labs s; studies := studies s; redis := redis s;
     requests := requests s; clockReads := clockReads s; objectIds := objectIds s;
     notifications := v; progress := progress s |}.
Definition set_progress (v : Z) (s : St) : St :=
  {| patients := patients s; labs := labs s; studies := studies s; redis := redis s;
     requests := requests s; clockReads := clockReads s; objectIds := objectIds s;
     notifications := notifications s; progress := v |}.

(* ===================================================================== *)
(** ** The pipeline monad: state and exceptions *)
(* ===================================================================== *)

(** A computation reads and writes [St] and either returns ([inr]) or
    throws ([inl]); the state written before a throw is kept. *)
Definition M (A : Type) : Type := St -> Result A * St.

Definition ret {A} (a : A) : M A := fun s => (inr a, s).
Definition throw {A} (e : Err) : M A := fun s => (inl e, s).
Definition bind {A B} (m : M A) (k : A -> M B) : M B :=
  fun s => match m s with
           | (inl e, s') => (inl e, s')
           | (inr a, s') => k a s'
           end.
(** [try { m } catch (error) { h error }] *)
Definition try_catch {A} (m : M A) (h : Err -> M A) : M A :=
  fun s => match m s with
           | (inl e, s') => h e s'
           | (inr a, s') => (inr a, s')
           end.
Definition modify (f : St -> St) : M unit := fun s => (inr tt, f s).
Definition gets {A} (f : St -> A) : M A := fun s => (inr (f s), s).

Declare Scope pipeline_scope.
Delimit Scope pipeline_scope with pipeline.
Notation "x <- c1 ;; c2" := (bind c1 (fun x => c2))
  (at level 100, c1 at next level, right associativity) : pipeline_scope.
Notation "c1 ;; c2" := (bind c1 (fun _ => c2))
  (at level 100, right associativity) : pipeline_scope.
Local Open Scope pipeline_scope.

Section Pipeline.
Variable env : Env.

(** [Date.now()] and [new Date()]: one reading of the clock. *)
Definition dateNow : M Z :=
  fun s => (inr (clock env (clockReads s)), set_clockReads (S (clockReads s)) s).

(** [new mongoose.Types.ObjectId()] *)
Definition generateObjectId : M string :=
  fun s => (inr (newObjectId env (objectIds s)), set_objectIds (S (objectIds s)) s).

(** [await axios.get(url, { timeout })]: the request is recorded, then
    the archive's answer is returned or thrown. *)
Definition axios_get {A} (r : Resource) (t : Z) (answer : Result A) : M A :=
  fun s => (answer, set_requests (requests s ++ [{| resource := r; timeout := t |}]) s).

(** [job.progress = p] *)
Definition jobProgress (p : Z) : M unit := modify (set_progress p).

(** [await redis.setex(key, ttl, JSON.stringify(value))] *)
Definition redis_setex (key : string) (ttl : Z) (v : JobResult.Outcome) : M unit :=
  modify (fun s => set_redis (<[key := (ttl, v)]> (redis s)) s).

(** [doc.save()] on a collection whose primary key is [_id]. A document
    built with [new Model(...)] ([isNew]) is inserted, and the insertion
    is refused when its [_id] is already stored; a document that was
    loaded from the collection replaces the stored one. *)
Definition duplicateKey : Err := "E11000 duplicate key error".

Definition store_save {A} (key : A -> string) (isNew : bool) (d : A) (l : list A)
  : Result (list A) :=
  if isNew then
    if existsb (fun x => String.eqb (key x) (key d)) l then inl duplicateKey
    else inr (l ++ [d])%list
  else inr (map (fun x => if String.eqb (key x) (key d) then d else x) l).

Definition Patient_findOne (f : Patient.t -> bool) : M (option Patient.t) :=
  gets (fun s => find f (patients s)).
Definition Patient_save (isNew : bool) (p : Patient.t) : M unit :=
  fun s => match patientAccepted env (patients s) p with
           | Some e => (inl e, s)
           | None =>
               match store_save Patient._id isNew p (patients s) with
               | inl e => (inl e, s)
               | inr l => (inr tt, set_patients l s)
               end
           end.

Definition Lab_findOne (f : Lab.t -> bool) : M (option Lab.t) :=
  gets (fun s => find f (labs s)).
Definition Lab_save (isNew : bool) (l : Lab.t) : M unit :=
  fun s => match labAccepted env (labs s) l with
           | Some e => (inl e, s)
           | None =>
               match store_save Lab._id isNew l (labs s) with
               | inl e => (inl e, s)
               | inr l' => (inr tt, set_labs l' s)
               end
           end.

Definition DicomStudy_findOne (f : Study.t -> bool) : M (option Study.t) :=
  gets (fun s => find f (studies s)).
Definition DicomStudy_save (isNew : bool) (d : Study.t) : M unit :=
  fun s => match studyAccepted env (studies s) d with
           | Some e => (inl e, s)
           | None =>
               match store_save Study._id isNew d (studies s) with
               | inl e => (inl e, s)
               | inr l => (inr tt, set_studies l s)
               end
           end.

(* =================================================================== *)
(** ** formatDicomDateToISO *)
(* =================================================================== *)

Definition formatDicomDateToISO (dicomDate : option string) : M (option JsDate) :=
  if negb (Js.truthy dicomDate) then ret None
  else
    let cleanDate := Js.trim (Js.or_else dicomDate "") in
    let fallback : M (option JsDate) :=
      match dateFullYear env cleanDate with
      | Some y => if 1900 <? y then ret (Some (DateParsed cleanDate))
                  else (t <- dateNow ;; ret (Some (DateAt t)))
      | None => t <- dateNow ;; ret (Some (DateAt t))
      end in
    if ((String.length cleanDate =? 8)%nat && Js.all_digits cleanDate)%bool then
      let year := Js.substring 0 4 cleanDate in
      let month := Js.substring 4 6 cleanDate in
      let day := Js.substring 6 8 cleanDate in
      let yearNum := Js.parseInt year in
      let monthNum := Js.parseInt month in
      let dayNum := Js.parseInt day in
      if ((1900 <=? yearNum) && (yearNum <=? 2100) && (1 <=? monthNum)
          && (monthNum <=? 12) && (1 <=? dayNum) && (dayNum <=? 31))%bool
      then ret (Some (DateUTC year month day))
      else fallback
    else fallback.

(* =================================================================== *)
(** ** findOrCreatePatientFromTags *)
(* =================================================================== *)

(** [new mongoose.Types.ObjectId().toString().slice(0,8).toUpperCase()] *)
Definition generatePatientID : M string :=
  oid <- generateObjectId ;; ret (Js.toUpperCase (Js.substring 0 8 oid)).

(** The filter [{ mrn: q }]; a missing [q] (undefined) matches the
    documents whose [mrn] is null or missing. *)
Definition mrn_is (q : option string) (p : Patient.t) : bool :=
  bool_decide (Patient.mrn p = q).

Definition findOrCreatePatientFromTags (tags : Tags) : M Patient.t :=
  let patientIdDicom := tags !! "PatientID" in
  let nameInfo := processDicomPersonName (tags !! "PatientName") in
  let patientSex := tags !! "PatientSex" in
  let patientBirthDate := tags !! "PatientBirthDate" in
  if (negb (Js.truthy patientIdDicom) && negb (Js.nonempty (fullName nameInfo)))%bool then
    unknownPatient <- Patient_findOne (mrn_is (Some "UNKNOWN_STABLE_STUDY")) ;;
    match unknownPatient with
    | Some p => ret p
    | None =>
        pid <- generatePatientID ;;
        oid <- generateObjectId ;;
        let p := {| Patient._id := oid;
                    Patient.mrn := Some "UNKNOWN_STABLE_STUDY";
                    Patient.patientID := pid;
                    Patient.patientNameRaw := "Unknown Patient (Stable Study)";
                    Patient.firstName := "";
                    Patient.lastName := "";
                    Patient.computed := None;
                    Patient.gender := Js.or_else patientSex "";
                    Patient.dateOfBirth := Patient.DobString (Js.or_else patientBirthDate "");
                    Patient.isAnonymous := true |} in
        Patient_save true p ;;
        ret p
    end
  else
    patient <- Patient_findOne (mrn_is patientIdDicom) ;;
    match patient with
    | None =>
        generatedPatientID <- generatePatientID ;;
        mrn <- (if Js.truthy patientIdDicom then ret (Js.or_else patientIdDicom "")
                else t <- dateNow ;; ret ("ANON_" ++ Js.of_Z t)) ;;
        dob <- (if Js.truthy patientBirthDate
                then d <- formatDicomDateToISO patientBirthDate ;;
                     ret (match d with
                          | Some d => Patient.DobDate d
                          | None => Patient.DobNull
                          end)
                else ret (Patient.DobString "")) ;;
        oid <- generateObjectId ;;
        let p := {| Patient._id := oid;
                    Patient.mrn := Some mrn;
                    Patient.patientID := generatedPatientID;
                    Patient.patientNameRaw := formattedForDisplay nameInfo;
                    Patient.firstName := firstName nameInfo;
                    Patient.lastName := lastName nameInfo;
                    Patient.computed :=
                      Some {| Patient.fullName := formattedForDisplay nameInfo;
                              Patient.namePrefix := namePrefix nameInfo;
                              Patient.nameSuffix := nameSuffix nameInfo;
                              Patient.originalDicomName := originalDicomFormat nameInfo |};
                    Patient.gender := Js.or_else patientSex "";
                    Patient.dateOfBirth := dob;
                    Patient.isAnonymous := false |} in
        Patient_save true p ;;
        ret p
    | Some patient =>
        if (Js.nonempty (Patient.patientNameRaw patient)
            && Js.includes "^" (Patient.patientNameRaw patient)
            && Js.nonempty (formattedForDisplay nameInfo)
            && negb (Js.includes "^" (formattedForDisplay nameInfo)))%bool
        then
          let c := match Patient.computed patient with
                   | Some c => c
                   | None => {| Patient.fullName := ""; Patient.namePrefix := "";
                                Patient.nameSuffix := ""; Patient.originalDicomName := "" |}
                   end in
          let p := {| Patient._id := Patient._id patient;
                      Patient.mrn := Patient.mrn patient;
                      Patient.patientID := Patient.patientID patient;
                      Patient.patientNameRaw := formattedForDisplay nameInfo;
                      Patient.firstName := firstName nameInfo;
                      Patient.lastName := lastName nameInfo;
                      Patient.computed :=
                        Some {| Patient.fullName := formattedForDisplay nameInfo;
                                Patient.namePrefix := Patient.namePrefix c;
                                Patient.nameSuffix := Patient.nameSuffix c;
                                Patient.originalDicomName := originalDicomFormat nameInfo |};
                      Patient.gender := Patient.gender patient;
                      Patient.dateOfBirth := Patient.dateOfBirth patient;
                      Patient.isAnonymous := Patient.isAnonymous patient |} in
          Patient_save false p ;;
          ret p
        else ret patient
    end.

(* =================================================================== *)
(** ** findOrCreateSourceLab *)
(* =================================================================== *)

Definition DEFAULT_LAB_name : string := "Primary Orthanc Instance (Stable Study)".
Definition DEFAULT_LAB_identifier : string := "ORTHANC_STABLE_SOURCE".

(** [x || null] *)
Definition or_null (o : option string) : option string :=
  if Js.truthy o then o else None.

(** [source.trim().replace(/_/g, ' ').replace(/\s+/g, ' ')]: the lab name
    of a heuristic source. *)
Definition labNameOf (source : string) : string :=
  Js.replace_ws " " (Js.replace_char "_" " " (Js.trim source)).

(** [labName.toUpperCase().replace(/\s+/g, '_')], with the upper case and
    the white space of [Js]: they are JavaScript's on a source of ASCII
    characters ([Js.is_ascii]). *)
Definition labIdentifierOf (source : string) : string :=
  Js.replace_ws "_" (Js.toUpperCase (labNameOf source)).

(** [{ name: { $regex: /^labName$/i } }]: the pattern is escaped, so it
    matches the name itself, letter case ignored. *)
Definition name_matches (labName : string) (l : Lab.t) : bool :=
  String.eqb (Js.toUpperCase (Lab.name l)) (Js.toUpperCase labName).

(** Priority 1: the lab named by tag [0011,1010]. [Some l] is a
    [return l]; [None] continues with the fallback methods. *)
Definition labFromCustomId (customLabId : option string) : M (option Lab.t) :=
  let id := Js.or_else customLabId "" in
  if (Js.truthy customLabId && negb (String.eqb (Js.trim id) "")
      && negb (String.eqb id "UNKNOWN_LAB"))%bool then
    try_catch
      (match castObjectId env id with
       | Some oid =>
           labById <- Lab_findOne (fun l => String.eqb (Lab._id l) oid) ;;
           match labById with
           | Some l => if Lab.isActive l then ret (Some l)
                       else ret None  (* warning: found but inactive *)
           | None => ret None         (* warning: not found *)
           end
       | None =>
           Lab_findOne (fun l => String.eqb (Lab.identifier l) (Js.toUpperCase id)
                                 && Lab.isActive l)
       end)
      (fun labLookupError => ret None)
  else ret None.

(** The loop over [possibleLabSources]: the first source that is a string
    of trimmed length at least 3 decides, by lookup or by creation. *)
Fixpoint labFromSources (tags : Tags) (customLabId : option string)
         (sources : list (option string)) : M (option Lab.t) :=
  match sources with
  | [] => ret None
  | source :: rest =>
      let src := Js.or_else source "" in
      if (Js.truthy source && (3 <=? String.length (Js.trim src))%nat)%bool then
        let labName := labNameOf src in
        let identifier := labIdentifierOf src in
        lab <- Lab_findOne (fun l => (name_matches labName l
                                      || String.eqb (Lab.identifier l) identifier)
                                     && Lab.isActive l) ;;
        match lab with
        | Some l => ret (Some l)
        | None =>
            t <- dateNow ;;
            oid <- generateObjectId ;;
            let l := {| Lab._id := oid;
                        Lab.name := labName;
                        Lab.identifier := identifier;
                        Lab.isActive := true;
                        Lab.notes :=
                          "Auto-created from stable study DICOM tags on "
                          ++ toISOString env t ++ ". Original custom Lab ID: "
                          ++ Js.or_else customLabId "Not provided";
                        Lab.contactPerson :=
                          Js.or_else (tags !! "PerformingPhysicianName")
                            (Js.or_else (tags !! "ReferringPhysicianName") "");
                        Lab.metadata :=
                          Some {| Lab.sourceField := "InstitutionName";
                                  Lab.originalDicomValue := src;
                                  Lab.createdFromStableStudy := true;
                                  Lab.originalCustomLabId := or_null customLabId |} |} in
            Lab_save true l ;;
            ret (Some l)
        end
      else labFromSources tags customLabId rest
  end.

Definition possibleLabSources (tags : Tags) : list (option string) :=
  [ tags !! "InstitutionName"; tags !! "StationName"; tags !! "Manufacturer";
    tags !! "ManufacturerModelName"; tags !! "PerformingPhysicianName";
    tags !! "ReferringPhysicianName" ].

(** Final fallback: the default lab, looked up by identifier alone. *)
Definition defaultLab (customLabId : option string) : M Lab.t :=
  found <- Lab_findOne (fun l => String.eqb (Lab.identifier l) DEFAULT_LAB_identifier) ;;
  match found with
  | Some l => ret l
  | None =>
      oid <- generateObjectId ;;
      let l := {| Lab._id := oid;
                  Lab.name := DEFAULT_LAB_name;
                  Lab.identifier := DEFAULT_LAB_identifier;
                  Lab.isActive := true;
                  Lab.notes := "Default lab created. Original custom Lab ID: "
                               ++ Js.or_else customLabId "Not provided";
                  Lab.contactPerson := "";
                  Lab.metadata := None |} in
      Lab_save true l ;;
      ret l
  end.

(** The fallback methods: heuristic sources, then the default lab. *)
Definition labFallback (tags : Tags) (customLabId : option string) : M Lab.t :=
  r <- labFromSources tags customLabId (possibleLabSources tags) ;;
  match r with
  | Some l => ret l
  | None => defaultLab customLabId
  end.

(** The [catch] of the whole resolution. *)
Definition emergencyLab (tags : Tags) (error : Err) : M Lab.t :=
  found <- Lab_findOne Lab.isActive ;;
  match found with
  | Some l => ret l
  | None =>
      oid <- generateObjectId ;;
      let l := {| Lab._id := oid;
                  Lab.name := "Emergency Default Lab";
                  Lab.identifier := "EMERGENCY_DEFAULT";
                  Lab.isActive := true;
                  Lab.notes := "Emergency lab created due to error. Original custom Lab ID: "
                               ++ Js.or_else (tags !! "0011,1010") "Not provided";
                  Lab.contactPerson := "";
                  Lab.metadata := None |} in
      Lab_save true l ;;
      ret l
  end.

Definition findOrCreateSourceLab (tags : Tags) : M Lab.t :=
  try_catch
    (let customLabId := tags !! "0011,1010" in
     r <- labFromCustomId customLabId ;;
     match r with
     | Some l => ret l
     | None => labFallback tags customLabId
     end)
    (emergencyLab tags).

(* =================================================================== *)
(** ** processStableStudy *)
(* =================================================================== *)

(** The locals of instance discovery. [firstInstanceId] is [None] for
    null, an identifier string, or the listed object itself. *)
Record Discovery := {
  instancesArray : list Instance;
  firstInstanceId : option Instance;
  tags : Tags
}.

(** [typeof x === 'string' ? x : x.ID || x] *)
Definition instanceIdOf (x : Instance) : Instance :=
  match x with
  | InstanceId s => InstanceId s
  | InstanceObj ID => if Js.truthy ID then InstanceId (Js.or_else ID "") else x
  end.

(** Truthiness of [firstInstanceId]. *)
Definition hasInstanceId (f : option Instance) : bool :=
  match f with
  | None => false
  | Some (InstanceId s) => Js.nonempty s
  | Some (InstanceObj _) => true
  end.

(** [`${firstInstanceId}`] *)
Definition instanceIdString (f : option Instance) : string :=
  match f with
  | Some (InstanceId s) => s
  | Some (InstanceObj _) => "[object Object]"
  | None => "null"
  end.

(** [a || []] *)
Definition or_nil {A} (o : option (list A)) : list A :=
  match o with Some l => l | None => [] end.

(** [Object.keys(tags).length === 0] *)
Definition no_keys (t : Tags) : bool := bool_decide (t = ∅).

(** Method 1: [/studies/{id}/instances]. *)
Definition method1 (orthancStudyId : string) : M Discovery :=
  try_catch
    (data <- axios_get (StudyInstancesPath orthancStudyId) 15000
               (getStudyInstances env orthancStudyId) ;;
     ret {| instancesArray := data;
            firstInstanceId := match data with
                               | x :: _ => Some (instanceIdOf x)
                               | [] => None
                               end;
            tags := ∅ |})
    (fun instancesError =>
       ret {| instancesArray := []; firstInstanceId := None; tags := ∅ |}).

(** Method 2: the body of the loop over [studyInfo.Series]. *)
Fixpoint method2 (series : list string) (d : Discovery) : M Discovery :=
  match series with
  | [] => ret d
  | seriesId :: rest =>
      d' <- try_catch
              (seriesData <- axios_get (SeriesPath seriesId) 5000
                               (getSeries env 5000 seriesId) ;;
               let seriesInstances := or_nil (SeriesInfo.Instances seriesData) in
               ret {| instancesArray := instancesArray d ++ seriesInstances;
                      firstInstanceId :=
                        if hasInstanceId (firstInstanceId d) then firstInstanceId d
                        else match seriesInstances with
                             | x :: _ => Some (instanceIdOf x)
                             | [] => firstInstanceId d
                             end;
                      tags :=
                        match SeriesInfo.MainDicomTags seriesData with
                        | Some t => if no_keys (tags d) then t ∪ tags d else tags d
                        | None => tags d
                        end |})
              (fun seriesError => ret d) ;;
      method2 rest d'
  end.

(** Method 3: each series identifier probed as an instance identifier. *)
Fixpoint method3 (series : list string) (d : Discovery) : M Discovery :=
  match series with
  | [] => ret d
  | seriesId :: rest =>
      d' <- try_catch
              (axios_get (InstancePath seriesId) 3000 (getInstance env seriesId) ;;
               ret {| instancesArray := instancesArray d ++ [InstanceId seriesId];
                      firstInstanceId :=
                        if hasInstanceId (firstInstanceId d) then firstInstanceId d
                        else Some (InstanceId seriesId);
                      tags := tags d |})
              (fun instanceTestError => ret d) ;;
      method3 rest d'
  end.

(** [studyInfo.Series && studyInfo.Series.length > 0] *)
Definition hasSeries (studyInfo : StudyInfo.t) : bool :=
  match StudyInfo.Series studyInfo with
  | Some (_ :: _) => true
  | _ => false
  end.

(** Instance discovery: methods 1 to 3. *)
Definition discoverInstances (orthancStudyId : string) (studyInfo : StudyInfo.t)
  : M Discovery :=
  d1 <- method1 orthancStudyId ;;
  d2 <- (if (Nat.eqb (length (instancesArray d1)) 0 && hasSeries studyInfo)%bool
         then method2 (or_nil (StudyInfo.Series studyInfo)) d1
         else ret d1) ;;
  (if (Nat.eqb (length (instancesArray d2)) 0 && hasSeries studyInfo)%bool
   then method3 (or_nil (StudyInfo.Series studyInfo)) d2
   else ret d2).

(** The tag set used for processing: instance tags over the accumulated
    ones, study-level tags as fallback, then the minimal placeholders. *)
Definition collectTags (studyInfo : StudyInfo.t) (studyInstanceUID : string)
           (d : Discovery) : M Tags :=
  t1 <- (if hasInstanceId (firstInstanceId d) then
           try_catch
             (data <- axios_get (SimplifiedTagsPath (instanceIdString (firstInstanceId d)))
                        8000 (getSimplifiedTags env (instanceIdString (firstInstanceId d))) ;;
              ret (data ∪ tags d))
             (fun metadataError => ret (tags d))
         else ret (tags d)) ;;
  let t2 : Tags :=
    if (no_keys t1 || negb (Js.truthy (t1 !! "PatientName")))%bool
    then t1 ∪ default ∅ (StudyInfo.MainDicomTags studyInfo)
    else t1 in
  if (negb (Js.truthy (t2 !! "PatientName")) && negb (Js.truthy (t2 !! "PatientID")))%bool
  then
    now1 <- dateNow ;;
    now2 <- dateNow ;;
    let minimal : Tags :=
      <["PatientName" := "Unknown Patient"]>
      (<["PatientID" := "UNKNOWN_" ++ Js.of_Z now1]>
      (<["StudyDescription" := "Unknown Study"]>
      (<["StudyInstanceUID" := studyInstanceUID]>
      (<["StudyDate" := Js.remove_char "-" (Js.substring 0 10 (toISOString env now2))]>
      (<["Modality" := "UNKNOWN"]> ∅))))) in
    ret (t2 ∪ minimal)
  else ret t2.

(** [modalitiesSet.add(m)]: a set in insertion order. *)
Definition set_add (m : string) (l : list string) : list string :=
  if existsb (String.eqb m) l then l else l ++ [m].

(** The loop that asks every series for its modality. *)
Fixpoint seriesModalities (series : list string) (acc : list string) : M (list string) :=
  match series with
  | [] => ret acc
  | seriesId :: rest =>
      acc' <- try_catch
                (seriesData <- axios_get (SeriesPath seriesId) 3000
                                 (getSeries env 3000 seriesId) ;;
                 let modality :=
                   match SeriesInfo.MainDicomTags seriesData with
                   | Some t => t !! "Modality"
                   | None => None
                   end in
                 ret (if Js.truthy modality then set_add (Js.or_else modality "") acc
                      else acc))
                (fun seriesError => ret acc) ;;
      seriesModalities rest acc'
  end.

Definition collectModalities (studyInfo : StudyInfo.t) (tags : Tags) : M (list string) :=
  let initial := if Js.truthy (tags !! "Modality")
                 then [Js.or_else (tags !! "Modality") ""] else [] in
  ms <- seriesModalities (or_nil (StudyInfo.Series studyInfo)) initial ;;
  ret (match ms with [] => ["UNKNOWN"] | _ => ms end).

(** [job.data] *)
Record JobData := {
  orthancStudyId : string;
  requestId : string;
  submittedAt : Z;
  originalBody : string
}.

(** [tags.X || ''] *)
Definition tag (tags : Tags) (k : string) : string := Js.or_else (tags !! k) "".

(** The object literal [studyData]. *)
Definition studyDataOf (orthancStudyId studyInstanceUID : string) (tags : Tags)
           (patientRecord : Patient.t) (labRecord : Lab.t)
           (studyDate : option JsDate) (modalities : list string)
           (actualSeriesCount actualInstanceCount : Z) (receivedAt : Z) : Study.Data :=
  let customLab := tags !! "0011,1010" in
  {| Study.orthancStudyID := orthancStudyId;
     Study.studyInstanceUID := studyInstanceUID;
     Study.accessionNumber := tag tags "AccessionNumber";
     Study.patient := Patient._id patientRecord;
     Study.patientId := Patient.patientID patientRecord;
     Study.sourceLab := Lab._id labRecord;
     Study.studyDate := studyDate;
     Study.studyTime := tag tags "StudyTime";
     Study.modalitiesInStudy := modalities;
     Study.examDescription := Js.or_else (tags !! "StudyDescription") "Unknown Study";
     Study.institutionName := tag tags "InstitutionName";
     Study.workflowStatus :=
       if 0 <? actualInstanceCount then "new_study_received" else "new_metadata_only";
     Study.seriesCount := actualSeriesCount;
     Study.instanceCount := actualInstanceCount;
     Study.seriesImages := Js.of_Z actualSeriesCount ++ "/" ++ Js.of_Z actualInstanceCount;
     Study.patientInfo :=
       {| Study.patientID := Patient.patientID patientRecord;
          Study.patientName := Patient.patientNameRaw patientRecord;
          Study.gender := Patient.gender patientRecord;
          Study.dateOfBirth := tag tags "PatientBirthDate" |};
     Study.referringPhysicianName := tag tags "ReferringPhysicianName";
     Study.physicians :=
       {| Study.referring :=
            {| Study.name := tag tags "ReferringPhysicianName";
               Study.email := "";
               Study.mobile := tag tags "ReferringPhysicianTelephoneNumbers";
               Study.institution := tag tags "ReferringPhysicianAddress" |};
          Study.requesting :=
            {| Study.name := tag tags "RequestingPhysician";
               Study.email := "";
               Study.mobile := "";
               Study.institution := tag tags "RequestingService" |} |};
     Study.technologist :=
       {| Study.t_name := Js.or_else (tags !! "OperatorName")
                            (tag tags "PerformingPhysicianName");
          Study.t_mobile := "";
          Study.comments := "";
          Study.reasonToSend := Js.or_else (tags !! "ReasonForStudy")
                                  (tag tags "RequestedProcedureDescription") |};
     Study.studyPriority := Js.or_else (tags !! "StudyPriorityID") "SELECT";
     Study.caseType := Js.or_else (tags !! "RequestPriority") "routine";
     Study.equipment :=
       {| Study.manufacturer := tag tags "Manufacturer";
          Study.model := tag tags "ManufacturerModelName";
          Study.stationName := tag tags "StationName";
          Study.softwareVersion := tag tags "SoftwareVersions" |};
     Study.protocolName := tag tags "ProtocolName";
     Study.bodyPartExamined := tag tags "BodyPartExamined";
     Study.contrastBolusAgent := tag tags "ContrastBolusAgent";
     Study.contrastBolusRoute := tag tags "ContrastBolusRoute";
     Study.acquisitionDate := tag tags "AcquisitionDate";
     Study.acquisitionTime := tag tags "AcquisitionTime";
     Study.studyComments := tag tags "StudyComments";
     Study.additionalPatientHistory := tag tags "AdditionalPatientHistory";
     Study.customLabInfo :=
       {| Study.dicomLabId := or_null customLab;
          Study.labIdSource :=
            if Js.truthy customLab then "dicom_custom_tag" else "fallback_detection";
          Study.labDetectionMethod :=
            if (Js.truthy customLab
                && bool_decide (is_Some (castObjectId env (Js.or_else customLab ""))))%bool
            then "mongodb_objectid"
            else if Js.truthy customLab then "identifier_lookup"
                 else "dicom_tags_fallback" |};
     Study.storageInfo :=
       {| Study.type := "orthanc";
          Study.orthancStudyId := orthancStudyId;
          Study.receivedAt := receivedAt;
          Study.isStableStudy := true;
          Study.instancesFound := actualInstanceCount;
          Study.processingMethod :=
            if 0 <? actualInstanceCount then "with_instances" else "metadata_only";
          Study.debugInfo :=
            {| Study.apiInstancesFound := actualInstanceCount;
               Study.webUIShowsInstances := true;
               Study.apiMethodUsed :=
                 if 0 <? actualInstanceCount then "series_lookup"
                 else "study_metadata_only";
               Study.customLabIdProvided := Js.truthy customLab;
               Study.customLabIdValue := or_null customLab |} |} |}.

(** The text of a status-history note. *)
Definition historyNote (verb : string) (actualSeriesCount actualInstanceCount : Z)
           (labRecord : Lab.t) (tags : Tags) : string :=
  "Stable study " ++ verb ++ ": " ++ Js.of_Z actualSeriesCount ++ " series, "
  ++ Js.of_Z actualInstanceCount ++ " instances. Lab: " ++ Lab.name labRecord
  ++ " (Custom Lab ID: " ++ Js.or_else (tags !! "0011,1010") "Not provided" ++ ")".

(** Lookup by [studyInstanceUID], then [Object.assign] and one more
    history entry on the stored document, or a new document with the
    first entry; one [save]. Returns the saved document. *)
Definition upsertStudy (studyData : Study.Data) (labRecord : Lab.t) (tags : Tags)
           (found : option Study.t) : M Study.t :=
  let sc := Study.seriesCount studyData in
  let ic := Study.instanceCount studyData in
  changedAt <- dateNow ;;
  match found with
  | Some dicomStudyDoc =>
      let doc := {| Study._id := Study._id dicomStudyDoc;
                    Study.data := studyData;
                    Study.statusHistory :=
                      Study.statusHistory dicomStudyDoc ++
                      [{| Study.status := Study.workflowStatus studyData;
                          Study.changedAt := changedAt;
                          Study.note := historyNote "updated" sc ic labRecord tags |}] |} in
      DicomStudy_save false doc ;;
      ret doc
  | None =>
      oid <- generateObjectId ;;
      let doc := {| Study._id := oid;
                    Study.data := studyData;
                    Study.statusHistory :=
                      [{| Study.status := Study.workflowStatus studyData;
                          Study.changedAt := changedAt;
                          Study.note := historyNote "created" sc ic labRecord tags |}] |} in
      DicomStudy_save true doc ;;
      ret doc
  end.

(** [{ studyInstanceUID }] *)
Definition uid_is (studyInstanceUID : string) (d : Study.t) : bool :=
  String.eqb (Study.studyInstanceUID (Study.data d)) studyInstanceUID.

Definition resultKey (requestId : string) : string := "job:result:" ++ requestId.

(** [studyInfo.MainDicomTags?.StudyInstanceUID] *)
Definition studyInstanceUIDOf (studyInfo : StudyInfo.t) : option string :=
  match StudyInfo.MainDicomTags studyInfo with
  | Some t => t !! "StudyInstanceUID"
  | None => None
  end.

(** What the first part of the [try] block has computed when the study
    record is about to be written. *)
Record Extracted := {
  x_studyInstanceUID : string;
  x_tags : Tags;
  x_patientRecord : Patient.t;
  x_labRecord : Lab.t;
  x_modalities : list string;
  x_dicomStudyDoc : option Study.t;
  x_studyData : Study.Data
}.

(** The [try] block up to and including the object literal [studyData]. *)
Definition extractStudyData (job : JobData) : M Extracted :=
  let orthancStudyId := orthancStudyId job in
  jobProgress 10 ;;
  studyInfo <- axios_get (StudyPath orthancStudyId) 10000 (getStudy env orthancStudyId) ;;
  let studyInstanceUID := studyInstanceUIDOf studyInfo in
  if negb (Js.truthy studyInstanceUID)
  then throw "StudyInstanceUID not found in stable study"
  else
    let studyInstanceUID := Js.or_else studyInstanceUID "" in
    jobProgress 30 ;;
    d <- discoverInstances orthancStudyId studyInfo ;;
    jobProgress 50 ;;
    tags <- collectTags studyInfo studyInstanceUID d ;;
    jobProgress 60 ;;
    patientRecord <- findOrCreatePatientFromTags tags ;;
    labRecord <- findOrCreateSourceLab tags ;;
    jobProgress 70 ;;
    modalities <- collectModalities studyInfo tags ;;
    jobProgress 80 ;;
    dicomStudyDoc <- DicomStudy_findOne (uid_is studyInstanceUID) ;;
    let actualInstanceCount := Z.of_nat (length (instancesArray d)) in
    let actualSeriesCount :=
      Z.of_nat (length (or_nil (StudyInfo.Series studyInfo))) in
    studyDate <- formatDicomDateToISO (tags !! "StudyDate") ;;
    receivedAt <- dateNow ;;
    ret {| x_studyInstanceUID := studyInstanceUID;
           x_tags := tags;
           x_patientRecord := patientRecord;
           x_labRecord := labRecord;
           x_modalities := modalities;
           x_dicomStudyDoc := dicomStudyDoc;
           x_studyData :=
             studyDataOf orthancStudyId studyInstanceUID tags patientRecord labRecord
                         studyDate modalities actualSeriesCount actualInstanceCount
                         receivedAt |}.

(** The [try] block of [processStableStudy]. *)
Definition processStableStudy_try (job : JobData) (startTime : Z) : M JobResult.t :=
  x <- extractStudyData job ;;
  let studyData := x_studyData x in
  let tags := x_tags x in
  doc <- upsertStudy studyData (x_labRecord x) tags (x_dicomStudyDoc x) ;;
  jobProgress 90 ;;
  dateNow ;;                      (* studyNotificationData.isNewLab *)
  try_catch
    (match notifier env with
     | Some e => throw e
     | None => modify (fun s => set_notifications (S (notifications s)) s)
     end)
    (fun wsError => ret tt) ;;
  jobProgress 100 ;;
  processedAt <- dateNow ;;
  finished <- dateNow ;;
  let result :=
    {| JobResult.orthancStudyId := orthancStudyId job;
       JobResult.studyDatabaseId := Study._id doc;
       JobResult.studyInstanceUID := x_studyInstanceUID x;
       JobResult.seriesCount := Study.seriesCount studyData;
       JobResult.instanceCount := Study.instanceCount studyData;
       JobResult.processedAt := processedAt;
       JobResult.elapsedTime := finished - startTime;
       JobResult.processingMethod :=
         if 0 <? Study.instanceCount studyData then "with_instances" else "metadata_only";
       JobResult.metadataSummary :=
         {| JobResult.patientName := Patient.patientNameRaw (x_patientRecord x);
            JobResult.patientId := Patient.patientID (x_patientRecord x);
            JobResult.modalities := x_modalities x;
            JobResult.studyDate := Js.or_else (tags !! "StudyDate") "Unknown";
            JobResult.labName := Lab.name (x_labRecord x);
            JobResult.institutionName :=
              Js.or_else (tags !! "InstitutionName") "Unknown" |} |} in
  redis_setex (resultKey (requestId job)) 3600 (JobResult.Success result) ;;
  dateNow ;;                      (* the closing log line *)
  ret result.

(** The [catch] block: the failure is cached under the request id and
    the error is thrown again. *)
Definition processStableStudy_catch (job : JobData) (startTime : Z) (error : Err)
  : M JobResult.t :=
  finished <- dateNow ;;
  let elapsedTime := finished - startTime in
  failedAt <- dateNow ;;
  redis_setex (resultKey (requestId job)) 3600
    (JobResult.NoSuccess
       {| JobResult.error := error;
          JobResult.f_elapsedTime := elapsedTime;
          JobResult.f_orthancStudyId := orthancStudyId job;
          JobResult.failedAt := failedAt |}) ;;
  throw error.

Definition processStableStudy (job : JobData) : M JobResult.t :=
  startTime <- dateNow ;;
  try_catch (processStableStudy_try job startTime)
            (processStableStudy_catch job startTime).

End Pipeline.

(* ===================================================================== *)
(** ** StableStudyQueue *)
(* ===================================================================== *)

(** ['waiting'], ['active'], ['completed'], ['failed'] *)
Inductive JobStatus := Waiting | Active | Completed | Failed.

Module Job.
Record t := {
  id : nat;
  type : string;
  data : JobData;
  status : JobStatus;
  createdAt : Z;
  progress : Z;
  result : option JobResult.t;
  error : option Err
}.
Definition set_status (v : JobStatus) (j : t) : t :=
  {| id := id j; type := type j; data := data j; status := v; createdAt := createdAt j;
     progress := progress j; result := result j; error := error j |}.
Definition set_progress (v : Z) (j : t) : t :=
  {| id := id j; type := type j; data := data j; status := status j;
     createdAt := createdAt j; progress := v; result := result j; error := error j |}.
Definition set_result (v : option JobResult.t) (j : t) : t :=
  {| id := id j; type := type j; data := data j; status := status j;
     createdAt := createdAt j; progress := progress j; result := v; error := error j |}.
Definition set_error (v : option Err) (j : t) : t :=
  {| id := id j; type := type j; data := data j; status := status j;
     createdAt := createdAt j; progress := progress j; result := result j; error := v |}.
End Job.

Module Queue.

(** The fields of [StableStudyQueue]. [jobs] is the [Map] from job id to
    job, in insertion order. *)
Record t := {
  jobs : list (nat * Job.t);
  processing : gset nat;
  nextJobId : nat;
  isProcessing : bool;
  concurrency : nat
}.

(** [constructor()] *)
Definition new : t :=
  {| jobs := []; processing := ∅; nextJobId := 1; isProcessing := false;
     concurrency := 10 |}.

Definition set_jobs (v : list (nat * Job.t)) (q : t) : t :=
  {| jobs := v; processing := processing q; nextJobId := nextJobId q;
     isProcessing := isProcessing q; concurrency := concurrency q |}.
Definition set_processing (v : gset nat) (q : t) : t :=
  {| jobs := jobs q; processing := v; nextJobId := nextJobId q;
     isProcessing := isProcessing q; concurrency := concurrency q |}.
Definition set_nextJobId (v : nat) (q : t) : t :=
  {| jobs := jobs q; processing := processing q; nextJobId := v;
     isProcessing := isProcessing q; concurrency := concurrency q |}.
Definition set_isProcessing (v : bool) (q : t) : t :=
  {| jobs := jobs q; processing := processing q; nextJobId := nextJobId q;
     isProcessing := v; concurrency := concurrency q |}.

(** [map.set(k, v)]: the value of a present key is replaced where it is,
    a new key goes to the end. *)
Fixpoint map_set (k : nat) (v : Job.t) (l : list (nat * Job.t)) : list (nat * Job.t) :=
  match l with
  | [] => [(k, v)]
  | (k', v') :: r => if Nat.eqb k' k then (k, v) :: r else (k', v') :: map_set k v r
  end.

(** A mutation of the job object stored under [k]. *)
Definition update (k : nat) (f : Job.t -> Job.t) (l : list (nat * Job.t))
  : list (nat * Job.t) :=
  map (fun kj => if Nat.eqb (fst kj) k then (fst kj, f (snd kj)) else kj) l.

Definition is_waiting (j : Job.t) : bool :=
  match Job.status j with Waiting => true | _ => false end.
Definition is_active (j : Job.t) : bool :=
  match Job.status j with Active => true | _ => false end.

(** [getWaitingJobs()] *)
Definition getWaitingJobs (q : t) : list Job.t :=
  List.filter is_waiting (map snd (jobs q)).

(** [getJob(jobId)] *)
Definition getJob (jobId : nat) (q : t) : option Job.t :=
  snd <$> find (fun kj => Nat.eqb (fst kj) jobId) (jobs q).

(** [getJobByRequestId(requestId)] *)
Definition getJobByRequestId (rid : string) (q : t) : option Job.t :=
  find (fun j => String.eqb (requestId (Job.data j)) rid) (map snd (jobs q)).

(** [processJob(job)] up to its [await]: the job joins the processing set
    and becomes active; the pipeline it starts sets its progress to 10
    before the first request leaves. *)
Definition processJob_begin (job : Job.t) (q : t) : t :=
  set_jobs (update (Job.id job) (fun j => Job.set_progress 10 (Job.set_status Active j))
                   (jobs q))
           (set_processing ({[Job.id job]} ∪ processing q) q).

(** [processJob(job)] after its [await]: the outcome of the pipeline is
    recorded, and in the [finally] block the job leaves the processing
    set. [p] is the progress the pipeline has reached. *)
Definition processJob_settle (jobId : nat) (outcome : Result JobResult.t) (p : Z) (q : t) : t :=
  set_processing (processing q ∖ {[jobId]})
    (set_jobs (update jobId
                 (fun j => match outcome with
                           | inr r => Job.set_status Completed
                                        (Job.set_result (Some r) (Job.set_progress p j))
                           | inl e => Job.set_status Failed
                                        (Job.set_error (Some e) (Job.set_progress p j))
                           end) (jobs q)) q).

(** The inner [while] loop of [startProcessing]; [fuel] bounds the number
    of iterations, and one iteration per waiting job is enough. *)
Fixpoint admission_loop (fuel : nat) (q : t) : t :=
  match fuel with
  | O => q
  | S n =>
      if ((size (processing q) <? concurrency q)%nat
          && (0 <? length (getWaitingJobs q))%nat)%bool
      then match getWaitingJobs q with
           | job :: _ => admission_loop n (processJob_begin job q)
           | [] => admission_loop n q
           end
      else q
  end.

Definition admitWaiting (q : t) : t := admission_loop (length (getWaitingJobs q)) q.

(** One turn of the outer [while] loop of [startProcessing]: the condition
    is tested; when it holds, waiting jobs are admitted and the loop sleeps
    100 ms, otherwise the processor stops. *)
Definition schedule (q : t) : t :=
  if ((0 <? length (getWaitingJobs q))%nat || (0 <? size (processing q))%nat)%bool
  then admitWaiting q
  else set_isProcessing false q.

(** [startProcessing()] up to its first [await]. *)
Definition startProcessing (q : t) : t :=
  if isProcessing q then q else schedule (set_isProcessing true q).

(** [add(jobData)]; [now] is [new Date()]. The job is returned as it is
    when [add] returns. *)
Definition add (jobData : JobData) (now : Z) (q : t) : option Job.t * t :=
  let jobId := nextJobId q in
  let job := {| Job.id := jobId; Job.type := "process-stable-study"; Job.data := jobData;
                Job.status := Waiting; Job.createdAt := now; Job.progress := 0;
                Job.result := None; Job.error := None |} in
  let q1 := set_jobs (map_set jobId job (jobs q)) (set_nextJobId (S jobId) q) in
  let q2 := if negb (isProcessing q1) then startProcessing q1 else q1 in
  (getJob jobId q2, q2).

(** The whole of [processJob] for an admitted job, with the pipeline run
    in one piece on the state [s]. *)
Definition processJob (env : Env) (jobId : nat) (s : St) (q : t) : t * St :=
  match getJob jobId q with
  | Some job =>
      let '(outcome, s') :=
        processStableStudy env (Job.data job) (set_progress (Job.progress job) s) in
      (processJob_settle jobId outcome (progress s') q, s')
  | None => (q, s)
  end.

(** The moves of the queue: an [add], a wake-up of the running processor
    loop, a progress report of a running pipeline, and the end of a
    running pipeline with any outcome. *)
Inductive step : t -> t -> Prop :=
| step_add jobData now q :
    step q (snd (add jobData now q))
| step_wake q :
    isProcessing q = true -> step q (schedule q)
| step_progress jobId p q :
    jobId ∈ processing q ->
    step q (set_jobs (update jobId (Job.set_progress p) (jobs q)) q)
| step_settle jobId outcome p q :
    jobId ∈ processing q ->
    step q (processJob_settle jobId outcome p q).

Definition reachable (q : t) : Prop := rtc step new q.

Definition activeJobs (q : t) : list Job.t :=
  List.filter is_active (map snd (jobs q)).

Definition statusOf (jobId : nat) (q : t) : option JobStatus :=
  Job.status <$> getJob jobId q.

(** *** Well-formed states of the queue *)

Definition waiting_entry (kj : nat * Job.t) : Prop := is_waiting (snd kj) = true.
Definition settled_entry (kj : nat * Job.t) : Prop := is_waiting (snd kj) = false.

(** Arrival order is admission order: behind a waiting job, every job is
    waiting. *)
Fixpoint fifo (l : list (nat * Job.t)) : Prop :=
  match l with
  | [] => True
  | kj :: r => (waiting_entry kj -> Forall waiting_entry r) /\ fifo r
  end.

(** The states the queue can be in. *)
Record wf (q : t) : Prop := {
  wf_keys : map fst (jobs q) = seq 1 (nextJobId q - 1);
  wf_next : (1 <= nextJobId q)%nat;
  wf_ids : Forall (fun kj => Job.id (snd kj) = fst kj) (jobs q);
  wf_processing :
    forall k, k ∈ processing q <-> exists j, In (k, j) (jobs q) /\ is_active j = true;
  wf_bound : (size (processing q) <= concurrency q)%nat;
  wf_concurrency : concurrency q = 10%nat;
  wf_fifo : fifo (jobs q);
  wf_alive : isProcessing q = false -> getWaitingJobs q = [] /\ processing q = ∅
}.

(** A burst of [n] calls of [add] on a new queue. *)
Fixpoint burst (n : nat) : t :=
  match n with
  | O => new
  | S m => snd (add {| orthancStudyId := "abc"; requestId := "stable_" +:+ Js.of_Z (Z.of_nat n);
                       submittedAt := 990; originalBody := "abc" |} 995 (burst m))
  end.

(** The status in which a job ends: completed when its pipeline returns,
    failed when it throws. *)
Definition finalStatus (outcome : Result JobResult.t) : JobStatus :=
  match outcome with
  | inr _ => Completed
  | inl _ => Failed
  end.

End Queue.

(* ===================================================================== *)
(** ** The routes [POST /stable-study] and [GET /job-status/:requestId] *)
(* ===================================================================== *)

Module Routes.

(** [req.body]: a string; an object, given by its own enumerable
    properties in the order of [Object.keys]; [null]; or a value that is
    neither a string nor an object (undefined, a number, a boolean). *)
Inductive Body :=
| BodyString (s : string)
| BodyObject (props : list (string * string))
| BodyNull
| BodyOther.

(** [body[k]] on the properties of an object. *)
Fixpoint prop (k : string) (props : list (string * string)) : option string :=
  match props with
  | [] => None
  | (k', v) :: r => if String.eqb k' k then Some v else prop k r
  end.

(** The study id as the handler reads it from the body, before the test
    for a missing or blank id; [None] is [null]. *)
Definition extractStudyId (body : Body) : option string :=
  match body with
  | BodyString s => Some (Js.trim s)
  | BodyObject props =>
      match map fst props with
      | k :: _ => Some k
      | [] =>
          if Js.truthy (prop "studyId" props) then prop "studyId" props
          else if Js.truthy (prop "ID" props) then prop "ID" props
          else None
      end
  | BodyNull => None
  | BodyOther => None
  end.

(** [job.data.originalBody] holds the body itself; it is rendered here as
    text (a string body as it is, an object by its keys). Nothing reads
    it. *)
Definition bodyText (body : Body) : string :=
  match body with
  | BodyString s => s
  | BodyObject props => Js.join "," (map fst props)
  | BodyNull => "null"
  | BodyOther => ""
  end.

Record Accepted := {
  message : string;
  jobId : nat;
  a_requestId : string;
  a_orthancStudyId : string;
  status : string;
  checkStatusUrl : string
}.

(** The answers of [POST /stable-study]: 202 with the queued job, 400
    with [Object.keys] of an object body (['N/A'] otherwise: [None]),
    500 with the error message. *)
Inductive Response :=
| Status202 (a : Accepted)
| Status400 (keys : option (list string))
| Status500 (error : Err).

(** [router.post('/stable-study', ...)]. [now], [submittedAt] and
    [createdAt] are the three readings of the clock, [random] is
    [Math.random().toString(36).substr(2, 9)]. *)
Definition stableStudy (body : Body) (now : Z) (random : string) (submittedAt createdAt : Z)
           (q : Queue.t) : Response * Queue.t :=
  let orthancStudyId := extractStudyId body in
  if (negb (Js.truthy orthancStudyId)
      || String.eqb (Js.trim (Js.or_else orthancStudyId "")) "")%bool then
    match body with
    | BodyObject props => (Status400 (Some (map fst props)), q)
    | BodyNull => (Status500 "Cannot convert undefined or null to object", q)
    | _ => (Status400 None, q)
    end
  else
    let orthancStudyId := Js.trim (Js.or_else orthancStudyId "") in
    let requestId := "stable_" ++ Js.of_Z now ++ "_" ++ random in
    let added := Queue.add {| orthancStudyId := orthancStudyId;
                              requestId := requestId;
                              submittedAt := submittedAt;
                              originalBody := bodyText body |} createdAt q in
    (Status202 {| message := "Stable study queued for processing";
                  jobId := Queue.nextJobId q;
                  a_requestId := requestId;
                  a_orthancStudyId := orthancStudyId;
                  status := "queued";
                  checkStatusUrl := "/orthanc/job-status/" ++ requestId |},
     snd added).

(** The answers of [GET /job-status/:requestId]: the cached outcome, the
    job as the queue has it, or 404. *)
Inductive StatusAnswer :=
| Cached (status : JobStatus) (result : JobResult.Outcome) (requestId : string)
| Queued (status : JobStatus) (progress : Z) (requestId : string) (jobId : nat)
         (createdAt : Z) (error : option Err)
| NotFound (requestId : string).

(** [router.get('/job-status/:requestId', ...)]: the cache first, then the
    queue. *)
Definition jobStatus (requestId : string) (s : St) (q : Queue.t) : StatusAnswer :=
  match redis s !! resultKey requestId with
  | Some (_, result) =>
      Cached (match result with
              | JobResult.Success _ => Completed
              | JobResult.NoSuccess _ => Failed
              end) result requestId
  | None =>
      match Queue.getJobByRequestId requestId q with
      | Some job =>
          Queued (Job.status job) (Job.progress job) requestId (Job.id job)
                 (Job.createdAt job) (Job.error job)
      | None => NotFound requestId
      end
  end.

End Routes.

(* ===================================================================== *)
(** ** Sample collaborators and states *)
(* ===================================================================== *)

Module Sample.

Definition study_abc : StudyInfo.t :=
  {| StudyInfo.ID := "abc";
     StudyInfo.MainDicomTags :=
       Some {[ "StudyInstanceUID" := "1.2.840.1"; "PatientID" := "P1";
               "PatientName" := "Doe^John" ]};
     StudyInfo.Series := Some ["s1"; "s2"];
     StudyInfo.Instances := None;
     StudyInfo.ParentPatient := "pp" |}.

(** A study summary without [StudyInstanceUID]. *)
Definition study_nouid : StudyInfo.t :=
  {| StudyInfo.ID := "nouid";
     StudyInfo.MainDicomTags := Some {[ "PatientID" := "P1" ]};
     StudyInfo.Series := Some ["s1"];
     StudyInfo.Instances := None;
     StudyInfo.ParentPatient := "pp" |}.

(** An archive that knows study [abc] (two series, no direct instance
    listing, series [s1] with two instances, series [s2] failing), a
    store that accepts every document, a notifier that works. *)
Definition env : Env :=
  {| clock := fun n => 1000 + Z.of_nat n;
     toISOString := fun _ => "2024-01-02T03:04:05.000Z";
     dateFullYear := fun _ => None;
     newObjectId := fun n => "65a0000000000000000000" ++ Js.of_Z (10 + Z.of_nat n);
     castObjectId := fun s => if (String.length s =? 24)%nat then Some s else None;
     getStudy := fun id =>
       if String.eqb id "abc" then inr study_abc
       else if String.eqb id "nouid" then inr study_nouid
       else inl "Request failed with status code 404";
     getStudyInstances := fun _ => inr [];
     getSeries := fun _ sid =>
       if String.eqb sid "s1"
       then inr {| SeriesInfo.MainDicomTags := Some {[ "Modality" := "CT" ]};
                   SeriesInfo.Instances := Some [InstanceId "i1"; InstanceId "i2"] |}
       else inl "timeout of 5000ms exceeded";
     getInstance := fun _ => inl "Request failed with status code 404";
     getSimplifiedTags := fun _ =>
       inr {[ "PatientName" := "Doe^John"; "PatientID" := "P1";
              "InstitutionName" := "Acme Lab" ]};
     patientAccepted := fun _ _ => None;
     labAccepted := fun _ _ => None;
     studyAccepted := fun _ _ => None;
     notifier := None |}.

(** The same archive with a direct instance listing of three instances. *)
Definition env_listing : Env :=
  {| clock := clock env; toISOString := toISOString env;
     dateFullYear := dateFullYear env; newObjectId := newObjectId env;
     castObjectId := castObjectId env; getStudy := getStudy env;
     getStudyInstances := fun _ =>
       inr [InstanceObj (Some "i1"); InstanceObj (Some "i2"); InstanceObj (Some "i3")];
     getSeries := getSeries env; getInstance := getInstance env;
     getSimplifiedTags := getSimplifiedTags env;
     patientAccepted := patientAccepted env; labAccepted := labAccepted env;
     studyAccepted := studyAccepted env; notifier := notifier env |}.

(** An archive whose study [anon] has one listed instance, with empty
    [PatientName] and [PatientID] tags. *)
Definition study_anon : StudyInfo.t :=
  {| StudyInfo.ID := "anon";
     StudyInfo.MainDicomTags := Some {[ "StudyInstanceUID" := "1.2.840.2" ]};
     StudyInfo.Series := Some ["s9"];
     StudyInfo.Instances := None;
     StudyInfo.ParentPatient := "pp" |}.

Definition env_anonymous : Env :=
  {| clock := clock env; toISOString := toISOString env;
     dateFullYear := dateFullYear env; newObjectId := newObjectId env;
     castObjectId := castObjectId env;
     getStudy := fun id =>
       if String.eqb id "anon" then inr study_anon
       else inl "Request failed with status code 404";
     getStudyInstances := fun _ => inr [InstanceId "i9"];
     getSeries := fun _ _ => inl "timeout of 5000ms exceeded";
     getInstance := getInstance env;
     getSimplifiedTags := fun _ => inr {[ "PatientName" := ""; "PatientID" := "" ]};
     patientAccepted := patientAccepted env; labAccepted := labAccepted env;
     studyAccepted := studyAccepted env; notifier := notifier env |}.

Definition empty : St :=
  {| patients := []; labs := []; studies := []; redis := ∅; requests := [];
     clockReads := 0; objectIds := 0; notifications := 0; progress := 0 |}.

Definition job_abc : JobData :=
  {| orthancStudyId := "abc"; requestId := "stable_1_a"; submittedAt := 990;
     originalBody := "abc" |}.
Definition job_nouid : JobData :=
  {| orthancStudyId := "nouid"; requestId := "stable_2_b"; submittedAt := 991;
     originalBody := "nouid" |}.
Definition job_anon : JobData :=
  {| orthancStudyId := "anon"; requestId := "stable_4_d"; submittedAt := 993;
     originalBody := "anon" |}.
Definition job_gone : JobData :=
  {| orthancStudyId := "gone"; requestId := "stable_3_c"; submittedAt := 992;
     originalBody := "gone" |}.

(** The sentinel patient that the first branch of
    [findOrCreatePatientFromTags] creates. *)
Definition sentinel : Patient.t :=
  {| Patient._id := "65a0000000000000000000aa";
     Patient.mrn := Some "UNKNOWN_STABLE_STUDY";
     Patient.patientID := "65A00000";
     Patient.patientNameRaw := "Unknown Patient (Stable Study)";
     Patient.firstName := ""; Patient.lastName := "";
     Patient.computed := None; Patient.gender := "";
     Patient.dateOfBirth := Patient.DobString "";
     Patient.isAnonymous := true |}.

Definition with_sentinel : St := set_patients [sentinel] empty.

(** A stored lab that has been switched off. *)
Definition closed_lab : Lab.t :=
  {| Lab._id := "65a0000000000000000000bb";
     Lab.name := "Closed Clinic"; Lab.identifier := "CLOSED_CLINIC";
     Lab.isActive := false; Lab.notes := ""; Lab.contactPerson := "";
     Lab.metadata := None |}.

Definition with_closed_lab : St := set_labs [closed_lab] empty.

Definition tags_closed_lab : Tags :=
  {[ "0011,1010" := "65a0000000000000000000bb"; "InstitutionName" := "Acme Lab" ]}.

(** An active lab beside the closed one, and a store whose validation
    refuses every new lab. *)
Definition open_lab : Lab.t :=
  {| Lab._id := "65a0000000000000000000dd";
     Lab.name := "Open Clinic"; Lab.identifier := "OPEN_CLINIC";
     Lab.isActive := true; Lab.notes := ""; Lab.contactPerson := "";
     Lab.metadata := None |}.

Definition with_open_lab : St := set_labs [closed_lab; open_lab] empty.

Definition env_refusing : Env :=
  {| clock := clock env; toISOString := toISOString env;
     dateFullYear := dateFullYear env; newObjectId := newObjectId env;
     castObjectId := castObjectId env; getStudy := getStudy env;
     getStudyInstances := getStudyInstances env;
     getSeries := getSeries env; getInstance := getInstance env;
     getSimplifiedTags := getSimplifiedTags env;
     patientAccepted := patientAccepted env;
     labAccepted := fun _ _ => Some "Lab validation failed";
     studyAccepted := studyAccepted env; notifier := notifier env |}.

(** Tags of an identified patient, and a patient stored under that
    number before names were parsed: the raw name holds the delimiter. *)
Definition tags_doe : Tags := {[ "PatientID" := "P1"; "PatientName" := "Doe^John" ]}.

Definition patient_raw : Patient.t :=
  {| Patient._id := "65a0000000000000000000cc";
     Patient.mrn := Some "P1";
     Patient.patientID := "65A00001";
     Patient.patientNameRaw := "Doe^John";
     Patient.firstName := ""; Patient.lastName := "";
     Patient.computed := None; Patient.gender := "M";
     Patient.dateOfBirth := Patient.DobString "";
     Patient.isAnonymous := false |}.

Definition with_raw_patient : St := set_patients [sentinel; patient_raw] empty.

(** The store after one ingestion of study [abc]. *)
Definition ingested : St := snd (processStableStudy env job_abc empty).

(** A later workflow step has moved the stored study on. *)
Definition advance (status : string) (d : Study.t) : Study.t :=
  {| Study._id := Study._id d;
     Study.data := Study.set_workflowStatus status (Study.data d);
     Study.statusHistory := Study.statusHistory d |}.

Definition reported : St :=
  set_studies (map (advance "report_finalized") (studies ingested)) ingested.

End Sample.

(* ===================================================================== *)
(** ** Notions used in the statements *)
(* ===================================================================== *)

(** The identifier as the specification words it: the upper-case form of
    the input with each run of white space replaced by one underscore. *)
Definition identifier_by_spec (s : string) : string :=
  Js.replace_ws "_" (Js.toUpperCase s).

(** White space or underscore. *)
Definition is_separator (c : ascii) : bool := Js.is_space c || Ascii.eqb c "_".

(** The default lab of the store below is switched off. *)
Definition closed_default_lab : Lab.t :=
  {| Lab._id := "65a0000000000000000000cc";
     Lab.name := DEFAULT_LAB_name; Lab.identifier := DEFAULT_LAB_identifier;
     Lab.isActive := false; Lab.notes := ""; Lab.contactPerson := "";
     Lab.metadata := None |}.

(** The message of the fatal error of a run, if the study summary cannot
    be fetched or carries no [StudyInstanceUID]. *)
Definition fatalError (env : Env) (id : string) : option Err :=
  match getStudy env id with
  | inl e => Some e
  | inr studyInfo =>
      if Js.truthy (studyInstanceUIDOf studyInfo) then None
      else Some "StudyInstanceUID not found in stable study"
  end.

Definition sample_queue : Queue.t :=
  snd (Queue.add Sample.job_gone 995 Queue.new).

(** The queue after its only job has failed and the processor has woken
    up once more. *)
Definition drained_queue : Queue.t :=
  Queue.schedule
    (Queue.processJob_settle 1 (inl "Request failed with status code 404") 10 sample_queue).

(** What identifies a job: its number, its type, its data and the time of
    its arrival. *)
Definition same_job (j j' : Job.t) : Prop :=
  Job.id j' = Job.id j /\ Job.type j' = Job.type j
  /\ Job.data j' = Job.data j /\ Job.createdAt j' = Job.createdAt j.

(** The stages of a job's life, in order. *)
Definition stage (st : JobStatus) : nat :=
  match st with Waiting => 0 | Active => 1 | Completed => 2 | Failed => 2 end.

(** The computation [m] keeps the relation [R] between the state it
    starts in and the state it leaves. *)
Definition keeps (R : St -> St -> Prop) {A} (m : M A) : Prop :=
  forall s, R s (snd (m s)).

(** The study collection is what it was. *)
Definition same_studies (s s' : St) : Prop := studies s' = studies s.

(** The computation returns from every state: it never throws. *)
Definition returns {A} (m : M A) : Prop := forall s, exists a, fst (m s) = inr a.

(** The store accepts every document it is asked to save. *)
Definition accepting (env : Env) : Prop :=
  (forall l d, patientAccepted env l d = None)
  /\ (forall l d, labAccepted env l d = None)
  /\ (forall l d, studyAccepted env l d = None).

(** The identifiers generated from the state's counter on are not the
    identifiers of stored documents. *)
Definition fresh_ids (env : Env) (s : St) : Prop :=
  forall n, (objectIds s <= n)%nat ->
    existsb (fun x => String.eqb (Patient._id x) (newObjectId env n)) (patients s) = false
    /\ existsb (fun x => String.eqb (Lab._id x) (newObjectId env n)) (labs s) = false
    /\ existsb (fun x => String.eqb (Study._id x) (newObjectId env n)) (studies s) = false.

(** The counter of generated identifiers has not gone back. *)
Definition le_ids (a b : St) : Prop := (objectIds a <= objectIds b)%nat.

(** How a resolution step has left the lab collection when it returned
    lab [l]: the lab was there, or it has been added at the end. *)
Definition lab_found_or_added (l : Lab.t) (s s' : St) : Prop :=
  (s' = s /\ In l (labs s))
  \/ (labs s' = (labs s ++ [l])%list
      /\ existsb (fun x => String.eqb (Lab._id x) (Lab._id l)) (labs s) = false
      /\ Lab.isActive l = true).

(** Runs one after the other, each with its own collaborators; a run that
    throws leaves the state it has reached. *)
Fixpoint ingest (runs : list (Env * JobData)) (s : St) : St :=
  match runs with
  | [] => s
  | (env, job) :: rest => ingest rest (snd (processStableStudy env job s))
  end.

(** Every run of the sequence returns, and the study it has ingested has
    the study instance UID [uid]. *)
Fixpoint all_return (uid : string) (runs : list (Env * JobData)) (s : St) : Prop :=
  match runs with
  | [] => True
  | (env, job) :: rest =>
      (exists r, fst (processStableStudy env job s) = inr r
                 /\ JobResult.studyInstanceUID r = uid)
      /\ all_return uid rest (snd (processStableStudy env job s))
  end.

(** The study collection holds exactly one document for [uid], no other
    document has its [_id], and its history has [k] entries; for [k = 0],
    it holds no document for [uid]. *)
Definition stored (uid : string) (k : nat) (s : St) : Prop :=
  match k with
  | O => List.filter (uid_is uid) (studies s) = []
  | S _ =>
      exists d,
        List.filter (uid_is uid) (studies s) = [d]
        /\ List.filter (fun y => String.eqb (Study._id y) (Study._id d)) (studies s) = [d]
        /\ length (Study.statusHistory d) = k
  end.

(* ===================================================================== *)
(** ** Reasoning about runs *)
(* ===================================================================== *)

Lemma bind_inr {A B} (m : M A) (k : A -> M B) s b s' :
  bind m k s = (inr b, s') ->
  exists a s1, m s = (inr a, s1) /\ k a s1 = (inr b, s').
Proof. unfold bind. destruct (m s) as [[e|a] s1]; [discriminate|eauto]. Qed.

Lemma ret_inr {A} (a b : A) s s' : ret a s = (inr b, s') -> a = b /\ s = s'.
Proof. unfold ret. intros H. inversion H. auto. Qed.

Lemma throw_inr {A} (e : Err) (b : A) s s' : throw e s = (inr b, s') -> False.
Proof. unfold throw. discriminate. Qed.

(** Inversion of a run that returned: every [bind] is opened and every
    final [ret] is read. *)
Ltac run_inv H :=
  repeat match type of H with
         | bind _ _ _ = (inr _, _) =>
             let a := fresh "a" in
             let s1 := fresh "s" in
             let H1 := fresh "Hrun" in
             apply bind_inr in H; destruct H as (a & s1 & H1 & H)
         end.

(* ===================================================================== *)
(** ** Person names *)
(* ===================================================================== *)

Example name_doe : formattedForDisplay (processDicomPersonName (Some "Doe^John^M^Dr^Jr"))
                   = "Dr John M Doe Jr".
Proof. reflexivity. Qed.

Example name_blank_parts : formattedForDisplay (processDicomPersonName (Some "^ ^")) = "Unknown Patient".
Proof. reflexivity. Qed.

(** C5. Of the three placeholder encodings, ["^"] and ["^^^"] are displayed
    as "Anonymous Patient"; the empty string is caught by the first test
    of [processDicomPersonName] and is displayed as "Unknown Patient". *)
Theorem processDicomPersonName_placeholders :
  formattedForDisplay (processDicomPersonName (Some "")) = "Unknown Patient"
  /\ formattedForDisplay (processDicomPersonName (Some "^")) = "Anonymous Patient"
  /\ formattedForDisplay (processDicomPersonName (Some "^^^")) = "Anonymous Patient".
Proof. repeat split; reflexivity. Qed.

Lemma nonempty_app_r (a b : string) : Js.nonempty b = true -> Js.nonempty (a ++ b) = true.
Proof. destruct a; simpl; auto. Qed.

Lemma nonempty_join (sep : string) (l : list string) :
  l <> [] -> Forall (fun x => Js.nonempty x = true) l -> Js.nonempty (Js.join sep l) = true.
Proof.
  induction l as [|x r IH]; [congruence|].
  intros _ Hall. inversion Hall as [|? ? Hx Hr]; subst.
  destruct r as [|y r']; [exact Hx|].
  change (Js.join sep (x :: y :: r')) with (x ++ sep ++ Js.join sep (y :: r')).
  apply nonempty_app_r, nonempty_app_r, IH; [congruence|exact Hr].
Qed.

Lemma push_if_nonempty (x : string) (acc : list string) :
  Forall (fun x => Js.nonempty x = true) acc ->
  Forall (fun x => Js.nonempty x = true) (push_if x acc).
Proof.
  intros H. unfold push_if. destruct (Js.nonempty x) eqn:E; [|exact H].
  apply Forall_app; split; [exact H|]. constructor; [exact E|constructor].
Qed.

(** The display name is never empty, whatever the name field holds: the
    test [!nameInfo.fullName] never succeeds. *)
Lemma fullName_nonempty (o : option string) :
  Js.nonempty (fullName (processDicomPersonName o)) = true.
Proof.
  unfold processDicomPersonName.
  destruct (negb (Js.truthy o)); [reflexivity|].
  match goal with |- context [if ?b then _ else _] => destruct b end; [reflexivity|].
  cbv zeta. cbn [fullName].
  match goal with |- context [match ?l with [] => _ | _ => _ end] =>
    assert (Hall : Forall (fun x => Js.nonempty x = true) l)
      by (repeat apply push_if_nonempty; constructor);
    destruct l eqn:El end; [reflexivity|].
  apply nonempty_join; [congruence|exact Hall].
Qed.

(* ===================================================================== *)
(** ** Lab identifiers *)
(* ===================================================================== *)

Lemma is_space_upper (c : ascii) : Js.is_space (Js.upper_char c) = Js.is_space c.
Proof. destruct c as [[] [] [] [] [] [] [] []]; reflexivity. Qed.

Lemma is_separator_upper (c : ascii) : is_separator (Js.upper_char c) = is_separator c.
Proof. destruct c as [[] [] [] [] [] [] [] []]; reflexivity. Qed.

Lemma is_separator_replaced (c : ascii) :
  Js.is_space (if Ascii.eqb c "_" then " "%char else c) = is_separator c.
Proof. destruct c as [[] [] [] [] [] [] [] []]; reflexivity. Qed.

Lemma not_separator_kept (c : ascii) :
  is_separator c = false -> (if Ascii.eqb c "_" then " "%char else c) = c.
Proof. destruct c as [[] [] [] [] [] [] [] []]; vm_compute; intros; congruence. Qed.

Lemma collapse_pipeline (b : bool) (t : string) :
  Js.collapse_from Js.is_space "_" b
    (Js.toUpperCase (Js.collapse_from Js.is_space " " b (Js.replace_char "_" " " t)))
  = Js.collapse_from is_separator "_" b (Js.toUpperCase t).
Proof.
  revert b. induction t as [|c r IH]; intros b; [reflexivity|].
  cbn [Js.replace_char Js.collapse_from Js.toUpperCase].
  rewrite is_separator_replaced, is_separator_upper.
  destruct (is_separator c) eqn:Hc.
  - destruct b; cbn [Js.toUpperCase Js.collapse_from].
    + apply IH.
    + change (Js.is_space (Js.upper_char " ")) with true. cbv iota.
      f_equal. apply IH.
  - rewrite (not_separator_kept c Hc).
    cbn [Js.toUpperCase Js.collapse_from].
    rewrite is_space_upper.
    assert (Hs : Js.is_space c = false).
    { unfold is_separator in Hc. apply orb_false_iff in Hc. tauto. }
    rewrite Hs. f_equal. apply IH.
Qed.

Lemma underscore_upper (c : ascii) :
  Ascii.eqb (Js.upper_char c) "_" = Ascii.eqb c "_".
Proof. destruct c as [[] [] [] [] [] [] [] []]; reflexivity. Qed.

Lemma collapse_no_underscore (b : bool) (s : string) :
  Js.includes "_" s = false ->
  Js.collapse_from is_separator "_" b (Js.toUpperCase s)
  = Js.collapse_from Js.is_space "_" b (Js.toUpperCase s).
Proof.
  revert b. induction s as [|c r IH]; intros b H; [reflexivity|].
  cbn [Js.includes] in H. apply orb_false_iff in H. destruct H as [Hc Hr].
  cbn [Js.toUpperCase Js.collapse_from].
  unfold is_separator at 1. rewrite underscore_upper, Hc, orb_false_r.
  destruct (Js.is_space (Js.upper_char c)); [destruct b|]; rewrite IH by exact Hr;
    reflexivity.
Qed.

(** C6, as the code has it, for a source of ASCII characters (where upper
    case and white space of the model are JavaScript's). The identifier
    derived from a heuristic source is the upper-case form of the lab name
    derived from it, with runs of white space replaced by one underscore;
    in terms of the source, it is the upper-case form of the trimmed source
    in which every run of white space and underscores is one underscore.
    It is the identifier the specification words when the source has no
    white space at its ends and no underscore. *)
Theorem labIdentifierOf_canonical (source : string)
  (Hascii : Js.is_ascii source = true) :
  labIdentifierOf source = identifier_by_spec (labNameOf source)
  /\ labIdentifierOf source
     = Js.collapse is_separator "_" (Js.toUpperCase (Js.trim source))
  /\ (Js.trim source = source -> Js.includes "_" source = false ->
      labIdentifierOf source = identifier_by_spec source).
Proof.
  assert (Hcode : labIdentifierOf source
                  = Js.collapse is_separator "_" (Js.toUpperCase (Js.trim source))).
  { unfold labIdentifierOf, labNameOf, Js.replace_ws, Js.collapse.
    apply collapse_pipeline. }
  split; [reflexivity|]. split; [exact Hcode|].
  intros Htrim Hus. rewrite Hcode, Htrim.
  unfold identifier_by_spec, Js.replace_ws, Js.collapse.
  apply collapse_no_underscore, Hus.
Qed.

Lemma labIdentifierOf_canonical_witness :
  labIdentifierOf "St Mary  Clinic" = identifier_by_spec "St Mary  Clinic".
Proof.
  apply (proj2 (proj2 (labIdentifierOf_canonical "St Mary  Clinic" eq_refl)));
    reflexivity.
Defined.

(** C6, as the specification words it, fails on a source with white space
    at an end or with underscores (a source of ASCII characters). *)
Lemma labIdentifierOf_not_by_spec :
  Js.is_ascii " St__Mary Clinic " = true
  /\ labIdentifierOf " St__Mary Clinic " = "ST_MARY_CLINIC"
  /\ identifier_by_spec " St__Mary Clinic " = "_ST__MARY_CLINIC_"
  /\ labIdentifierOf " St__Mary Clinic " <> identifier_by_spec " St__Mary Clinic ".
Proof. repeat split; try reflexivity. discriminate. Qed.

(* ===================================================================== *)
(** ** Patient resolution *)
(* ===================================================================== *)

(** The guard of the sentinel branch of [findOrCreatePatientFromTags] is
    false for every tag set. *)
Lemma sentinel_guard_false (tags : Tags) :
  (negb (Js.truthy (tags !! "PatientID"))
   && negb (Js.nonempty (fullName (processDicomPersonName (tags !! "PatientName")))))%bool
  = false.
Proof. rewrite fullName_nonempty. apply andb_false_r. Qed.

(** C3. A tag set without [PatientID] and without [PatientName], resolved
    on a store that holds the sentinel patient: the sentinel is not
    returned; a new patient with a generated [ANON_] number is stored, and
    a second resolution stores one more. The same happens in a run of the
    pipeline for a study whose instance carries empty [PatientName] and
    [PatientID] tags. *)
Theorem unidentified_patient_not_sentinel :
  let run1 := findOrCreatePatientFromTags Sample.env ∅ Sample.with_sentinel in
  let run2 := findOrCreatePatientFromTags Sample.env ∅ (snd run1) in
  let run3 := processStableStudy Sample.env_anonymous Sample.job_anon Sample.with_sentinel in
  (exists p, fst run1 = inr p
             /\ Patient.mrn p = Some "ANON_1000"
             /\ Patient.isAnonymous p = false
             /\ p <> Sample.sentinel
             /\ patients (snd run1) = [Sample.sentinel; p])
  /\ length (patients (snd run2)) = 3%nat
  /\ (exists r, fst run3 = inr r)
  /\ map (fun p => (Patient.mrn p, Patient.isAnonymous p)) (patients (snd run3))
     = [(Some "UNKNOWN_STABLE_STUDY", true); (Some "ANON_1003", false)].
Proof.
  cbv zeta. split; [|split; [|split]].
  - eexists. split; [vm_compute; reflexivity|].
    repeat split; try reflexivity. discriminate.
  - vm_compute. reflexivity.
  - eexists. vm_compute. reflexivity.
  - vm_compute. reflexivity.
Qed.

(* ===================================================================== *)
(** ** Lab resolution *)
(* ===================================================================== *)

(** A lab that the heuristic loop returns is active: a stored lab is
    matched only when [isActive] holds, a created one is active. *)
Lemma labFromSources_active env (tags : Tags) customLabId sources s found s' :
  labFromSources env tags customLabId sources s = (inr (Some found), s') ->
  Lab.isActive found = true.
Proof.
  revert s. induction sources as [|source rest IH]; intros s H.
  - discriminate.
  - cbn [labFromSources] in H.
    destruct (_ && _)%bool in H; [|eauto].
    apply bind_inr in H. destruct H as (lab & s1 & Hfind & H).
    unfold Lab_findOne, gets in Hfind. inversion Hfind; subst; clear Hfind.
    match type of H with context [find ?f ?l] => destruct (find f l) eqn:Hf end.
    + apply ret_inr in H. destruct H as [H _]. inversion H; subst.
      apply find_some in Hf. destruct Hf as [_ Hf].
      apply andb_true_iff in Hf. tauto.
    + run_inv H. apply ret_inr in H. destruct H as [H _].
      inversion H; subst. reflexivity.
Qed.

Lemma trim_nonempty (id : string) : Js.trim id <> "" -> Js.nonempty id = true.
Proof. destruct id; [intros H; exfalso; apply H; reflexivity|reflexivity]. Qed.

(** C4, as the code has it. When tag [0011,1010] names, by identity, a
    stored lab that is not active, the direct-reference tier returns
    nothing: the resolution is the one of the fallback methods (heuristic
    sources, then the default lab, the emergency lab on an error), and a
    lab taken from the heuristic sources is active. *)
Theorem inactive_reference_falls_through env (tags : Tags) s id oid l :
  tags !! "0011,1010" = Some id ->
  Js.trim id <> "" ->
  id <> "UNKNOWN_LAB" ->
  castObjectId env id = Some oid ->
  find (fun x => String.eqb (Lab._id x) oid) (labs s) = Some l ->
  Lab.isActive l = false ->
  findOrCreateSourceLab env tags s
  = try_catch (labFallback env tags (Some id)) (emergencyLab env tags) s
  /\ (forall found s',
        labFromSources env tags (Some id) (possibleLabSources tags) s
        = (inr (Some found), s') ->
        Lab.isActive found = true).
Proof.
  intros Htag Htrim Hunk Hcast Hfind Hoff. split.
  - unfold findOrCreateSourceLab. cbv zeta. rewrite Htag.
    assert (Hinner :
      bind (labFromCustomId env (Some id))
           (fun r => match r with
                     | Some l => ret l
                     | None => labFallback env tags (Some id)
                     end) s
      = labFallback env tags (Some id) s).
    { unfold bind at 1, labFromCustomId.
      cbn [Js.truthy Js.or_else]. rewrite (trim_nonempty id Htrim).
      destruct (String.eqb_spec (Js.trim id) ""); [contradiction|].
      destruct (String.eqb_spec id "UNKNOWN_LAB"); [contradiction|].
      cbn [negb andb]. rewrite Hcast.
      unfold try_catch, bind, Lab_findOne, gets. rewrite Hfind, Hoff.
      unfold ret. reflexivity. }
    unfold try_catch. rewrite Hinner. reflexivity.
  - intros found s'. apply labFromSources_active.
Qed.

Lemma inactive_reference_falls_through_witness :
  findOrCreateSourceLab Sample.env Sample.tags_closed_lab Sample.with_closed_lab
  = try_catch (labFallback Sample.env Sample.tags_closed_lab
                 (Some "65a0000000000000000000bb"))
              (emergencyLab Sample.env Sample.tags_closed_lab) Sample.with_closed_lab
  /\ (forall found s',
        labFromSources Sample.env Sample.tags_closed_lab
          (Some "65a0000000000000000000bb")
          (possibleLabSources Sample.tags_closed_lab) Sample.with_closed_lab
        = (inr (Some found), s') ->
        Lab.isActive found = true).
Proof.
  apply (inactive_reference_falls_through Sample.env Sample.tags_closed_lab
           Sample.with_closed_lab "65a0000000000000000000bb"
           "65a0000000000000000000bb" Sample.closed_lab).
  - vm_compute; reflexivity.
  - vm_compute; discriminate.
  - discriminate.
  - vm_compute; reflexivity.
  - vm_compute; reflexivity.
  - reflexivity.
Defined.

(** C4, as the specification words it, fails: the lab named by the direct
    reference is stored but not active, and the resolution returns a lab
    created from [InstitutionName] instead of it. And the default tier
    looks its lab up by identifier alone: a default lab that is not active
    is returned. *)
Lemma inactive_reference_not_returned :
  (exists l, fst (findOrCreateSourceLab Sample.env Sample.tags_closed_lab
                    Sample.with_closed_lab) = inr l
             /\ Lab.name l = "Acme Lab"
             /\ Lab.isActive l = true
             /\ l <> Sample.closed_lab
             /\ labs (snd (findOrCreateSourceLab Sample.env Sample.tags_closed_lab
                             Sample.with_closed_lab))
                = [Sample.closed_lab; l])
  /\ fst (findOrCreateSourceLab Sample.env ∅ (set_labs [closed_default_lab] Sample.empty))
     = inr closed_default_lab.
Proof.
  split.
  - eexists. split; [vm_compute; reflexivity|].
    repeat split; try reflexivity. discriminate.
  - vm_compute. reflexivity.
Qed.

(* ===================================================================== *)
(** ** Instance discovery *)
(* ===================================================================== *)

(** The direct listing answers with at least one instance: discovery is
    that one request. *)
Lemma discoverInstances_listed env id studyInfo s l :
  getStudyInstances env id = inr l ->
  (0 < length l)%nat ->
  exists d,
    discoverInstances env id studyInfo s
    = (inr d, set_requests
                (requests s ++ [{| resource := StudyInstancesPath id; timeout := 15000 |}]) s)
    /\ instancesArray d = l.
Proof.
  intros Hl Hk.
  unfold discoverInstances, method1, bind, try_catch, axios_get. rewrite Hl.
  destruct l as [|x r]; [simpl in Hk; lia|].
  cbn. eexists. split; reflexivity.
Qed.

(* ===================================================================== *)
(** ** Fatal errors of a job *)
(* ===================================================================== *)

Lemma getJob_update jobId f q P :
  Queue.getJob jobId (Queue.set_processing P (Queue.set_jobs (Queue.update jobId f (Queue.jobs q)) q))
  = f <$> Queue.getJob jobId q.
Proof.
  unfold Queue.getJob, Queue.set_processing, Queue.set_jobs, Queue.update. cbn.
  induction (Queue.jobs q) as [|[k j] l IH]; [reflexivity|].
  cbn. destruct (Nat.eqb k jobId) eqn:E; cbn; rewrite E; [reflexivity|exact IH].
Qed.

Lemma extractStudyData_fatal env job s msg :
  fatalError env (orthancStudyId job) = Some msg ->
  extractStudyData env job s
  = (inl msg,
     set_requests (requests s ++ [{| resource := StudyPath (orthancStudyId job);
                                     timeout := 10000 |}])
                  (set_progress 10 s)).
Proof.
  unfold fatalError, extractStudyData. intros H.
  unfold bind at 1, jobProgress, modify. unfold bind at 1, axios_get.
  destruct (getStudy env (orthancStudyId job)) as [e|studyInfo].
  - inversion H; subst. reflexivity.
  - destruct (Js.truthy (studyInstanceUIDOf studyInfo)); [discriminate|].
    inversion H; subst. reflexivity.
Qed.

Lemma processStableStudy_fatal env job s msg :
  fatalError env (orthancStudyId job) = Some msg ->
  exists f s',
    processStableStudy env job s = (inl msg, s')
    /\ requests s' = (requests s ++ [{| resource := StudyPath (orthancStudyId job);
                                        timeout := 10000 |}])%list
    /\ patients s' = patients s /\ labs s' = labs s /\ studies s' = studies s
    /\ redis s' !! resultKey (requestId job) = Some (3600, JobResult.NoSuccess f)
    /\ JobResult.error f = msg
    /\ JobResult.f_orthancStudyId f = orthancStudyId job.
Proof.
  intros Hfatal.
  unfold processStableStudy, bind at 1, dateNow.
  unfold try_catch, processStableStudy_try. unfold bind at 1.
  rewrite (extractStudyData_fatal _ _ _ _ Hfatal).
  unfold processStableStudy_catch, bind, dateNow, redis_setex, modify, throw.
  eexists. eexists. split; [reflexivity|].
  cbn. do 4 (split; [reflexivity|]).
  split; [apply lookup_insert_eq|]. split; reflexivity.
Qed.

(** C8. When the study summary cannot be fetched, or carries no
    [StudyInstanceUID], the job's pipeline sends that one request and no
    other and changes no stored document; the job is settled as failed
    with the error message, and a failure with that message is cached for
    one hour under the job's request id. *)
Theorem fatal_error_fails_job env jobId job s q msg :
  Queue.getJob jobId q = Some job ->
  fatalError env (orthancStudyId (Job.data job)) = Some msg ->
  let q' := fst (Queue.processJob env jobId s q) in
  let s' := snd (Queue.processJob env jobId s q) in
  requests s' = (requests s ++ [{| resource := StudyPath (orthancStudyId (Job.data job));
                                   timeout := 10000 |}])%list
  /\ patients s' = patients s /\ labs s' = labs s /\ studies s' = studies s
  /\ (Job.status <$> Queue.getJob jobId q') = Some Failed
  /\ (Job.error <$> Queue.getJob jobId q') = Some (Some msg)
  /\ (Job.result <$> Queue.getJob jobId q') = Some (Job.result job)
  /\ (jobId ∉ Queue.processing q')
  /\ (exists f, redis s' !! resultKey (requestId (Job.data job))
                = Some (3600, JobResult.NoSuccess f)
                /\ JobResult.error f = msg
                /\ JobResult.f_orthancStudyId f = orthancStudyId (Job.data job)).
Proof.
  intros Hjob Hfatal. cbv zeta.
  unfold Queue.processJob. rewrite Hjob.
  destruct (processStableStudy_fatal env (Job.data job)
              (set_progress (Job.progress job) s) msg Hfatal)
    as (f & s' & Hrun & Hreq & Hp & Hl & Hs & Hredis & Hmsg & Hid).
  rewrite Hrun. cbn [fst snd].
  unfold Queue.processJob_settle. rewrite !getJob_update, Hjob.
  repeat split; try assumption; try reflexivity.
  - cbn. intros Hin. apply elem_of_difference in Hin.
    destruct Hin as [_ Hn]. apply Hn, elem_of_singleton. reflexivity.
  - exists f. auto.
Qed.

Lemma fatal_error_fails_job_witness :
  let q' := fst (Queue.processJob Sample.env 1 Sample.empty sample_queue) in
  let s' := snd (Queue.processJob Sample.env 1 Sample.empty sample_queue) in
  requests s' = (requests Sample.empty
                 ++ [{| resource := StudyPath "gone"; timeout := 10000 |}])%list
  /\ patients s' = patients Sample.empty /\ labs s' = labs Sample.empty
  /\ studies s' = studies Sample.empty
  /\ (Job.status <$> Queue.getJob 1 q') = Some Failed
  /\ (Job.error <$> Queue.getJob 1 q') = Some (Some "Request failed with status code 404")
  /\ (Job.result <$> Queue.getJob 1 q') = Some None
  /\ (1%nat ∉ Queue.processing q')
  /\ (exists f, redis s' !! resultKey "stable_3_c" = Some (3600, JobResult.NoSuccess f)
                /\ JobResult.error f = "Request failed with status code 404"
                /\ JobResult.f_orthancStudyId f = "gone").
Proof.
  apply (fatal_error_fails_job Sample.env 1
           {| Job.id := 1; Job.type := "process-stable-study"; Job.data := Sample.job_gone;
              Job.status := Active; Job.createdAt := 995; Job.progress := 10;
              Job.result := None; Job.error := None |}
           Sample.empty sample_queue "Request failed with status code 404").
  - vm_compute; reflexivity.
  - vm_compute; reflexivity.
Defined.

(* ===================================================================== *)
(** ** What a run leaves unchanged *)
(* ===================================================================== *)

(** A relation between the state before and after a computation that is
    kept by every primitive except the writes to the study collection is
    kept by the whole extraction. *)
Create HintDb frame.

Section Frame.
Variable R : St -> St -> Prop.
Hypothesis R_refl : forall s, R s s.
Hypothesis R_trans : forall a b c, R a b -> R b c -> R a c.

Lemma preserves_run {A} (m : M A) s r s' : keeps R m -> m s = (r, s') -> R s s'.
Proof. intros Hm Hrun. specialize (Hm s). rewrite Hrun in Hm. exact Hm. Qed.

Lemma preserves_ret {A} (a : A) : keeps R (ret a).
Proof. intros s. apply R_refl. Qed.

Lemma preserves_throw {A} (e : Err) : keeps R (@throw A e).
Proof. intros s. apply R_refl. Qed.

Lemma preserves_gets {A} (f : St -> A) : keeps R (gets f).
Proof. intros s. apply R_refl. Qed.

Lemma preserves_bind {A B} (m : M A) (k : A -> M B) :
  keeps R m -> (forall a, keeps R (k a)) -> keeps R (bind m k).
Proof.
  intros Hm Hk s. unfold bind. specialize (Hm s).
  destruct (m s) as [[e|a] s1]; cbn in *; [exact Hm|].
  eapply R_trans; [exact Hm|apply Hk].
Qed.

Lemma preserves_try_catch {A} (m : M A) (h : Err -> M A) :
  keeps R m -> (forall e, keeps R (h e)) -> keeps R (try_catch m h).
Proof.
  intros Hm Hh s. unfold try_catch. specialize (Hm s).
  destruct (m s) as [[e|a] s1]; cbn in *; [|exact Hm].
  eapply R_trans; [exact Hm|apply Hh].
Qed.

Hypothesis R_clockReads : forall s v, R s (set_clockReads v s).
Hypothesis R_objectIds : forall s v, R s (set_objectIds v s).
Hypothesis R_progress : forall s v, R s (set_progress v s).
Hypothesis R_patients : forall s v, R s (set_patients v s).
Hypothesis R_labs : forall s v, R s (set_labs v s).
Hypothesis R_requests : forall s v, R s (set_requests v s).
Hypothesis R_redis : forall s v, R s (set_redis v s).
Hypothesis R_notifications : forall s v, R s (set_notifications v s).

Variable env : Env.

Lemma preserves_dateNow : keeps R (dateNow env).
Proof. intros s. apply R_clockReads. Qed.

Lemma preserves_generateObjectId : keeps R (generateObjectId env).
Proof. intros s. apply R_objectIds. Qed.

Lemma preserves_axios_get {A} r t (answer : Result A) : keeps R (axios_get r t answer).
Proof. intros s. apply R_requests. Qed.

Lemma preserves_jobProgress p : keeps R (jobProgress p).
Proof. intros s. apply R_progress. Qed.

Lemma preserves_redis_setex k t v : keeps R (redis_setex k t v).
Proof. intros s. apply R_redis. Qed.

Lemma preserves_Patient_save b p : keeps R (Patient_save env b p).
Proof.
  intros s. unfold Patient_save.
  destruct (patientAccepted env (patients s) p); [apply R_refl|].
  destruct (store_save Patient._id b p (patients s)); [apply R_refl|apply R_patients].
Qed.

Lemma preserves_Lab_save b l : keeps R (Lab_save env b l).
Proof.
  intros s. unfold Lab_save.
  destruct (labAccepted env (labs s) l); [apply R_refl|].
  destruct (store_save Lab._id b l (labs s)); [apply R_refl|apply R_labs].
Qed.

Hint Resolve preserves_dateNow preserves_generateObjectId preserves_axios_get
  preserves_jobProgress preserves_redis_setex preserves_Patient_save
  preserves_Lab_save : frame.

(** One step of a proof that a computation keeps [R]: the shape of the
    computation decides. *)
Ltac frame_step :=
  first
    [ solve [auto with frame]
    | progress cbv zeta
    | apply preserves_ret
    | apply preserves_throw
    | apply preserves_gets
    | apply preserves_bind; [|intros ?]
    | apply preserves_try_catch; [|intros ?]
    | match goal with
      | |- keeps R (if ?b then _ else _) => destruct b
      | |- keeps R (match ?x with _ => _ end) => destruct x
      end ].
Ltac frame := cbv zeta; repeat frame_step; eauto with frame.

Lemma preserves_formatDicomDateToISO d : keeps R (formatDicomDateToISO env d).
Proof. unfold formatDicomDateToISO. frame. Qed.
Hint Resolve preserves_formatDicomDateToISO : frame.

Lemma preserves_findOrCreatePatientFromTags tags :
  keeps R (findOrCreatePatientFromTags env tags).
Proof.
  unfold findOrCreatePatientFromTags, generatePatientID, Patient_findOne. frame.
Qed.

Lemma preserves_labFromCustomId c : keeps R (labFromCustomId env c).
Proof. unfold labFromCustomId, Lab_findOne. frame. Qed.

Lemma preserves_labFromSources tags c sources :
  keeps R (labFromSources env tags c sources).
Proof.
  induction sources as [|source rest IH]; cbn [labFromSources]; [frame|].
  unfold Lab_findOne. frame.
Qed.

Lemma preserves_defaultLab c : keeps R (defaultLab env c).
Proof. unfold defaultLab, Lab_findOne. frame. Qed.

Lemma preserves_emergencyLab tags e : keeps R (emergencyLab env tags e).
Proof. unfold emergencyLab, Lab_findOne. frame. Qed.

Hint Resolve preserves_labFromCustomId preserves_labFromSources preserves_defaultLab
  preserves_emergencyLab : frame.

Lemma preserves_findOrCreateSourceLab tags : keeps R (findOrCreateSourceLab env tags).
Proof. unfold findOrCreateSourceLab, labFallback. frame. Qed.

Lemma preserves_method1 id : keeps R (method1 env id).
Proof. unfold method1. frame. Qed.

Lemma preserves_method2 series d : keeps R (method2 env series d).
Proof.
  revert d. induction series as [|x r IH]; intros d; cbn [method2]; frame.
Qed.

Lemma preserves_method3 series d : keeps R (method3 env series d).
Proof.
  revert d. induction series as [|x r IH]; intros d; cbn [method3]; frame.
Qed.

Hint Resolve preserves_method1 preserves_method2 preserves_method3 : frame.

Lemma preserves_discoverInstances id studyInfo :
  keeps R (discoverInstances env id studyInfo).
Proof. unfold discoverInstances. frame. Qed.

Lemma preserves_collectTags studyInfo uid d : keeps R (collectTags env studyInfo uid d).
Proof. unfold collectTags. frame. Qed.

Lemma preserves_seriesModalities series acc : keeps R (seriesModalities env series acc).
Proof.
  revert acc. induction series as [|x r IH]; intros acc; cbn [seriesModalities]; frame.
Qed.
Hint Resolve preserves_seriesModalities : frame.

Lemma preserves_collectModalities studyInfo tags :
  keeps R (collectModalities env studyInfo tags).
Proof. unfold collectModalities. frame. Qed.

Hint Resolve preserves_findOrCreatePatientFromTags preserves_findOrCreateSourceLab
  preserves_discoverInstances preserves_collectTags preserves_collectModalities : frame.

Lemma preserves_extractStudyData job : keeps R (extractStudyData env job).
Proof. unfold extractStudyData, DicomStudy_findOne. frame. Qed.

(** The part of the [try] block after the study record is saved. *)
Lemma preserves_notify :
  keeps R (try_catch
               (match notifier env with
                | Some e => throw e
                | None => modify (fun s => set_notifications (S (notifications s)) s)
                end)
               (fun _ => ret tt)).
Proof.
  apply preserves_try_catch; [|intros; apply preserves_ret].
  destruct (notifier env); [apply preserves_throw|].
  intros s. apply R_notifications.
Qed.

End Frame.

(* ===================================================================== *)
(** ** The study collection across a run *)
(* ===================================================================== *)

(** Closes the side conditions of a [keeps same_studies] lemma. *)
Ltac same_studies_side := unfold same_studies; cbn; intros; congruence.

Lemma studies_jobProgress p : keeps same_studies (jobProgress p).
Proof. apply preserves_jobProgress; same_studies_side. Qed.
Lemma studies_dateNow env : keeps same_studies (dateNow env).
Proof. apply preserves_dateNow; same_studies_side. Qed.
Lemma studies_axios_get {A} r t (a : Result A) : keeps same_studies (axios_get r t a).
Proof. apply preserves_axios_get; same_studies_side. Qed.
Lemma studies_redis_setex k t v : keeps same_studies (redis_setex k t v).
Proof. apply preserves_redis_setex; same_studies_side. Qed.
Lemma studies_generateObjectId env : keeps same_studies (generateObjectId env).
Proof. apply preserves_generateObjectId; same_studies_side. Qed.
Lemma studies_gets {A} (f : St -> A) : keeps same_studies (gets f).
Proof. apply preserves_gets; same_studies_side. Qed.
Lemma studies_discoverInstances env id info :
  keeps same_studies (discoverInstances env id info).
Proof. apply preserves_discoverInstances; same_studies_side. Qed.
Lemma studies_collectTags env info uid d :
  keeps same_studies (collectTags env info uid d).
Proof. apply preserves_collectTags; same_studies_side. Qed.
Lemma studies_findOrCreatePatientFromTags env tags :
  keeps same_studies (findOrCreatePatientFromTags env tags).
Proof. apply preserves_findOrCreatePatientFromTags; same_studies_side. Qed.
Lemma studies_findOrCreateSourceLab env tags :
  keeps same_studies (findOrCreateSourceLab env tags).
Proof. apply preserves_findOrCreateSourceLab; same_studies_side. Qed.
Lemma studies_collectModalities env info tags :
  keeps same_studies (collectModalities env info tags).
Proof. apply preserves_collectModalities; same_studies_side. Qed.
Lemma studies_formatDicomDateToISO env d :
  keeps same_studies (formatDicomDateToISO env d).
Proof. apply preserves_formatDicomDateToISO; same_studies_side. Qed.
Lemma studies_notify env :
  keeps same_studies
    (try_catch
       (match notifier env with
        | Some e => throw e
        | None => modify (fun s => set_notifications (S (notifications s)) s)
        end)
       (fun _ => ret tt)).
Proof. apply preserves_notify; same_studies_side. Qed.

Create HintDb studies.
#[local] Hint Resolve studies_jobProgress studies_dateNow studies_axios_get
  studies_redis_setex studies_generateObjectId studies_gets studies_discoverInstances
  studies_collectTags studies_findOrCreatePatientFromTags
  studies_findOrCreateSourceLab studies_collectModalities
  studies_formatDicomDateToISO studies_notify : studies.

(** From a step [Hrun : m s = (r, s')] of a run that does not write the
    study collection: [studies s' = studies s]. *)
Ltac studies_of Hrun :=
  match type of Hrun with
  | ?m ?s = (?r, ?s') =>
      let E := fresh "Est" in
      assert (E : studies s' = studies s)
        by (apply (preserves_run same_studies m s r s');
            [unfold DicomStudy_findOne; auto with studies|exact Hrun])
  end.

(** What the extraction has computed when it returns: the stored document
    was looked up, in the collection as it was at the start, under the
    study instance UID that the record carries; the workflow status is
    decided by the number of instances. *)
Lemma extractStudyData_returns env job s x s1 :
  extractStudyData env job s = (inr x, s1) ->
  studies s1 = studies s
  /\ x_dicomStudyDoc x = find (uid_is (x_studyInstanceUID x)) (studies s)
  /\ Study.studyInstanceUID (x_studyData x) = x_studyInstanceUID x
  /\ Study.orthancStudyID (x_studyData x) = orthancStudyId job
  /\ Study.workflowStatus (x_studyData x)
     = (if 0 <? Study.instanceCount (x_studyData x)
        then "new_study_received" else "new_metadata_only").
Proof.
  intros H.
  assert (Hst : studies s1 = studies s).
  { apply (preserves_run same_studies (extractStudyData env job) s (inr x) s1);
      [apply preserves_extractStudyData; same_studies_side|exact H]. }
  split; [exact Hst|].
  unfold extractStudyData in H. cbv zeta in H.
  apply bind_inr in H. destruct H as (u0 & s2 & H0 & H).
  apply bind_inr in H. destruct H as (studyInfo & s3 & H1 & H).
  destruct (negb _) in H; [apply throw_inr in H; contradiction|].
  apply bind_inr in H. destruct H as (u1 & s4 & H2 & H).
  apply bind_inr in H. destruct H as (d & s5 & H3 & H).
  apply bind_inr in H. destruct H as (u2 & s6 & H4 & H).
  apply bind_inr in H. destruct H as (tags & s7 & H5 & H).
  apply bind_inr in H. destruct H as (u3 & s8 & H6 & H).
  apply bind_inr in H. destruct H as (patientRecord & s9 & H7 & H).
  apply bind_inr in H. destruct H as (labRecord & s10 & H8 & H).
  apply bind_inr in H. destruct H as (u4 & s11 & H9 & H).
  apply bind_inr in H. destruct H as (modalities & s12 & H10 & H).
  apply bind_inr in H. destruct H as (u5 & s13 & H11 & H).
  apply bind_inr in H. destruct H as (found & s14 & H12 & H).
  apply bind_inr in H. destruct H as (studyDate & s15 & H13 & H).
  apply bind_inr in H. destruct H as (receivedAt & s16 & H14 & H).
  apply ret_inr in H. destruct H as [Hx Hs].
  studies_of H0. studies_of H1. studies_of H2. studies_of H3. studies_of H4.
  studies_of H5. studies_of H6. studies_of H7. studies_of H8. studies_of H9.
  studies_of H10. studies_of H11.
  unfold DicomStudy_findOne, gets in H12. inversion H12; subst found s14.
  subst x. cbn.
  repeat split; try reflexivity.
  f_equal. congruence.
Qed.

Lemma upsertStudy_returns env sd lab (tags : Tags) found s doc s' :
  upsertStudy env sd lab tags found s = (inr doc, s') ->
  Study.data doc = sd
  /\ exists e,
      Study.status e = Study.workflowStatus sd
      /\ match found with
         | Some d =>
             Study._id doc = Study._id d
             /\ Study.statusHistory doc = (Study.statusHistory d ++ [e])%list
             /\ studies s'
                = map (fun x => if String.eqb (Study._id x) (Study._id d) then doc else x)
                      (studies s)
         | None =>
             Study.statusHistory doc = [e]
             /\ existsb (fun x => String.eqb (Study._id x) (Study._id doc)) (studies s) = false
             /\ studies s' = (studies s ++ [doc])%list
         end.
Proof.
  unfold upsertStudy. cbv zeta. intros H.
  apply bind_inr in H. destruct H as (changedAt & s1 & Hc & H).
  studies_of Hc.
  destruct found as [d|].
  - apply bind_inr in H. destruct H as (u & s2 & Hsave & H).
    apply ret_inr in H. destruct H as [Hdoc Hs]. subst doc s2.
    unfold DicomStudy_save, store_save in Hsave.
    destruct (studyAccepted env (studies s1) _) in Hsave; [discriminate|].
    inversion Hsave; subst s'. cbn.
    split; [reflexivity|]. eexists. split; [|split; [reflexivity|split; [reflexivity|]]].
    + reflexivity.
    + rewrite Est. reflexivity.
  - apply bind_inr in H. destruct H as (oid & s2 & Hoid & H).
    studies_of Hoid.
    apply bind_inr in H. destruct H as (u & s3 & Hsave & H).
    apply ret_inr in H. destruct H as [Hdoc Hs]. subst doc s3.
    unfold DicomStudy_save, store_save in Hsave.
    destruct (studyAccepted env (studies s2) _) in Hsave; [discriminate|].
    cbn [Study._id] in Hsave.
    destruct (existsb _ (studies s2)) eqn:Hdup in Hsave; [discriminate|].
    inversion Hsave; subst s'. cbn.
    split; [reflexivity|]. eexists. split; [|split; [reflexivity|split]].
    + reflexivity.
    + rewrite <- Est, <- Est0. exact Hdup.
    + rewrite Est0, Est. reflexivity.
Qed.

Lemma processStableStudy_catch_throws env job t e s r s' :
  processStableStudy_catch env job t e s = (inr r, s') -> False.
Proof.
  unfold processStableStudy_catch. cbv zeta. intros H. run_inv H.
  apply throw_inr in H. exact H.
Qed.

(** What a run that returns has done to the study collection. *)
Lemma processStableStudy_returns env job s r s' :
  processStableStudy env job s = (inr r, s') ->
  exists x s1 doc e,
    extractStudyData env job (snd (dateNow env s)) = (inr x, s1)
    /\ JobResult.studyInstanceUID r = x_studyInstanceUID x
    /\ JobResult.instanceCount r = Study.instanceCount (x_studyData x)
    /\ JobResult.studyDatabaseId r = Study._id doc
    /\ Study.data doc = x_studyData x
    /\ Study.status e = Study.workflowStatus (x_studyData x)
    /\ match find (uid_is (x_studyInstanceUID x)) (studies s) with
       | Some d =>
           Study._id doc = Study._id d
           /\ Study.statusHistory doc = (Study.statusHistory d ++ [e])%list
           /\ studies s'
              = map (fun y => if String.eqb (Study._id y) (Study._id d) then doc else y)
                    (studies s)
       | None =>
           Study.statusHistory doc = [e]
           /\ existsb (fun y => String.eqb (Study._id y) (Study._id doc)) (studies s) = false
           /\ studies s' = (studies s ++ [doc])%list
       end.
Proof.
  unfold processStableStudy. intros H.
  apply bind_inr in H. destruct H as (startTime & s0 & Ht & H).
  assert (Hs0 : s0 = snd (dateNow env s)) by (rewrite Ht; reflexivity).
  studies_of Ht.
  unfold try_catch in H.
  destruct (processStableStudy_try env job startTime s0) as [[e|r'] s2] eqn:Htry;
    [exfalso; eapply processStableStudy_catch_throws; exact H|].
  inversion H; subst r' s2. clear H.
  unfold processStableStudy_try in Htry. cbv zeta in Htry.
  apply bind_inr in Htry. destruct Htry as (x & s1 & Hx & H).
  apply bind_inr in H. destruct H as (doc & s3 & Hup & H).
  apply bind_inr in H. destruct H as (u1 & s4 & H1 & H).
  apply bind_inr in H. destruct H as (u2 & s5 & H2 & H).
  apply bind_inr in H. destruct H as (u3 & s6 & H3 & H).
  apply bind_inr in H. destruct H as (u4 & s7 & H4 & H).
  apply bind_inr in H. destruct H as (processedAt & s8 & H5 & H).
  apply bind_inr in H. destruct H as (finished & s9 & H6 & H).
  apply bind_inr in H. destruct H as (u5 & s10 & H7 & H).
  apply bind_inr in H. destruct H as (u6 & s11 & H8 & H).
  apply ret_inr in H. destruct H as [Hr Hs].
  studies_of H1. studies_of H2. studies_of H3. studies_of H4. studies_of H5.
  studies_of H6. studies_of H7. studies_of H8.
  destruct (extractStudyData_returns _ _ _ _ _ Hx) as (Hst & Hfound & Huid & _).
  destruct (upsertStudy_returns _ _ _ _ _ _ _ _ Hup) as (Hdata & e & He & Hcase).
  exists x, s1, doc, e. subst s0.
  split; [exact Hx|].
  subst r. cbn [JobResult.studyInstanceUID JobResult.instanceCount JobResult.studyDatabaseId].
  do 5 (split; [first [reflexivity|assumption]|]).
  rewrite Hfound in Hcase. rewrite Est in Hcase.
  assert (Hfin : studies s' = studies s3) by (subst s'; congruence).
  rewrite Hfin. rewrite Hst in Hcase. exact Hcase.
Qed.

(* ===================================================================== *)
(** ** The direct instance listing *)
(* ===================================================================== *)

Lemma extractStudyData_listed env job s x s1 l :
  extractStudyData env job s = (inr x, s1) ->
  getStudyInstances env (orthancStudyId job) = inr l ->
  (0 < length l)%nat ->
  Study.instanceCount (x_studyData x) = Z.of_nat (length l).
Proof.
  intros H Hl Hk.
  unfold extractStudyData in H. cbv zeta in H.
  apply bind_inr in H. destruct H as (u0 & s2 & H0 & H).
  apply bind_inr in H. destruct H as (studyInfo & s3 & H1 & H).
  destruct (negb _) in H; [apply throw_inr in H; contradiction|].
  apply bind_inr in H. destruct H as (u1 & s4 & H2 & H).
  apply bind_inr in H. destruct H as (d & s5 & H3 & H).
  destruct (discoverInstances_listed env _ studyInfo s4 l Hl Hk) as (d' & Hd & Harr).
  rewrite Hd in H3. inversion H3; subst d' s5.
  run_inv H. apply ret_inr in H. destruct H as [Hx _]. subst x. cbn.
  rewrite Harr. reflexivity.
Qed.

(** C7. When the direct listing of the study's instances answers with at
    least one instance, instance discovery sends that one request and no
    other: no series is fetched and no series identifier is probed; the
    instances recorded are the listed ones, and a run that returns reports
    their number. *)
Theorem direct_listing_stops_discovery env id studyInfo s l :
  getStudyInstances env id = inr l ->
  (0 < length l)%nat ->
  (exists d,
     discoverInstances env id studyInfo s
     = (inr d, set_requests
                 (requests s ++ [{| resource := StudyInstancesPath id; timeout := 15000 |}])
                 s)
     /\ instancesArray d = l)
  /\ (forall job s0 r s',
        orthancStudyId job = id ->
        processStableStudy env job s0 = (inr r, s') ->
        JobResult.instanceCount r = Z.of_nat (length l)).
Proof.
  intros Hl Hk. split; [apply discoverInstances_listed; assumption|].
  intros job s0 r s' Hid Hrun. subst id.
  destruct (processStableStudy_returns _ _ _ _ _ Hrun)
    as (x & s1 & doc & e & Hx & _ & Hic & _).
  rewrite Hic. eapply extractStudyData_listed; eauto.
Qed.

Lemma direct_listing_stops_discovery_witness :
  (exists d,
     discoverInstances Sample.env_listing "abc" Sample.study_abc Sample.empty
     = (inr d, set_requests
                 (requests Sample.empty
                  ++ [{| resource := StudyInstancesPath "abc"; timeout := 15000 |}])
                 Sample.empty)
     /\ instancesArray d
        = [InstanceObj (Some "i1"); InstanceObj (Some "i2"); InstanceObj (Some "i3")])
  /\ (forall job s0 r s',
        orthancStudyId job = "abc" ->
        processStableStudy Sample.env_listing job s0 = (inr r, s') ->
        JobResult.instanceCount r
        = Z.of_nat (length [InstanceObj (Some "i1"); InstanceObj (Some "i2");
                            InstanceObj (Some "i3")])).
Proof.
  apply (direct_listing_stops_discovery Sample.env_listing "abc" Sample.study_abc
           Sample.empty).
  - reflexivity.
  - simpl; lia.
Defined.

(* ===================================================================== *)
(** ** Re-ingestion of a stored study *)
(* ===================================================================== *)

Lemma find_replaced {A} (f g : A -> bool) (d doc : A) (l : list A) :
  find f l = Some d -> g d = true -> f doc = true ->
  find f (map (fun x => if g x then doc else x) l) = Some doc.
Proof.
  intros Hfind Hg Hdoc.
  induction l as [|x l IH]; [discriminate|].
  cbn in *. destruct (g x) eqn:Hgx.
  - rewrite Hdoc. reflexivity.
  - destruct (f x) eqn:Hfx.
    + inversion Hfind; subst. congruence.
    + apply IH, Hfind.
Qed.

(** C1, as the code has it. A run that returns for a study that is already
    stored writes the whole extracted record onto the stored document,
    workflow status included: the status becomes [new_study_received]
    when at least one instance was found and [new_metadata_only]
    otherwise, whatever it was; one history entry with that status is
    appended. *)
Theorem reingestion_overwrites_status env job s r s' d :
  processStableStudy env job s = (inr r, s') ->
  find (uid_is (JobResult.studyInstanceUID r)) (studies s) = Some d ->
  exists d',
    find (uid_is (JobResult.studyInstanceUID r)) (studies s') = Some d'
    /\ Study._id d' = Study._id d
    /\ (exists x s1, extractStudyData env job (snd (dateNow env s)) = (inr x, s1)
                     /\ Study.data d' = x_studyData x)
    /\ Study.workflowStatus (Study.data d')
       = (if 0 <? JobResult.instanceCount r
          then "new_study_received" else "new_metadata_only")
    /\ (exists e, Study.status e = Study.workflowStatus (Study.data d')
                  /\ Study.statusHistory d' = (Study.statusHistory d ++ [e])%list).
Proof.
  intros Hrun Hfind.
  destruct (processStableStudy_returns _ _ _ _ _ Hrun)
    as (x & s1 & doc & e & Hx & Huid & Hic & _ & Hdata & He & Hcase).
  destruct (extractStudyData_returns _ _ _ _ _ Hx) as (_ & _ & Hxuid & _ & Hws).
  rewrite Huid in Hfind. cbn [snd dateNow] in Hcase.
  rewrite Hfind in Hcase. destruct Hcase as (Hid & Hhist & Hst).
  exists doc. rewrite Huid, Hst.
  split.
  { apply find_replaced with (d := d); [exact Hfind|apply String.eqb_refl|].
    unfold uid_is. rewrite Hdata, Hxuid. apply String.eqb_refl. }
  split; [exact Hid|].
  split; [exists x, s1; auto|].
  split; [rewrite Hdata, Hic; exact Hws|].
  exists e. rewrite Hdata. auto.
Qed.

Lemma reingestion_overwrites_status_witness :
  exists r s' d,
    processStableStudy Sample.env Sample.job_abc Sample.reported = (inr r, s')
    /\ find (uid_is (JobResult.studyInstanceUID r)) (studies Sample.reported) = Some d
    /\ exists d',
        find (uid_is (JobResult.studyInstanceUID r)) (studies s') = Some d'
        /\ Study._id d' = Study._id d
        /\ (exists x s1,
              extractStudyData Sample.env Sample.job_abc
                (snd (dateNow Sample.env Sample.reported)) = (inr x, s1)
              /\ Study.data d' = x_studyData x)
        /\ Study.workflowStatus (Study.data d')
           = (if 0 <? JobResult.instanceCount r
              then "new_study_received" else "new_metadata_only")
        /\ (exists e, Study.status e = Study.workflowStatus (Study.data d')
                      /\ Study.statusHistory d' = (Study.statusHistory d ++ [e])%list).
Proof.
  eexists. eexists. eexists.
  split; [vm_compute; reflexivity|].
  split; [vm_compute; reflexivity|].
  eapply (reingestion_overwrites_status Sample.env Sample.job_abc Sample.reported).
  - vm_compute; reflexivity.
  - vm_compute; reflexivity.
Defined.

(** C1, as the specification words it, fails. The stored study has been
    moved on to [report_finalized]; the archive announces it again; the
    run returns and the stored status is [new_study_received] again. *)
Lemma reingestion_resets_progressed_status :
  (Study.workflowStatus <$> (Study.data <$>
     find (uid_is "1.2.840.1") (studies Sample.reported))) = Some "report_finalized"
  /\ exists r s',
      processStableStudy Sample.env Sample.job_abc Sample.reported = (inr r, s')
      /\ (Study.workflowStatus <$> (Study.data <$>
            find (uid_is "1.2.840.1") (studies s'))) = Some "new_study_received".
Proof.
  split; [vm_compute; reflexivity|].
  eexists. eexists. split; vm_compute; reflexivity.
Qed.

(* ===================================================================== *)
(** ** Repeated ingestion *)
(* ===================================================================== *)

Lemma find_hd_filter {A} (f : A -> bool) (l : list A) :
  find f l = hd_error (List.filter f l).
Proof.
  induction l as [|x l IH]; [reflexivity|].
  cbn. destruct (f x); [reflexivity|exact IH].
Qed.

Lemma existsb_false_filter {A} (g : A -> bool) (l : list A) :
  existsb g l = false -> List.filter g l = [].
Proof.
  induction l as [|x l IH]; [reflexivity|].
  cbn. intros H. apply orb_false_iff in H. destruct H as [Hx Hl].
  rewrite Hx. auto.
Qed.

Lemma filter_nil_map_id {A} (g : A -> bool) (doc : A) (l : list A) :
  List.filter g l = [] -> map (fun x => if g x then doc else x) l = l.
Proof.
  induction l as [|x l IH]; [reflexivity|].
  cbn. destruct (g x); [discriminate|]. intros H. f_equal. auto.
Qed.

Lemma filter_replaced {A} (f g : A -> bool) (d doc : A) (l : list A) :
  List.filter g l = [d] -> List.filter f l = [d] ->
  g d = true -> f doc = true ->
  List.filter f (map (fun x => if g x then doc else x) l) = [doc].
Proof.
  intros Hg Hf Hgd Hfdoc.
  induction l as [|x l IH]; [discriminate|].
  cbn in *. destruct (g x) eqn:Hgx.
  - inversion Hg as [[Hx Hl]]. subst x.
    rewrite (filter_nil_map_id g doc l Hl).
    assert (Hfd : f d = true).
    { destruct (f d) eqn:E; [reflexivity|].
      assert (Hin : In d (List.filter f l)) by (rewrite Hf; left; reflexivity).
      apply filter_In in Hin. destruct Hin as [_ Hin]. congruence. }
    rewrite Hfd in Hf. assert (Hfl : List.filter f l = []) by congruence.
    rewrite Hfdoc. congruence.
  - destruct (f x) eqn:Hfx.
    + inversion Hf; subst. congruence.
    + auto.
Qed.

(** One more run that returns for [uid]: one more history entry on the one
    document, whose record is the one this run has extracted. *)
Lemma run_step uid k env job s r s' :
  stored uid k s ->
  processStableStudy env job s = (inr r, s') ->
  JobResult.studyInstanceUID r = uid ->
  stored uid (S k) s'
  /\ exists d x s1,
      List.filter (uid_is uid) (studies s') = [d]
      /\ extractStudyData env job (snd (dateNow env s)) = (inr x, s1)
      /\ Study.data d = x_studyData x.
Proof.
  intros Hk Hrun Hr.
  destruct (processStableStudy_returns _ _ _ _ _ Hrun)
    as (x & s1 & doc & e & Hx & Huid & _ & _ & Hdata & _ & Hcase).
  destruct (extractStudyData_returns _ _ _ _ _ Hx) as (_ & _ & Hxuid & _).
  rewrite <- Huid, Hr in Hcase.
  assert (Hdoc : uid_is uid doc = true).
  { unfold uid_is. rewrite Hdata, Hxuid, <- Huid, Hr. apply String.eqb_refl. }
  rewrite find_hd_filter in Hcase.
  destruct k as [|k]; cbn [stored] in Hk.
  - rewrite Hk in Hcase. cbn [hd_error] in Hcase.
    destruct Hcase as (Hhist & Hfresh & Hst).
    assert (Hone : List.filter (uid_is uid) (studies s') = [doc]).
    { rewrite Hst, List.filter_app, Hk. cbn. rewrite Hdoc. reflexivity. }
    split.
    + exists doc. split; [exact Hone|]. split.
      * rewrite Hst, List.filter_app, (existsb_false_filter _ _ Hfresh). cbn.
        rewrite String.eqb_refl. reflexivity.
      * rewrite Hhist. reflexivity.
    + exists doc, x, s1. auto.
  - destruct Hk as (d & Hone & Hid & Hlen).
    rewrite Hone in Hcase. cbn [hd_error] in Hcase.
    destruct Hcase as (Hsame & Hhist & Hst).
    assert (Hone' : List.filter (uid_is uid) (studies s') = [doc]).
    { rewrite Hst.
      apply (filter_replaced (uid_is uid)
               (fun y => String.eqb (Study._id y) (Study._id d)) d doc);
        [exact Hid|exact Hone|apply String.eqb_refl|exact Hdoc]. }
    split.
    + exists doc. split; [exact Hone'|]. split.
      * rewrite Hst, Hsame.
        apply (filter_replaced (fun y => String.eqb (Study._id y) (Study._id d))
                 (fun y => String.eqb (Study._id y) (Study._id d)) d doc);
          [exact Hid|exact Hid|apply String.eqb_refl|].
        rewrite Hsame. apply String.eqb_refl.
      * rewrite Hhist, length_app. cbn. lia.
    + exists doc, x, s1. auto.
Qed.

Lemma ingest_app runs1 runs2 s : ingest (runs1 ++ runs2) s = ingest runs2 (ingest runs1 s).
Proof.
  revert s. induction runs1 as [|[env job] rest IH]; intros s; [reflexivity|].
  cbn. apply IH.
Qed.

Lemma all_return_app uid runs1 runs2 s :
  all_return uid (runs1 ++ runs2) s
  <-> all_return uid runs1 s /\ all_return uid runs2 (ingest runs1 s).
Proof.
  revert s. induction runs1 as [|[env job] rest IH]; intros s; cbn.
  - tauto.
  - rewrite IH. tauto.
Qed.

Lemma ingest_stored uid runs : forall k s,
  stored uid k s -> all_return uid runs s ->
  stored uid (k + length runs) (ingest runs s).
Proof.
  induction runs as [|[env job] rest IH]; intros k s Hk Hall.
  - cbn. rewrite Nat.add_0_r. exact Hk.
  - cbn [all_return] in Hall. destruct Hall as [(r & Hr & Huid) Hrest].
    destruct (processStableStudy env job s) as [out s'] eqn:Hrun.
    cbn [fst snd] in Hr, Hrest. subst out.
    destruct (run_step uid k env job s r s' Hk Hrun Huid) as [Hk' _].
    cbn [ingest length]. rewrite Hrun. cbn [snd].
    replace (k + S (length rest))%nat with (S k + length rest)%nat by lia.
    apply IH; assumption.
Qed.

(** C2. [N >= 1] runs for one study, one after the other, each returning,
    on a store that held no document for the study: the store holds
    exactly one document for it, with [N] history entries, and its record
    is the one the last run has extracted. *)
Theorem repeated_ingestion_one_study uid init env job s :
  List.filter (uid_is uid) (studies s) = [] ->
  all_return uid (init ++ [(env, job)]) s ->
  exists d x s1,
    List.filter (uid_is uid) (studies (ingest (init ++ [(env, job)]) s)) = [d]
    /\ length (Study.statusHistory d) = length (init ++ [(env, job)])
    /\ extractStudyData env job (snd (dateNow env (ingest init s))) = (inr x, s1)
    /\ Study.data d = x_studyData x.
Proof.
  intros Hnone Hall.
  apply all_return_app in Hall. destruct Hall as [Hinit Hlast].
  pose proof (ingest_stored uid init 0 s Hnone Hinit) as Hk. cbn [Nat.add] in Hk.
  cbn [all_return] in Hlast. destruct Hlast as [(r & Hr & Huid) _].
  destruct (processStableStudy env job (ingest init s)) as [out s'] eqn:Hrun.
  cbn [fst] in Hr. subst out.
  destruct (run_step uid _ env job _ r s' Hk Hrun Huid)
    as [Hk' (d & x & s1 & Hone & Hx & Hdata)].
  rewrite ingest_app. cbn [ingest]. rewrite Hrun. cbn [snd].
  exists d, x, s1. split; [exact Hone|]. split; [|auto].
  cbn [stored] in Hk'. destruct Hk' as (d' & Hone' & _ & Hlen).
  rewrite Hone in Hone'. inversion Hone'; subst d'.
  rewrite Hlen, length_app. cbn. lia.
Qed.

Lemma repeated_ingestion_one_study_witness :
  exists d x s1,
    List.filter (uid_is "1.2.840.1")
      (studies (ingest ([(Sample.env, Sample.job_abc); (Sample.env_listing, Sample.job_abc)]
                        ++ [(Sample.env, Sample.job_abc)]) Sample.empty)) = [d]
    /\ length (Study.statusHistory d)
       = length ([(Sample.env, Sample.job_abc); (Sample.env_listing, Sample.job_abc)]
                 ++ [(Sample.env, Sample.job_abc)])
    /\ extractStudyData Sample.env Sample.job_abc
         (snd (dateNow Sample.env
                 (ingest [(Sample.env, Sample.job_abc); (Sample.env_listing, Sample.job_abc)]
                         Sample.empty))) = (inr x, s1)
    /\ Study.data d = x_studyData x.
Proof.
  apply (repeated_ingestion_one_study "1.2.840.1"
           [(Sample.env, Sample.job_abc); (Sample.env_listing, Sample.job_abc)]
           Sample.env Sample.job_abc Sample.empty).
  - reflexivity.
  - cbn [all_return app]. repeat split; try (eexists; split; vm_compute; reflexivity).
Defined.

(* ===================================================================== *)
(** ** The job queue: well-formed states *)
(* ===================================================================== *)

Section QueueFacts.
Import Queue.
Local Open Scope list_scope.

Lemma update_notin k f l : ~ In k (map fst l) -> update k f l = l.
Proof.
  induction l as [|[k' j] l IH]; [reflexivity|].
  cbn. intros H. destruct (Nat.eqb_spec k' k); [exfalso; apply H; auto|].
  f_equal. apply IH. intros Hin. apply H. auto.
Qed.

Lemma update_split k f j l1 l2 :
  List.NoDup (map fst (l1 ++ (k, j) :: l2)) ->
  update k f (l1 ++ (k, j) :: l2) = l1 ++ (k, f j) :: l2.
Proof.
  intros Hnd. rewrite map_app in Hnd. cbn in Hnd.
  apply NoDup_remove_2 in Hnd.
  unfold update. rewrite map_app. cbn. rewrite Nat.eqb_refl.
  fold (update k f l1). fold (update k f l2).
  rewrite !update_notin; [reflexivity| |];
    intros Hin; apply Hnd, in_or_app; auto.
Qed.

Lemma map_fst_update k f l : map fst (update k f l) = map fst l.
Proof.
  induction l as [|[k' j] l IH]; [reflexivity|].
  cbn. destruct (Nat.eqb k' k); cbn; f_equal; exact IH.
Qed.

Lemma ids_update k f l :
  (forall j, Job.id (f j) = Job.id j) ->
  Forall (fun kj => Job.id (snd kj) = fst kj) l ->
  Forall (fun kj => Job.id (snd kj) = fst kj) (update k f l).
Proof.
  intros Hf Hl. induction Hl as [|[k' j] l H Hl IH]; [constructor|].
  cbn in *. constructor; [|exact IH].
  destruct (Nat.eqb k' k); cbn; [rewrite Hf|]; exact H.
Qed.

Lemma keys_NoDup q : wf q -> List.NoDup (map fst (jobs q)).
Proof. intros H. rewrite (wf_keys q H). apply List.seq_NoDup. Qed.

Lemma find_key_split k j l1 l2 :
  ~ In k (map fst l1) ->
  find (fun kj : nat * Job.t => Nat.eqb (fst kj) k) (l1 ++ (k, j) :: l2) = Some (k, j).
Proof.
  induction l1 as [|[k' j'] l1 IH]; cbn; intros H.
  - rewrite Nat.eqb_refl. reflexivity.
  - destruct (Nat.eqb_spec k' k); [exfalso; apply H; auto|].
    apply IH. intros Hin. apply H. auto.
Qed.

Lemma getJob_split q k j l1 l2 :
  List.NoDup (map fst (jobs q)) -> jobs q = l1 ++ (k, j) :: l2 -> getJob k q = Some j.
Proof.
  intros Hnd Hj. unfold getJob. rewrite Hj in *.
  rewrite find_key_split; [reflexivity|].
  rewrite map_app in Hnd. cbn in Hnd. apply NoDup_remove_2 in Hnd.
  intros Hin. apply Hnd, in_or_app. auto.
Qed.

Lemma getJob_In q k j : List.NoDup (map fst (jobs q)) -> In (k, j) (jobs q) -> getJob k q = Some j.
Proof.
  intros Hnd Hin. apply in_split in Hin. destruct Hin as (l1 & l2 & Hj).
  eapply getJob_split; eauto.
Qed.

Lemma getJob_Some_In q k j : getJob k q = Some j -> In (k, j) (jobs q).
Proof.
  unfold getJob. intros H.
  destruct (find _ (jobs q)) as [[k' j']|] eqn:Hf; [|discriminate].
  cbn in H. inversion H; subst j'.
  apply find_some in Hf. destruct Hf as [Hin Hk]. cbn in Hk.
  apply Nat.eqb_eq in Hk. subst k'. exact Hin.
Qed.

(** The first waiting job splits the map: nothing waits before it. *)
Lemma first_waiting l job rest :
  List.filter is_waiting (map snd l) = job :: rest ->
  exists l1 l2 k,
    l = l1 ++ (k, job) :: l2
    /\ Forall settled_entry l1
    /\ is_waiting job = true
    /\ rest = List.filter is_waiting (map snd l2).
Proof.
  induction l as [|[k j] l IH]; [discriminate|].
  cbn. destruct (is_waiting j) eqn:Hw.
  - intros H. inversion H; subst. exists [], l, k. cbn. auto.
  - intros H. destruct (IH H) as (l1 & l2 & k' & Hl & Hs & Hjob & Hrest).
    exists ((k, j) :: l1), l2, k'. subst l. cbn.
    split; [reflexivity|]. split; [|auto]. constructor; [exact Hw|exact Hs].
Qed.

Lemma waiting_settled l :
  Forall settled_entry l -> List.filter is_waiting (map snd l) = [].
Proof.
  induction 1 as [|[k j] l Hx Hl IH]; [reflexivity|].
  cbn. unfold settled_entry in Hx. cbn in Hx. rewrite Hx. exact IH.
Qed.

Lemma fifo_behind l1 kj l2 :
  fifo (l1 ++ kj :: l2) -> waiting_entry kj -> Forall waiting_entry l2.
Proof.
  induction l1 as [|x l1 IH]; cbn; intros [H1 H2] Hw; auto.
Qed.

Lemma fifo_settled_then_waiting l1 l2 :
  Forall settled_entry l1 -> Forall waiting_entry l2 -> fifo (l1 ++ l2).
Proof.
  intros H1 H2. induction H1 as [|x l1 Hx Hl IH]; cbn.
  - induction H2 as [|y l2 Hy Hl2 IH2]; cbn; auto.
  - split; [|exact IH]. intros Hw. unfold waiting_entry, settled_entry in *. congruence.
Qed.

Lemma fifo_app_waiting l kj : fifo l -> waiting_entry kj -> fifo (l ++ [kj]).
Proof.
  intros Hl Hw. induction l as [|x l IH]; cbn in *; [auto|].
  destruct Hl as [H1 H2]. split; [|auto].
  intros Hx. apply Forall_app. split; [auto|]. constructor; [exact Hw|constructor].
Qed.

(** A job that does not wait may change into another that does not. *)
Lemma fifo_settled_change l1 k j j' l2 :
  fifo (l1 ++ (k, j) :: l2) -> is_waiting j = false -> is_waiting j' = false ->
  fifo (l1 ++ (k, j') :: l2).
Proof.
  intros H Hj Hj'. induction l1 as [|x l1 IH]; cbn in *.
  - destruct H as [_ H]. split; [|exact H].
    unfold waiting_entry. cbn. congruence.
  - destruct H as [H1 H2]. split; [|auto].
    intros Hx. specialize (H1 Hx). apply Forall_app in H1. destruct H1 as [_ H1].
    inversion H1 as [|? ? Hbad _]. unfold waiting_entry in Hbad. cbn in Hbad. congruence.
Qed.

Lemma waiting_not_active j : is_waiting j = true -> is_active j = false.
Proof. unfold is_waiting, is_active. destruct (Job.status j); congruence. Qed.

Lemma active_not_waiting j : is_active j = true -> is_waiting j = false.
Proof. unfold is_waiting, is_active. destruct (Job.status j); congruence. Qed.

Lemma split_key_notin (k : nat) (j : Job.t) l1 l2 :
  List.NoDup (map fst (l1 ++ (k, j) :: l2)) ->
  ~ In k (map fst l1) /\ ~ In k (map fst l2).
Proof.
  intros Hnd. rewrite map_app in Hnd. cbn in Hnd. apply NoDup_remove_2 in Hnd.
  split; intros Hin; apply Hnd, in_or_app; auto.
Qed.

Lemma in_key (k : nat) (j : Job.t) l : In (k, j) l -> In k (map fst l).
Proof. intros H. apply (in_map fst) in H. exact H. Qed.

Lemma wf_new : wf new.
Proof.
  constructor; cbn; auto.
  - intros k. split; [intros H; exfalso; revert H; apply not_elem_of_empty|].
    intros (j & [] & _).
  - rewrite size_empty. lia.
Qed.

(** Admission of the first waiting job. *)
Lemma begin_wf q job rest :
  wf q ->
  getWaitingJobs q = job :: rest ->
  (size (processing q) < concurrency q)%nat ->
  wf (processJob_begin job q) /\ getWaitingJobs (processJob_begin job q) = rest.
Proof.
  intros Hwf Hw Hroom.
  pose proof (keys_NoDup q Hwf) as Hnd.
  destruct (first_waiting _ _ _ Hw) as (l1 & l2 & k & Hj & Hl1 & Hjob & Hrest).
  assert (Hid : Job.id job = k).
  { pose proof (wf_ids q Hwf) as Hids. rewrite List.Forall_forall in Hids.
    apply (Hids (k, job)). rewrite Hj. apply in_elt. }
  assert (Hl2 : Forall waiting_entry l2).
  { apply (fifo_behind l1 (k, job) l2); [rewrite <- Hj; apply (wf_fifo q Hwf)|exact Hjob]. }
  rewrite Hj in Hnd.
  destruct (split_key_notin _ _ _ _ Hnd) as [Hk1 Hk2].
  set (f := fun j => Job.set_progress 10 (Job.set_status Active j)).
  assert (Hjobs : jobs (processJob_begin job q) = l1 ++ (k, f job) :: l2).
  { unfold processJob_begin. cbn. rewrite Hid, Hj. apply update_split, Hnd. }
  split.
  - constructor.
    + rewrite Hjobs. unfold processJob_begin. cbn [nextJobId set_jobs set_processing].
      rewrite <- (wf_keys q Hwf), Hj, !map_app. reflexivity.
    + apply (wf_next q Hwf).
    + unfold processJob_begin. cbn [jobs set_jobs].
      apply ids_update; [reflexivity|apply (wf_ids q Hwf)].
    + intros k'. rewrite Hjobs. unfold processJob_begin. cbn [processing set_jobs set_processing].
      rewrite elem_of_union, elem_of_singleton, (wf_processing q Hwf k'), Hid, Hj.
      split.
      * intros [->|(j & Hin & Hact)].
        -- exists (f job). split; [apply in_elt|reflexivity].
        -- exists j. split; [|exact Hact].
           apply in_app_or in Hin. destruct Hin as [Hin|[Heq|Hin]].
           ++ apply in_or_app. auto.
           ++ inversion Heq; subst. rewrite (waiting_not_active _ Hjob) in Hact. discriminate.
           ++ apply in_or_app. right. right. exact Hin.
      * intros (j & Hin & Hact).
        apply in_app_or in Hin. destruct Hin as [Hin|[Heq|Hin]].
        -- right. exists j. split; [apply in_or_app; auto|exact Hact].
        -- inversion Heq; subst. auto.
        -- right. exists j. split; [apply in_or_app; right; right; exact Hin|exact Hact].
    + unfold processJob_begin. cbn [processing concurrency set_jobs set_processing].
      rewrite size_union_alt, size_singleton.
      assert (size (processing q ∖ {[Job.id job]}) <= size (processing q))%nat
        by (apply subseteq_size; intros x Hx; apply elem_of_difference in Hx; apply Hx).
      lia.
    + apply (wf_concurrency q Hwf).
    + rewrite Hjobs.
      replace (l1 ++ (k, f job) :: l2) with ((l1 ++ [(k, f job)]) ++ l2)
        by (rewrite <- app_assoc; reflexivity).
      apply fifo_settled_then_waiting; [|exact Hl2].
      apply Forall_app. split; [exact Hl1|]. constructor; [reflexivity|constructor].
    + unfold processJob_begin. cbn [isProcessing set_jobs set_processing]. intros Hoff.
      destruct (wf_alive q Hwf Hoff) as [Hnone _]. congruence.
  - unfold getWaitingJobs. rewrite Hjobs, map_app, List.filter_app.
    rewrite (waiting_settled _ Hl1). cbn. exact (eq_sym Hrest).
Qed.

Lemma admission_loop_wf n : forall q, wf q -> wf (admission_loop n q).
Proof.
  induction n as [|n IH]; intros q Hwf; cbn [admission_loop]; [exact Hwf|].
  destruct (_ && _)%bool eqn:Hc; [|exact Hwf].
  apply andb_true_iff in Hc. destruct Hc as [Hroom _].
  apply Nat.ltb_lt in Hroom.
  destruct (getWaitingJobs q) as [|job rest] eqn:Hw; [apply IH, Hwf|].
  apply IH. apply (begin_wf q job rest Hwf Hw Hroom).
Qed.

(** The fuel of [admitWaiting] is enough: when the loop is left, the processing
    set is full or no job waits. *)
Lemma admission_loop_exit n : forall q,
  wf q -> (length (getWaitingJobs q) <= n)%nat ->
  (concurrency (admission_loop n q) <= size (processing (admission_loop n q)))%nat
  \/ getWaitingJobs (admission_loop n q) = [].
Proof.
  induction n as [|n IH]; intros q Hwf Hlen; cbn [admission_loop].
  - right. destruct (getWaitingJobs q); [reflexivity|cbn in Hlen; lia].
  - destruct (_ && _)%bool eqn:Hc.
    + apply andb_true_iff in Hc. destruct Hc as [Hroom _].
      apply Nat.ltb_lt in Hroom.
      destruct (getWaitingJobs q) as [|job rest] eqn:Hw.
      * apply IH; [exact Hwf|rewrite Hw; cbn; lia].
      * destruct (begin_wf q job rest Hwf Hw Hroom) as [Hwf' Hw'].
        apply IH; [exact Hwf'|]. rewrite Hw'. cbn in Hlen. lia.
    + apply andb_false_iff in Hc. destruct Hc as [Hc|Hc].
      * left. apply Nat.ltb_ge in Hc. exact Hc.
      * right. apply Nat.ltb_ge in Hc.
        destruct (getWaitingJobs q); [reflexivity|cbn in Hc; lia].
Qed.

Lemma admission_exit q :
  wf q ->
  (concurrency (admitWaiting q) <= size (processing (admitWaiting q)))%nat
  \/ getWaitingJobs (admitWaiting q) = [].
Proof. intros Hwf. apply admission_loop_exit; [exact Hwf|lia]. Qed.

Lemma admission_loop_isProcessing n : forall q, isProcessing (admission_loop n q) = isProcessing q.
Proof.
  induction n as [|n IH]; intros q; cbn [admission_loop]; [reflexivity|].
  destruct (_ && _)%bool; [|reflexivity].
  destruct (getWaitingJobs q); rewrite IH; reflexivity.
Qed.

Lemma schedule_wf q : wf q -> wf (schedule q).
Proof.
  intros Hwf. unfold schedule.
  destruct (_ || _)%bool eqn:Hc; [apply admission_loop_wf, Hwf|].
  apply orb_false_iff in Hc. destruct Hc as [Hw Hp].
  apply Nat.ltb_ge in Hw. apply Nat.ltb_ge in Hp.
  destruct Hwf as [H1 H2 H3 H4 H5 H6 H7 H8].
  constructor; cbn; auto.
  intros _. split.
  - unfold getWaitingJobs in *. destruct (List.filter _ _); [reflexivity|cbn in Hw; lia].
  - apply leibniz_equiv, size_empty_iff. lia.
Qed.
(** A job in the processing set sits in the map, active, under its id. *)
Lemma processing_split q k :
  wf q -> k ∈ processing q ->
  exists l1 j l2, jobs q = l1 ++ (k, j) :: l2 /\ is_active j = true.
Proof.
  intros Hwf Hk. apply (wf_processing q Hwf) in Hk. destruct Hk as (j & Hin & Hact).
  apply in_split in Hin. destruct Hin as (l1 & l2 & Hj). eauto.
Qed.

(** A change of a job in the processing set that leaves it active, or
    takes it out of the set when it is no longer active. *)
Lemma change_wf q k f (leaves : bool) :
  wf q -> k ∈ processing q ->
  (forall j, Job.id (f j) = Job.id j) ->
  (forall j, is_waiting (f j) = false) ->
  (forall j, is_active j = true -> is_active (f j) = negb leaves) ->
  wf (set_processing (if leaves then processing q ∖ {[k]} else processing q)
        (set_jobs (update k f (jobs q)) q)).
Proof.
  intros Hwf Hk Hfid Hfw Hfa.
  pose proof (keys_NoDup q Hwf) as Hnd.
  destruct (processing_split q k Hwf Hk) as (l1 & j0 & l2 & Hj & Hact).
  rewrite Hj in Hnd. destruct (split_key_notin _ _ _ _ Hnd) as [Hk1 Hk2].
  assert (Hjobs : update k f (jobs q) = l1 ++ (k, f j0) :: l2).
  { rewrite Hj. apply update_split, Hnd. }
  constructor; cbn [jobs processing nextJobId isProcessing concurrency
                    set_jobs set_processing].
  - rewrite map_fst_update. apply (wf_keys q Hwf).
  - apply (wf_next q Hwf).
  - apply ids_update; [exact Hfid|apply (wf_ids q Hwf)].
  - intros k'. rewrite Hjobs.
    assert (Hold : k' ∈ processing q <->
                   exists j, In (k', j) (l1 ++ (k, j0) :: l2) /\ is_active j = true).
    { rewrite <- Hj. apply (wf_processing q Hwf). }
    assert (Hside : forall j, In (k', j) l1 \/ In (k', j) l2 -> k' <> k).
    { intros j [Hin|Hin] ->; apply in_key in Hin; contradiction. }
    destruct leaves.
    + rewrite elem_of_difference, elem_of_singleton, Hold. split.
      * intros [(j & Hin & Hj') Hne]. exists j. split; [|exact Hj'].
        apply in_app_or in Hin. destruct Hin as [Hin|[Heq|Hin]].
        -- apply in_or_app. auto.
        -- inversion Heq. congruence.
        -- apply in_or_app. right. right. exact Hin.
      * intros (j & Hin & Hj').
        apply in_app_or in Hin. destruct Hin as [Hin|[Heq|Hin]].
        -- split; [|eapply Hside; eauto]. exists j. split; [apply in_or_app; auto|exact Hj'].
        -- inversion Heq; subst. rewrite (Hfa j0 Hact) in Hj'. discriminate.
        -- split; [|eapply Hside; eauto].
           exists j. split; [apply in_or_app; right; right; exact Hin|exact Hj'].
    + rewrite Hold. split.
      * intros (j & Hin & Hj').
        apply in_app_or in Hin. destruct Hin as [Hin|[Heq|Hin]].
        -- exists j. split; [apply in_or_app; auto|exact Hj'].
        -- inversion Heq; subst. exists (f j). split; [apply in_elt|apply (Hfa j Hj')].
        -- exists j. split; [apply in_or_app; right; right; exact Hin|exact Hj'].
      * intros (j & Hin & Hj').
        apply in_app_or in Hin. destruct Hin as [Hin|[Heq|Hin]].
        -- exists j. split; [apply in_or_app; auto|exact Hj'].
        -- inversion Heq; subst. exists j0. split; [apply in_elt|exact Hact].
        -- exists j. split; [apply in_or_app; right; right; exact Hin|exact Hj'].
  - pose proof (wf_bound q Hwf) as Hb. destruct leaves; [|exact Hb].
    assert (size (processing q ∖ {[k]}) <= size (processing q))%nat
      by (apply subseteq_size; intros x Hx; apply elem_of_difference in Hx; apply Hx).
    lia.
  - apply (wf_concurrency q Hwf).
  - rewrite Hjobs. apply (fifo_settled_change l1 k j0 (f j0) l2);
      [rewrite <- Hj; apply (wf_fifo q Hwf)|apply active_not_waiting, Hact|apply Hfw].
  - intros Hoff. destruct (wf_alive q Hwf Hoff) as [_ Hnone].
    rewrite Hnone in Hk. exfalso. revert Hk. apply not_elem_of_empty.
Qed.

Lemma settle_wf q k outcome p :
  wf q -> k ∈ processing q -> wf (processJob_settle k outcome p q).
Proof.
  intros Hwf Hk. unfold processJob_settle.
  apply (change_wf q k _ true Hwf Hk); intros j; destruct outcome; try reflexivity.
Qed.

Lemma progress_wf q k p :
  wf q -> k ∈ processing q -> wf (set_jobs (update k (Job.set_progress p) (jobs q)) q).
Proof.
  intros Hwf Hk.
  replace (set_jobs (update k (Job.set_progress p) (jobs q)) q)
    with (set_processing (processing q)
            (set_jobs (update k (fun j => if is_active j then Job.set_progress p j else
                                            Job.set_status Active j) (jobs q)) q)).
  - apply (change_wf q k _ false Hwf Hk); intros j.
    + destruct (is_active j); reflexivity.
    + destruct (is_active j) eqn:E; [|reflexivity].
      unfold is_waiting, is_active in *. cbn. destruct (Job.status j); congruence.
    + intros Hj. rewrite Hj. exact Hj.
  - unfold set_processing, set_jobs. cbn. f_equal.
    destruct (processing_split q k Hwf Hk) as (l1 & j0 & l2 & Hj & Hact).
    pose proof (keys_NoDup q Hwf) as Hnd. rewrite Hj in *.
    rewrite !update_split by exact Hnd. rewrite Hact. reflexivity.
Qed.

Lemma map_set_fresh k v l : ~ In k (map fst l) -> map_set k v l = l ++ [(k, v)].
Proof.
  induction l as [|[k' v'] l IH]; [reflexivity|].
  cbn. intros H. destruct (Nat.eqb_spec k' k); [exfalso; apply H; auto|].
  f_equal. apply IH. intros Hin. apply H. auto.
Qed.

(** The queue just after the new job is put into the map, with the
    processor running. *)
Lemma enqueue_wf q (job : Job.t) :
  wf q -> Job.id job = nextJobId q -> is_waiting job = true ->
  wf (set_isProcessing true
        (set_jobs (map_set (nextJobId q) job (jobs q)) (set_nextJobId (S (nextJobId q)) q))).
Proof.
  intros Hwf Hid Hw.
  pose proof (wf_next q Hwf) as Hn.
  assert (Hfresh : ~ In (nextJobId q) (map fst (jobs q))).
  { rewrite (wf_keys q Hwf). rewrite in_seq. lia. }
  rewrite (map_set_fresh _ _ _ Hfresh).
  constructor; cbn [jobs processing nextJobId isProcessing concurrency
                    set_jobs set_processing set_nextJobId set_isProcessing].
  - rewrite map_app, (wf_keys q Hwf). cbn [map fst].
    replace (S (nextJobId q) - 1)%nat with (S (nextJobId q - 1)) by lia.
    rewrite seq_S. f_equal. f_equal. lia.
  - lia.
  - apply Forall_app. split; [apply (wf_ids q Hwf)|]. constructor; [exact Hid|constructor].
  - intros k. rewrite (wf_processing q Hwf k). split.
    + intros (j & Hin & Hact). exists j. split; [apply in_or_app; auto|exact Hact].
    + intros (j & Hin & Hact). apply in_app_or in Hin. destruct Hin as [Hin|[Heq|[]]].
      * exists j. auto.
      * inversion Heq; subst. rewrite (waiting_not_active _ Hw) in Hact. discriminate.
  - apply (wf_bound q Hwf).
  - apply (wf_concurrency q Hwf).
  - apply fifo_app_waiting; [apply (wf_fifo q Hwf)|exact Hw].
  - discriminate.
Qed.

Lemma set_isProcessing_same q : set_isProcessing (isProcessing q) q = q.
Proof. destruct q; reflexivity. Qed.

Lemma add_wf jobData now q : wf q -> wf (snd (add jobData now q)).
Proof.
  intros Hwf. unfold add. cbv zeta. cbn [snd].
  match goal with
  | |- context [map_set _ ?j _] => pose proof (enqueue_wf q j Hwf eq_refl eq_refl) as Hq
  end.
  cbn [isProcessing set_jobs set_nextJobId].
  destruct (isProcessing q) eqn:Hp; cbn [negb].
  - rewrite <- Hp in Hq at 1.
    match type of Hq with wf (set_isProcessing _ ?q1) =>
      change (isProcessing q) with (isProcessing q1) in Hq end.
    rewrite set_isProcessing_same in Hq. exact Hq.
  - unfold startProcessing. cbn [isProcessing set_jobs set_nextJobId]. rewrite Hp.
    apply schedule_wf. exact Hq.
Qed.

Lemma step_wf q q' : wf q -> step q q' -> wf q'.
Proof.
  intros Hwf Hstep. destruct Hstep.
  - apply add_wf, Hwf.
  - apply schedule_wf, Hwf.
  - apply progress_wf; assumption.
  - apply settle_wf; assumption.
Qed.

Lemma rtc_wf q q' : wf q -> rtc step q q' -> wf q'.
Proof. intros Hwf Hrtc. induction Hrtc; [exact Hwf|]. eauto using step_wf. Qed.

Lemma reachable_wf q : reachable q -> wf q.
Proof. apply rtc_wf, wf_new. Qed.
(* ===================================================================== *)
(** ** The job queue: the concurrency ceiling and arrival order *)
(* ===================================================================== *)

Lemma size_remove (P : gset nat) k : k ∈ P -> S (size (P ∖ {[k]})) = size P.
Proof.
  intros Hk.
  assert (Hdisj : ({[k]} : gset nat) ## P ∖ {[k]}).
  { apply elem_of_disjoint. intros x Hx1 Hx2.
    apply elem_of_difference in Hx2. tauto. }
  pose proof (size_union ({[k]} : gset nat) (P ∖ {[k]}) Hdisj) as Hsize.
  rewrite <- (union_difference_singleton_L k P Hk), size_singleton in Hsize.
  lia.
Qed.

Lemma length_le_size (l : list nat) : forall P : gset nat,
  List.NoDup l -> (forall x, In x l -> x ∈ P) -> (length l <= size P)%nat.
Proof.
  induction l as [|x l IH]; intros P Hnd Hin; cbn; [lia|].
  inversion Hnd as [|? ? Hx Hnd']; subst.
  assert (HxP : x ∈ P) by (apply Hin; left; reflexivity).
  rewrite <- (size_remove P x HxP).
  apply le_n_S, IH; [exact Hnd'|].
  intros y Hy. apply elem_of_difference. split; [apply Hin; right; exact Hy|].
  rewrite elem_of_singleton. intros ->. contradiction.
Qed.

Lemma active_keys_NoDup (l : list (nat * Job.t)) :
  List.NoDup (map fst l) ->
  List.NoDup (map fst (List.filter (fun kj => is_active (snd kj)) l)).
Proof.
  induction l as [|[k j] l IH]; cbn; intros Hnd; [constructor|].
  inversion Hnd as [|? ? Hk Hnd']; subst.
  destruct (is_active j); [|auto]. cbn. constructor; [|auto].
  intros Hin. apply Hk. apply in_map_iff in Hin. destruct Hin as (x & Hx & Hin).
  apply filter_In in Hin. destruct Hin as [Hin _].
  apply in_map_iff. exists x. auto.
Qed.

Lemma active_keys_length (l : list (nat * Job.t)) :
  length (List.filter is_active (map snd l))
  = length (map fst (List.filter (fun kj => is_active (snd kj)) l)).
Proof.
  induction l as [|[k j] l IH]; [reflexivity|].
  cbn. destruct (is_active j); cbn; rewrite IH; reflexivity.
Qed.

Lemma active_le_processing q : wf q -> (length (activeJobs q) <= size (processing q))%nat.
Proof.
  intros Hwf. unfold activeJobs. rewrite active_keys_length.
  apply length_le_size; [apply active_keys_NoDup, keys_NoDup, Hwf|].
  intros k Hin. apply in_map_iff in Hin. destruct Hin as ([k' j] & Hk & Hin).
  cbn in Hk. subst k'. apply filter_In in Hin. destruct Hin as [Hin Hact].
  apply (wf_processing q Hwf). exists j. auto.
Qed.

Lemma seq_split_lt a : forall s n k b,
  seq s n = a ++ k :: b -> forall x, In x a -> (x < k)%nat.
Proof.
  induction a as [|y a IH]; intros s n k b Hseq x Hin; [destruct Hin|].
  destruct n as [|n]; [discriminate|].
  cbn in Hseq. inversion Hseq as [[Hy Hrest]]. subst y.
  assert (Hk : In k (seq (S s) n)) by (rewrite Hrest; apply in_elt).
  apply in_seq in Hk.
  destruct Hin as [->|Hin]; [lia|].
  eapply IH; eauto.
Qed.

(** A job that arrived later has not been admitted before one that still
    waits. *)
Lemma arrival_order q ka kb ja jb :
  wf q ->
  getJob ka q = Some ja -> getJob kb q = Some jb ->
  (ka < kb)%nat -> is_waiting ja = true -> is_waiting jb = true.
Proof.
  intros Hwf Ha Hb Hlt Hw.
  apply getJob_Some_In in Ha. apply getJob_Some_In in Hb.
  apply in_split in Ha. destruct Ha as (l1 & l2 & Hj).
  pose proof (wf_keys q Hwf) as Hkeys. rewrite Hj, map_app in Hkeys. cbn in Hkeys.
  rewrite Hj in Hb. apply in_app_or in Hb. destruct Hb as [Hb|[Heq|Hb]].
  - apply in_key in Hb.
    pose proof (seq_split_lt _ _ _ _ _ (eq_sym Hkeys) kb Hb). lia.
  - inversion Heq. lia.
  - pose proof (wf_fifo q Hwf) as Hfifo. rewrite Hj in Hfifo.
    pose proof (fifo_behind l1 (ka, ja) l2 Hfifo Hw) as Hall.
    rewrite List.Forall_forall in Hall. apply (Hall (kb, jb) Hb).
Qed.

(** After a turn of the processor loop, jobs wait only because the
    processing set is full. *)
Lemma schedule_full q :
  wf q -> getWaitingJobs (schedule q) <> [] ->
  size (processing (schedule q)) = concurrency (schedule q).
Proof.
  intros Hwf Hw. pose proof (wf_bound _ (schedule_wf q Hwf)) as Hb.
  unfold schedule in *.
  destruct (_ || _)%bool eqn:Hc.
  - destruct (admission_exit q Hwf) as [Hfull|Hnone]; [lia|contradiction].
  - exfalso. apply Hw. apply orb_false_iff in Hc. destruct Hc as [Hc _].
    apply Nat.ltb_ge in Hc. unfold getWaitingJobs in *. cbn [jobs set_isProcessing].
    destruct (List.filter _ _); [reflexivity|cbn in Hc; lia].
Qed.

(** C9. In every state the queue can reach, by any sequence of [add]
    calls, wake-ups of the processor, progress reports and ends of
    pipelines: at most 10 jobs are active; of two jobs, the one that
    arrived later is still waiting whenever the earlier one is; and after
    a turn of the processor loop, jobs are left waiting only when 10 jobs
    are in the processing set. *)
Theorem concurrency_ceiling q :
  reachable q ->
  concurrency q = 10%nat
  /\ (length (activeJobs q) <= 10)%nat
  /\ (forall ka kb ja jb,
        getJob ka q = Some ja -> getJob kb q = Some jb ->
        (ka < kb)%nat -> Job.status ja = Waiting -> Job.status jb = Waiting)
  /\ (getWaitingJobs (schedule q) <> [] -> size (processing (schedule q)) = 10%nat).
Proof.
  intros Hreach. pose proof (reachable_wf q Hreach) as Hwf.
  split; [apply (wf_concurrency q Hwf)|]. split; [|split].
  - pose proof (active_le_processing q Hwf). pose proof (wf_bound q Hwf).
    rewrite (wf_concurrency q Hwf) in *. lia.
  - intros ka kb ja jb Ha Hb Hlt Hw.
    assert (Hwb : is_waiting jb = true).
    { apply (arrival_order q ka kb ja jb Hwf Ha Hb Hlt).
      unfold is_waiting. rewrite Hw. reflexivity. }
    unfold is_waiting in Hwb. destruct (Job.status jb); congruence.
  - intros Hw. rewrite (schedule_full q Hwf Hw).
    apply (wf_concurrency _ (schedule_wf q Hwf)).
Qed.

Lemma burst_reachable n : reachable (burst n).
Proof.
  induction n as [|n IH]; [apply rtc_refl|].
  cbn [burst]. eapply rtc_r; [exact IH|apply step_add].
Qed.

Lemma woken_burst_reachable n : reachable (schedule (burst (S n))).
Proof.
  eapply rtc_r; [apply burst_reachable|]. apply step_wake.
  cbn [burst]. unfold add. cbv zeta. cbn [snd isProcessing set_jobs set_nextJobId].
  destruct (isProcessing (burst n)) eqn:Hp; cbn [negb].
  - exact Hp.
  - unfold startProcessing. cbn [isProcessing set_jobs set_nextJobId]. rewrite Hp.
    unfold schedule.
    match goal with |- context [if ?c then _ else _] => destruct c eqn:Hc end.
    + unfold admitWaiting. rewrite admission_loop_isProcessing. reflexivity.
    + exfalso. apply orb_false_iff in Hc. destruct Hc as [Hc _].
      apply Nat.ltb_ge in Hc. unfold getWaitingJobs in Hc.
      cbn [jobs set_isProcessing set_jobs] in Hc.
      pose proof (reachable_wf _ (burst_reachable n)) as Hwf.
      rewrite map_set_fresh in Hc
        by (rewrite (wf_keys _ Hwf), in_seq; pose proof (wf_next _ Hwf); lia).
      rewrite map_app, List.filter_app, length_app in Hc. cbn in Hc. lia.
Qed.

Lemma concurrency_ceiling_witness :
  concurrency (schedule (burst 12)) = 10%nat
  /\ (length (activeJobs (schedule (burst 12))) <= 10)%nat
  /\ (forall ka kb ja jb,
        getJob ka (schedule (burst 12)) = Some ja ->
        getJob kb (schedule (burst 12)) = Some jb ->
        (ka < kb)%nat -> Job.status ja = Waiting -> Job.status jb = Waiting)
  /\ (getWaitingJobs (schedule (schedule (burst 12))) <> [] ->
      size (processing (schedule (schedule (burst 12)))) = 10%nat).
Proof.
  apply (concurrency_ceiling (schedule (burst 12))).
  apply woken_burst_reachable.
Defined.

(** Twelve jobs are added at once. The first call of [add] starts the
    processor, which admits job 1; the others wait; at its next wake-up
    the processor admits jobs 2 to 10, and jobs 11 and 12 wait. *)
Example burst_of_twelve :
  map (fun kj => (fst kj, Job.status (snd kj))) (jobs (burst 12))
  = [(1, Active); (2, Waiting); (3, Waiting); (4, Waiting); (5, Waiting); (6, Waiting);
     (7, Waiting); (8, Waiting); (9, Waiting); (10, Waiting); (11, Waiting);
     (12, Waiting)]%nat
  /\ map (fun kj => (fst kj, Job.status (snd kj))) (jobs (schedule (burst 12)))
     = [(1, Active); (2, Active); (3, Active); (4, Active); (5, Active); (6, Active);
        (7, Active); (8, Active); (9, Active); (10, Active); (11, Waiting);
        (12, Waiting)]%nat
  /\ size (processing (schedule (burst 12))) = 10%nat.
Proof. repeat split; vm_compute; reflexivity. Qed.
(* ===================================================================== *)
(** ** The job queue: the end of a job *)
(* ===================================================================== *)

Lemma getJob_updated q q' k f :
  jobs q' = update k f (jobs q) -> getJob k q' = f <$> getJob k q.
Proof.
  unfold getJob. intros ->. induction (jobs q) as [|[k' j] l IH]; [reflexivity|].
  cbn. destruct (Nat.eqb k' k) eqn:E; cbn; rewrite E; [reflexivity|exact IH].
Qed.

Lemma getJob_other q q' k k0 f :
  k <> k0 -> jobs q' = update k0 f (jobs q) -> getJob k q' = getJob k q.
Proof.
  unfold getJob. intros Hne ->. induction (jobs q) as [|[k' j] l IH]; [reflexivity|].
  cbn. destruct (Nat.eqb_spec k' k0); cbn.
  - subst k'. destruct (Nat.eqb_spec k0 k); [congruence|exact IH].
  - destruct (Nat.eqb k' k); [reflexivity|exact IH].
Qed.

Lemma getJob_same_jobs q q' k : jobs q' = jobs q -> getJob k q' = getJob k q.
Proof. unfold getJob. intros ->. reflexivity. Qed.

Lemma getJob_app q q' k j x :
  getJob k q = Some j -> jobs q' = jobs q ++ [x] -> getJob k q' = Some j.
Proof.
  unfold getJob. intros H ->. induction (jobs q) as [|[k' j'] l IH]; [discriminate|].
  cbn in *. destruct (Nat.eqb k' k); [exact H|auto].
Qed.

Lemma begin_status q job rest k st :
  wf q -> getWaitingJobs q = job :: rest ->
  statusOf k q = Some st -> st <> Waiting ->
  statusOf k (processJob_begin job q) = Some st.
Proof.
  intros Hwf Hw Hst Hne. unfold statusOf in *.
  rewrite (getJob_other q _ k (Job.id job) (fun j => Job.set_progress 10 (Job.set_status Active j)));
    [exact Hst| |reflexivity].
  intros ->.
  destruct (first_waiting _ _ _ Hw) as (l1 & l2 & k' & Hj & _ & Hjob & _).
  assert (Hin : In (k', job) (jobs q)) by (rewrite Hj; apply in_elt).
  assert (Hid : Job.id job = k').
  { pose proof (wf_ids q Hwf) as Hids. rewrite List.Forall_forall in Hids.
    apply (Hids (k', job) Hin). }
  subst k'. rewrite (getJob_In q _ job (keys_NoDup q Hwf) Hin) in Hst.
  cbn in Hst. inversion Hst as [Hs]. unfold is_waiting in Hjob. rewrite Hs in Hjob.
  destruct st; congruence.
Qed.

Lemma admission_loop_status n : forall q k st,
  wf q -> statusOf k q = Some st -> st <> Waiting ->
  statusOf k (admission_loop n q) = Some st.
Proof.
  induction n as [|n IH]; intros q k st Hwf Hst Hne; cbn [admission_loop]; [exact Hst|].
  destruct (_ && _)%bool eqn:Hc; [|exact Hst].
  apply andb_true_iff in Hc. destruct Hc as [Hroom _]. apply Nat.ltb_lt in Hroom.
  destruct (getWaitingJobs q) as [|job rest] eqn:Hw; [apply IH; assumption|].
  apply IH; [apply (begin_wf q job rest Hwf Hw Hroom)| |exact Hne].
  eapply begin_status; eauto.
Qed.

Lemma schedule_status q k st :
  wf q -> statusOf k q = Some st -> st <> Waiting -> statusOf k (schedule q) = Some st.
Proof.
  intros Hwf Hst Hne. unfold schedule.
  destruct (_ || _)%bool; [apply admission_loop_status; assumption|exact Hst].
Qed.

Lemma add_status jobData now q k st :
  wf q -> statusOf k q = Some st -> st <> Waiting ->
  statusOf k (snd (add jobData now q)) = Some st.
Proof.
  intros Hwf Hst Hne. unfold add. cbv zeta. cbn [snd].
  match goal with
  | |- context [map_set _ ?j _] =>
      pose proof (enqueue_wf q j Hwf eq_refl eq_refl) as Hq; set (job := j) in *
  end.
  assert (Hfresh : ~ In (nextJobId q) (map fst (jobs q))).
  { rewrite (wf_keys q Hwf), in_seq. pose proof (wf_next q Hwf). lia. }
  assert (Hst1 : forall b,
    statusOf k (set_isProcessing b (set_jobs (map_set (nextJobId q) job (jobs q))
                                      (set_nextJobId (S (nextJobId q)) q))) = Some st).
  { intros b. unfold statusOf in *.
    destruct (getJob k q) as [j|] eqn:Hj; [|discriminate].
    erewrite getJob_app; [exact Hst|exact Hj|].
    cbn. apply map_set_fresh, Hfresh. }
  cbn [isProcessing set_jobs set_nextJobId].
  destruct (isProcessing q) eqn:Hp; cbn [negb].
  - specialize (Hst1 true). unfold statusOf in *.
    erewrite getJob_same_jobs; [exact Hst1|reflexivity].
  - unfold startProcessing. cbn [isProcessing set_jobs set_nextJobId]. rewrite Hp.
    apply schedule_status; [exact Hq|apply Hst1|exact Hne].
Qed.

Lemma processing_active q k : wf q -> k ∈ processing q -> statusOf k q = Some Active.
Proof.
  intros Hwf Hk.
  destruct (processing_split q k Hwf Hk) as (l1 & j & l2 & Hj & Hact).
  unfold statusOf. rewrite (getJob_split q k j l1 l2 (keys_NoDup q Hwf) Hj).
  cbn. unfold is_active in Hact. destruct (Job.status j); congruence.
Qed.

(** A job that is completed or failed stays so. *)
Lemma step_settled_status q q' k st :
  wf q -> step q q' -> statusOf k q = Some st -> st = Completed \/ st = Failed ->
  statusOf k q' = Some st.
Proof.
  intros Hwf Hstep Hst Hterm.
  assert (Hne : st <> Waiting) by (destruct Hterm; subst; discriminate).
  destruct Hstep as [jobData now q|q Hon|k0 p q Hk0|k0 outcome p q Hk0].
  - apply add_status; assumption.
  - apply schedule_status; assumption.
  - unfold statusOf in *. destruct (Nat.eq_dec k k0) as [->|Hk].
    + rewrite (getJob_updated q _ k0 (Job.set_progress p)) by reflexivity.
      destruct (getJob k0 q); [exact Hst|discriminate].
    + rewrite (getJob_other q _ k k0 (Job.set_progress p)); [exact Hst|exact Hk|reflexivity].
  - destruct (Nat.eq_dec k k0) as [->|Hk].
    + rewrite (processing_active q k0 Hwf Hk0) in Hst. destruct Hterm; subst; discriminate.
    + unfold statusOf in *. unfold processJob_settle.
      erewrite getJob_other; [exact Hst|exact Hk|reflexivity].
Qed.

Lemma rtc_settled_status q q' k st :
  wf q -> rtc step q q' -> statusOf k q = Some st -> st = Completed \/ st = Failed ->
  statusOf k q' = Some st.
Proof.
  intros Hwf Hrtc. induction Hrtc as [|q q1 q2 Hstep Hrtc IH]; intros Hst Hterm; [exact Hst|].
  apply IH; [eapply step_wf; eauto| |exact Hterm].
  eapply step_settled_status; eauto.
Qed.

(** C10. A job that has been admitted is active; at the end of its
    pipeline it is completed when the pipeline has returned and failed
    when it has thrown, and it keeps that status from then on. In both
    cases it has left the processing set: one more place is free, the
    processor is still running, and at its next wake-up the first job
    that waits, if there is one, is admitted. *)
Theorem settled_job_frees_slot q k outcome p :
  reachable q -> k ∈ processing q ->
  statusOf k q = Some Active
  /\ statusOf k (processJob_settle k outcome p q) = Some (finalStatus outcome)
  /\ (forall q'', rtc step (processJob_settle k outcome p q) q'' ->
                  statusOf k q'' = Some (finalStatus outcome))
  /\ (k ∉ processing (processJob_settle k outcome p q))
  /\ S (size (processing (processJob_settle k outcome p q))) = size (processing q)
  /\ (size (processing (processJob_settle k outcome p q))
      < concurrency (processJob_settle k outcome p q))%nat
  /\ isProcessing (processJob_settle k outcome p q) = true
  /\ (forall w rest,
        getWaitingJobs (processJob_settle k outcome p q) = w :: rest ->
        statusOf (Job.id w) (schedule (processJob_settle k outcome p q)) = Some Active)
  /\ (forall env s,
        exists j, getJob k q = Some j
                  /\ fst (processJob env k s q)
                     = processJob_settle k
                         (fst (processStableStudy env (Job.data j)
                                 (set_progress (Job.progress j) s)))
                         (progress (snd (processStableStudy env (Job.data j)
                                           (set_progress (Job.progress j) s)))) q).
Proof.
  intros Hreach Hk. pose proof (reachable_wf q Hreach) as Hwf.
  pose proof (settle_wf q k outcome p Hwf Hk) as Hwf'.
  pose proof (processing_active q k Hwf Hk) as Hact.
  assert (Hfinal : statusOf k (processJob_settle k outcome p q) = Some (finalStatus outcome)).
  { unfold statusOf in *. unfold processJob_settle.
    erewrite getJob_updated by reflexivity.
    destruct (getJob k q) as [j|]; [|discriminate]. destruct outcome; reflexivity. }
  assert (Hsize : S (size (processing (processJob_settle k outcome p q)))
                  = size (processing q)) by (apply size_remove, Hk).
  assert (Hroom : (size (processing (processJob_settle k outcome p q))
                   < concurrency (processJob_settle k outcome p q))%nat).
  { pose proof (wf_bound q Hwf). unfold processJob_settle in Hsize |- *.
    cbn [processing concurrency set_processing set_jobs] in Hsize |- *. lia. }
  split; [exact Hact|]. split; [exact Hfinal|]. split.
  { intros q'' Hrtc. apply (rtc_settled_status _ q'' k _ Hwf' Hrtc Hfinal).
    destruct outcome; auto. }
  split.
  { cbn. intros Hin. apply elem_of_difference in Hin.
    destruct Hin as [_ Hn]. apply Hn, elem_of_singleton. reflexivity. }
  split; [exact Hsize|]. split; [exact Hroom|]. split.
  { cbn. destruct (isProcessing q) eqn:Hp; [reflexivity|].
    destruct (wf_alive q Hwf Hp) as [_ Hnone]. rewrite Hnone in Hk.
    exfalso. revert Hk. apply not_elem_of_empty. }
  split.
  { intros w rest Hw. unfold schedule. rewrite Hw. cbn [length Nat.ltb Nat.leb orb].
    unfold admitWaiting. rewrite Hw. cbn [length admission_loop].
    apply Nat.ltb_lt in Hroom. rewrite Hroom, Hw. cbn [length Nat.ltb Nat.leb andb].
    destruct (begin_wf _ w rest Hwf' Hw (proj1 (Nat.ltb_lt _ _) Hroom)) as [Hwf'' _].
    apply admission_loop_status; [exact Hwf''| |discriminate].
    unfold statusOf. unfold processJob_begin.
    erewrite getJob_updated by reflexivity.
    destruct (first_waiting _ _ _ Hw) as (l1 & l2 & k' & Hj & _ & _ & _).
    assert (Hin : In (k', w) (jobs (processJob_settle k outcome p q)))
      by (unfold getWaitingJobs in Hw; rewrite Hj; apply in_elt).
    assert (Hid : Job.id w = k').
    { pose proof (wf_ids _ Hwf') as Hids. rewrite List.Forall_forall in Hids.
      apply (Hids (k', w) Hin). }
    subst k'. rewrite (getJob_In _ _ w (keys_NoDup _ Hwf') Hin). reflexivity. }
  intros env s. unfold statusOf in Hact.
  destruct (getJob k q) as [j|] eqn:Hj; [|discriminate].
  exists j. split; [reflexivity|]. unfold processJob. rewrite Hj.
  destruct (processStableStudy env (Job.data j) (set_progress (Job.progress j) s)).
  reflexivity.
Qed.

(** The first of the twelve jobs ends with an error while eleven wait. *)
Lemma settled_job_frees_slot_witness :
  statusOf 1 (burst 12) = Some Active
  /\ statusOf 1 (processJob_settle 1 (inl "Request failed with status code 404") 10 (burst 12))
     = Some (finalStatus (inl "Request failed with status code 404"))
  /\ (forall q'',
        rtc step (processJob_settle 1 (inl "Request failed with status code 404") 10
                    (burst 12)) q'' ->
        statusOf 1 q'' = Some (finalStatus (inl "Request failed with status code 404")))
  /\ (1%nat ∉ processing (processJob_settle 1 (inl "Request failed with status code 404")
                            10 (burst 12)))
  /\ S (size (processing (processJob_settle 1 (inl "Request failed with status code 404") 10
                            (burst 12))))
     = size (processing (burst 12))
  /\ (size (processing (processJob_settle 1 (inl "Request failed with status code 404") 10
                          (burst 12)))
      < concurrency (processJob_settle 1 (inl "Request failed with status code 404") 10
                       (burst 12)))%nat
  /\ isProcessing (processJob_settle 1 (inl "Request failed with status code 404") 10
                     (burst 12)) = true
  /\ (forall w rest,
        getWaitingJobs (processJob_settle 1 (inl "Request failed with status code 404") 10
                          (burst 12)) = w :: rest ->
        statusOf (Job.id w)
          (schedule (processJob_settle 1 (inl "Request failed with status code 404") 10
                       (burst 12))) = Some Active)
  /\ (forall env s,
        exists j, getJob 1 (burst 12) = Some j
                  /\ fst (processJob env 1 s (burst 12))
                     = processJob_settle 1
                         (fst (processStableStudy env (Job.data j)
                                 (set_progress (Job.progress j) s)))
                         (progress (snd (processStableStudy env (Job.data j)
                                           (set_progress (Job.progress j) s))))
                         (burst 12)).
Proof.
  apply (settled_job_frees_slot (burst 12) 1 (inl "Request failed with status code 404") 10).
  - apply burst_reachable.
  - vm_compute. reflexivity.
Defined.
End QueueFacts.

(* ===================================================================== *)
(** ** More on person names *)
(* ===================================================================== *)

Lemma includes_app c (a b : string) :
  Js.includes c (a ++ b) = (Js.includes c a || Js.includes c b)%bool.
Proof.
  induction a as [|x a IH]; [reflexivity|].
  change (String x a ++ b) with (String x (a ++ b)).
  cbn [Js.includes]. rewrite IH. apply orb_assoc.
Qed.

Lemma includes_trim_start c s :
  Js.includes c s = false -> Js.includes c (Js.trim_start s) = false.
Proof.
  induction s as [|x r IH]; [reflexivity|].
  intros H. cbn [Js.trim_start]. destruct (Js.is_space x); [|exact H].
  apply IH. cbn in H. apply orb_false_iff in H. tauto.
Qed.

Lemma includes_trim_end c s :
  Js.includes c s = false -> Js.includes c (Js.trim_end s) = false.
Proof.
  induction s as [|x r IH]; [reflexivity|].
  intros H. cbn in H. apply orb_false_iff in H. destruct H as [Hx Hr].
  cbn [Js.trim_end]. specialize (IH Hr).
  destruct (Js.trim_end r) as [|y r'].
  - destruct (Js.is_space x); [reflexivity|]. cbn. rewrite Hx. reflexivity.
  - cbn [Js.includes] in *. rewrite Hx, IH. reflexivity.
Qed.

Lemma includes_trim c s : Js.includes c s = false -> Js.includes c (Js.trim s) = false.
Proof. intros H. apply includes_trim_end, includes_trim_start, H. Qed.

Lemma split_parts_clean sep s :
  Forall (fun p => Js.includes sep p = false) (Js.split sep s).
Proof.
  induction s as [|c r IH]; cbn [Js.split]; [constructor; [reflexivity|constructor]|].
  destruct (Ascii.eqb c sep) eqn:E; [constructor; [reflexivity|exact IH]|].
  destruct (Js.split sep r) as [|p ps]; [constructor; [|constructor]|].
  - cbn. rewrite E. reflexivity.
  - inversion IH as [|? ? Hp Hps]; subst. constructor; [|exact Hps].
    cbn. rewrite E, Hp. reflexivity.
Qed.

Lemma part_clean sep parts i :
  Forall (fun p => Js.includes sep p = false) parts ->
  Js.includes sep (part parts i) = false.
Proof.
  intros H. unfold part. apply includes_trim.
  revert i. induction H as [|p l Hp Hl IH]; intros [|i]; cbn; auto.
Qed.

Lemma push_if_clean c x acc :
  Js.includes c x = false ->
  Forall (fun p => Js.includes c p = false) acc ->
  Forall (fun p => Js.includes c p = false) (push_if x acc).
Proof.
  intros Hx Hacc. unfold push_if. destruct (Js.nonempty x); [|exact Hacc].
  apply Forall_app. split; [exact Hacc|]. constructor; [exact Hx|constructor].
Qed.

Lemma join_clean c sep l :
  Js.includes c sep = false ->
  Forall (fun p => Js.includes c p = false) l ->
  Js.includes c (Js.join sep l) = false.
Proof.
  intros Hsep H. induction H as [|x l Hx Hl IH]; [reflexivity|].
  destruct l as [|y l']; [exact Hx|].
  change (Js.join sep (x :: y :: l')) with (x ++ sep ++ Js.join sep (y :: l')).
  rewrite !includes_app, Hx, Hsep, IH. reflexivity.
Qed.

(** The parsed name is free of the delimiter and its display form is not
    empty. *)
Lemma processDicomPersonName_clean (o : option string) :
  Js.includes "^" (formattedForDisplay (processDicomPersonName o)) = false
  /\ Js.includes "^" (fullName (processDicomPersonName o)) = false
  /\ Js.includes "^" (firstName (processDicomPersonName o)) = false
  /\ Js.includes "^" (lastName (processDicomPersonName o)) = false
  /\ Js.includes "^" (middleName (processDicomPersonName o)) = false
  /\ Js.includes "^" (namePrefix (processDicomPersonName o)) = false
  /\ Js.includes "^" (nameSuffix (processDicomPersonName o)) = false
  /\ Js.nonempty (formattedForDisplay (processDicomPersonName o)) = true.
Proof.
  assert (Hne : Js.nonempty (formattedForDisplay (processDicomPersonName o)) = true).
  { pose proof (fullName_nonempty o) as H. unfold processDicomPersonName in *.
    destruct (negb (Js.truthy o)); [reflexivity|].
    destruct (_ || _)%bool; [reflexivity|exact H]. }
  unfold processDicomPersonName in *.
  destruct (negb (Js.truthy o)); [repeat split; reflexivity|].
  destruct (_ || _)%bool; [repeat split; reflexivity|].
  cbv zeta in *. cbn [formattedForDisplay fullName firstName lastName middleName
                      namePrefix nameSuffix] in *.
  pose proof (split_parts_clean "^" (Js.trim (Js.or_else o ""))) as Hparts.
  assert (Hdisplay : forall l,
            Forall (fun p => Js.includes "^" p = false) l ->
            Js.includes "^" (match l with [] => "Unknown Patient" | _ => Js.join " " l end)
            = false).
  { intros l Hl. destruct l; [reflexivity|]. apply join_clean; [reflexivity|exact Hl]. }
  repeat split; try (apply part_clean, Hparts); try exact Hne;
    apply Hdisplay; repeat (apply push_if_clean; [apply part_clean, Hparts|]); constructor.
Qed.

(** X1. Whatever the name field holds, the parsed name is free of the
    DICOM delimiter [^]: the display name, and the given, family and
    middle names, the prefix and the suffix; and the display name is not
    empty. *)
Theorem parsed_name_has_no_caret (o : option string) :
  Js.includes "^" (formattedForDisplay (processDicomPersonName o)) = false
  /\ Js.includes "^" (fullName (processDicomPersonName o)) = false
  /\ Js.includes "^" (firstName (processDicomPersonName o)) = false
  /\ Js.includes "^" (lastName (processDicomPersonName o)) = false
  /\ Js.includes "^" (middleName (processDicomPersonName o)) = false
  /\ Js.includes "^" (namePrefix (processDicomPersonName o)) = false
  /\ Js.includes "^" (nameSuffix (processDicomPersonName o)) = false
  /\ Js.nonempty (formattedForDisplay (processDicomPersonName o)) = true.
Proof. exact (processDicomPersonName_clean o). Qed.

Lemma trim_start_length s : (String.length (Js.trim_start s) <= String.length s)%nat.
Proof.
  induction s as [|c r IH]; cbn [Js.trim_start]; [lia|].
  destruct (Js.is_space c); cbn [String.length] in *; lia.
Qed.

Lemma trim_end_length s : (String.length (Js.trim_end s) <= String.length s)%nat.
Proof.
  induction s as [|c r IH]; cbn [Js.trim_end]; [lia|].
  destruct (Js.trim_end r); [destruct (Js.is_space c)|]; cbn [String.length] in *; lia.
Qed.

Lemma trim_fixed_start s : Js.trim s = s -> Js.trim_start s = s.
Proof.
  intros H. destruct s as [|c r]; [reflexivity|].
  cbn [Js.trim_start]. destruct (Js.is_space c) eqn:E; [|reflexivity].
  exfalso. unfold Js.trim in H. cbn [Js.trim_start] in H. rewrite E in H.
  pose proof (trim_end_length (Js.trim_start r)) as H1.
  pose proof (trim_start_length r) as H2.
  rewrite H in H1. cbn [String.length] in H1. lia.
Qed.

Lemma trim_fixed_end s : Js.trim s = s -> Js.trim_end s = s.
Proof.
  intros H. pose proof (trim_fixed_start s H) as Hs.
  unfold Js.trim in H. rewrite Hs in H. exact H.
Qed.

Lemma trim_end_app a b :
  Js.trim_end b <> "" -> Js.trim_end (a ++ b) = a ++ Js.trim_end b.
Proof.
  intros Hb. induction a as [|x a IH]; [reflexivity|].
  change (String x a ++ b) with (String x (a ++ b)).
  cbn [Js.trim_end]. rewrite IH.
  change (String x a ++ Js.trim_end b) with (String x (a ++ Js.trim_end b)).
  destruct (a ++ Js.trim_end b) as [|y r] eqn:E; [|reflexivity].
  exfalso. destruct a; [exact (Hb E)|discriminate E].
Qed.

Lemma split_no_sep sep s : Js.includes sep s = false -> Js.split sep s = [s].
Proof.
  induction s as [|c r IH]; [reflexivity|].
  cbn [Js.includes Js.split]. intros H. apply orb_false_iff in H. destruct H as [Hc Hr].
  rewrite Hc, (IH Hr). reflexivity.
Qed.

Lemma split_at_sep sep a b :
  Js.includes sep a = false ->
  Js.split sep (a ++ String sep b) = a :: Js.split sep b.
Proof.
  induction a as [|c r IH]; intros H.
  - change ("" ++ String sep b) with (String sep b). cbn [Js.split].
    rewrite Ascii.eqb_refl. reflexivity.
  - change (String c r ++ String sep b) with (String c (r ++ String sep b)).
    cbn [Js.includes] in H. apply orb_false_iff in H. destruct H as [Hc Hr].
    cbn [Js.split]. rewrite Hc, (IH Hr). reflexivity.
Qed.

(** X2. A two-component DICOM name [Family^Given] (both components
    non-empty, trimmed and free of [^]) is parsed into family name and
    given name in that order, and displayed as "Given Family". *)
Theorem family_given_name (family given : string)
  (Hfamily : Js.nonempty family = true) (Hgiven : Js.nonempty given = true)
  (Hf : Js.includes "^" family = false) (Hg : Js.includes "^" given = false)
  (Htf : Js.trim family = family) (Htg : Js.trim given = given) :
  processDicomPersonName (Some (family ++ "^" ++ given)) =
  {| fullName := given ++ " " ++ family;
     firstName := given;
     lastName := family;
     middleName := "";
     namePrefix := "";
     nameSuffix := "";
     originalDicomFormat := family ++ "^" ++ given;
     formattedForDisplay := given ++ " " ++ family |}.
Proof.
  assert (Htrim : Js.trim (family ++ "^" ++ given) = family ++ "^" ++ given).
  { unfold Js.trim.
    assert (Hs : Js.trim_start (family ++ "^" ++ given) = family ++ "^" ++ given).
    { pose proof (trim_fixed_start _ Htf) as H. destruct family as [|c r]; [discriminate|].
      change (String c r ++ "^" ++ given) with (String c (r ++ "^" ++ given)).
      cbn [Js.trim_start] in *. destruct (Js.is_space c); [|reflexivity].
      exfalso. pose proof (trim_start_length r) as Hl. rewrite H in Hl.
      cbn [String.length] in Hl. lia. }
    rewrite Hs.
    pose proof (trim_fixed_end _ Htg) as He.
    assert (Hne : Js.trim_end ("^" ++ given) <> "").
    { change ("^" ++ given) with (String "^" given). cbn [Js.trim_end].
      intros Heq. destruct (Js.trim_end given); cbv in Heq; discriminate Heq. }
    rewrite trim_end_app by exact Hne. f_equal.
    change ("^" ++ given) with (String "^" given). cbn [Js.trim_end].
    rewrite He. destruct given; [discriminate|reflexivity]. }
  unfold processDicomPersonName, Js.truthy, Js.or_else.
  destruct family as [|c r] eqn:Efam; [discriminate|]. rewrite <- Efam in *.
  assert (Hc : Ascii.eqb c "^" = false).
  { rewrite Efam in Hf. cbn [Js.includes] in Hf. apply orb_false_iff in Hf. tauto. }
  assert (Hne : Js.nonempty (family ++ "^" ++ given) = true) by (rewrite Efam; reflexivity).
  rewrite Hne. cbn [negb]. cbv zeta. rewrite Htrim.
  assert (Hplace : (String.eqb (family ++ "^" ++ given) "" ||
                    String.eqb (family ++ "^" ++ given) "^" ||
                    String.eqb (family ++ "^" ++ given) "^^^")%bool = false).
  { rewrite Efam. change (String c r ++ "^" ++ given) with (String c (r ++ "^" ++ given)).
    cbn [String.eqb]. rewrite Hc. reflexivity. }
  rewrite Hplace.
  change (family ++ "^" ++ given) with (family ++ String "^" given).
  rewrite (split_at_sep _ _ _ Hf), (split_no_sep _ _ Hg).
  unfold part. cbn [nth]. rewrite Htf, Htg.
  change (Js.trim "") with "".
  unfold push_if. rewrite Hfamily, Hgiven. cbn [Js.nonempty app Js.join].
  reflexivity.
Qed.

Lemma family_given_name_witness :
  formattedForDisplay (processDicomPersonName (Some "Doe^John")) = "John Doe"
  /\ lastName (processDicomPersonName (Some "Doe^John")) = "Doe".
Proof.
  pose proof (family_given_name "Doe" "John" eq_refl eq_refl eq_refl eq_refl eq_refl eq_refl)
    as H.
  change ("Doe" ++ "^" ++ "John") with "Doe^John" in H. rewrite H. split; reflexivity.
Defined.

(* ===================================================================== *)
(** ** More on patient resolution *)
(* ===================================================================== *)

Lemma patients_formatDicomDateToISO env d s r s' :
  formatDicomDateToISO env d s = (r, s') -> patients s' = patients s.
Proof.
  apply (preserves_run (fun a b => patients b = patients a)).
  apply preserves_formatDicomDateToISO; cbn; intros; congruence.
Qed.

(** A stored name is rewritten exactly when it still holds the delimiter. *)
Lemma upgrade_guard (raw : string) (o : option string) :
  (Js.nonempty raw && Js.includes "^" raw
   && Js.nonempty (formattedForDisplay (processDicomPersonName o))
   && negb (Js.includes "^" (formattedForDisplay (processDicomPersonName o))))%bool
  = Js.includes "^" raw.
Proof.
  destruct (processDicomPersonName_clean o) as (Hd & _ & _ & _ & _ & _ & _ & Hne).
  rewrite Hd, Hne. cbn [negb]. rewrite !andb_true_r.
  destruct raw; reflexivity.
Qed.

Lemma In_replaced {A} (g : A -> bool) (d doc : A) (l : list A) :
  In d l -> g d = true -> In doc (map (fun x => if g x then doc else x) l).
Proof.
  intros Hin Hg. apply in_map_iff. exists d. rewrite Hg. auto.
Qed.

Lemma find_app_last {A} (f : A -> bool) (l : list A) (d : A) :
  find f l = None -> f d = true -> find f (l ++ [d])%list = Some d.
Proof.
  intros Hl Hd. induction l as [|x l IH]; cbn in *; [rewrite Hd; reflexivity|].
  destruct (f x); [discriminate|auto].
Qed.

(** What a resolution that returns has done: either the patient was
    found (and its name possibly rewritten in place), or it was stored as
    a new document. *)
Lemma findOrCreatePatientFromTags_returns env (tags : Tags) s p s' :
  findOrCreatePatientFromTags env tags s = (inr p, s') ->
  Js.includes "^" (Patient.patientNameRaw p) = false
  /\ match find (mrn_is (tags !! "PatientID")) (patients s) with
     | Some q =>
         Patient._id p = Patient._id q /\ Patient.mrn p = Patient.mrn q
         /\ Patient.patientID p = Patient.patientID q
         /\ Patient.gender p = Patient.gender q
         /\ Patient.dateOfBirth p = Patient.dateOfBirth q
         /\ Patient.isAnonymous p = Patient.isAnonymous q
         /\ objectIds s' = objectIds s /\ clockReads s' = clockReads s
         /\ (if Js.includes "^" (Patient.patientNameRaw q)
             then patients s'
                  = map (fun x => if String.eqb (Patient._id x) (Patient._id q) then p else x)
                        (patients s)
             else p = q /\ s' = s)
     | None =>
         patients s' = (patients s ++ [p])%list
         /\ existsb (fun x => String.eqb (Patient._id x) (Patient._id p)) (patients s) = false
         /\ Patient.patientNameRaw p
            = formattedForDisplay (processDicomPersonName (tags !! "PatientName"))
         /\ (Js.truthy (tags !! "PatientID") = true -> Patient.mrn p = tags !! "PatientID")
     end.
Proof.
  unfold findOrCreatePatientFromTags. cbv zeta. rewrite sentinel_guard_false.
  intros H. apply bind_inr in H. destruct H as (found & s0 & Hfind & H).
  unfold Patient_findOne, gets in Hfind. inversion Hfind; subst found s0. clear Hfind.
  destruct (find (mrn_is (tags !! "PatientID")) (patients s)) as [q|] eqn:Hq.
  - rewrite upgrade_guard in H.
    destruct (Js.includes "^" (Patient.patientNameRaw q)) eqn:Hraw.
    + apply bind_inr in H. destruct H as (u & s1 & Hsave & H).
      apply ret_inr in H. destruct H as [Hp Hs]. subst p s1.
      unfold Patient_save, store_save in Hsave.
      destruct (patientAccepted env (patients s) _) in Hsave; [discriminate|].
      inversion Hsave; subst s'. cbn.
      split; [apply processDicomPersonName_clean|]. repeat split; reflexivity.
    + apply ret_inr in H. destruct H as [Hp Hs]. subst p s'.
      split; [exact Hraw|]. repeat split; reflexivity.
  - apply bind_inr in H. destruct H as (pid & s1 & Hpid & H).
    apply bind_inr in H. destruct H as (mrn & s2 & Hmrn & H).
    apply bind_inr in H. destruct H as (dob & s3 & Hdob & H).
    apply bind_inr in H. destruct H as (oid & s4 & Hoid & H).
    apply bind_inr in H. destruct H as (u & s5 & Hsave & H).
    apply ret_inr in H. destruct H as [Hp Hs]. subst s5.
    assert (E1 : patients s1 = patients s).
    { unfold generatePatientID, generateObjectId, bind, ret in Hpid.
      inversion Hpid; reflexivity. }
    assert (E2 : patients s2 = patients s1
                 /\ (Js.truthy (tags !! "PatientID") = true
                     -> Some mrn = tags !! "PatientID")).
    { destruct (tags !! "PatientID") as [v|]; cbn [Js.truthy Js.or_else] in *.
      - destruct (Js.nonempty v).
        + apply ret_inr in Hmrn. destruct Hmrn; subst. auto.
        + unfold dateNow, bind, ret in Hmrn. inversion Hmrn. split; [reflexivity|discriminate].
      - unfold dateNow, bind, ret in Hmrn. inversion Hmrn. split; [reflexivity|discriminate]. }
    destruct E2 as [E2 Hm].
    assert (E3 : patients s3 = patients s2).
    { destruct (Js.truthy (tags !! "PatientBirthDate")).
      - apply bind_inr in Hdob. destruct Hdob as (d & s6 & Hd & Hr).
        apply ret_inr in Hr. destruct Hr as [_ Hr]. subst s6.
        eapply patients_formatDicomDateToISO, Hd.
      - apply ret_inr in Hdob. destruct Hdob as [_ Hr]. subst. reflexivity. }
    assert (E4 : patients s4 = patients s3).
    { unfold generateObjectId in Hoid. inversion Hoid; reflexivity. }
    unfold Patient_save, store_save in Hsave.
    destruct (patientAccepted env (patients s4) _) in Hsave; [discriminate|].
    destruct (existsb _ (patients s4)) eqn:Hdup in Hsave; [discriminate|].
    inversion Hsave; subst s'. subst p. cbn.
    split; [apply processDicomPersonName_clean|].
    split; [congruence|]. split; [|split; [reflexivity|exact Hm]].
    cbn in Hdup. rewrite <- E1, <- E2, <- E3, <- E4. exact Hdup.
Qed.

Lemma map_key_replaced {A} (key : A -> string) (d doc : A) (l : list A) :
  key doc = key d ->
  map key (map (fun x => if String.eqb (key x) (key d) then doc else x) l) = map key l.
Proof.
  intros Hk. induction l as [|x l IH]; [reflexivity|].
  cbn [map]. rewrite IH. f_equal.
  destruct (String.eqb (key x) (key d)) eqn:E; [|reflexivity].
  apply String.eqb_eq in E. congruence.
Qed.

(** X3. A patient returned by the resolution is a document of the patient
    collection as the resolution leaves it; its raw name is free of the
    delimiter [^]; and when the tags carry a [PatientID], that is its
    medical record number. *)
Theorem resolved_patient_stored env (tags : Tags) s p s'
  (Hrun : findOrCreatePatientFromTags env tags s = (inr p, s')) :
  In p (patients s')
  /\ Js.includes "^" (Patient.patientNameRaw p) = false
  /\ (Js.truthy (tags !! "PatientID") = true -> Patient.mrn p = tags !! "PatientID").
Proof.
  destruct (findOrCreatePatientFromTags_returns _ _ _ _ _ Hrun) as [Hname Hcase].
  destruct (find (mrn_is (tags !! "PatientID")) (patients s)) as [q|] eqn:Hq.
  - destruct Hcase as (Hid & Hmrn & _ & _ & _ & _ & _ & _ & Hst).
    apply find_some in Hq. destruct Hq as [Hin Hq].
    unfold mrn_is in Hq. apply bool_decide_eq_true in Hq.
    split; [|split; [exact Hname|intros _; congruence]].
    destruct (Js.includes "^" (Patient.patientNameRaw q)).
    + rewrite Hst. apply (In_replaced _ q); [exact Hin|apply String.eqb_refl].
    + destruct Hst as [-> ->]. exact Hin.
  - destruct Hcase as (Hst & _ & _ & Hmrn).
    split; [|split; assumption].
    rewrite Hst. apply in_or_app. right. left. reflexivity.
Qed.

Lemma resolved_patient_stored_witness :
  exists p s',
    findOrCreatePatientFromTags Sample.env Sample.tags_doe Sample.with_raw_patient
    = (inr p, s')
    /\ In p (patients s')
    /\ Patient.patientNameRaw p = "John Doe"
    /\ Js.includes "^" (Patient.patientNameRaw p) = false
    /\ Patient.mrn p = Some "P1".
Proof.
  destruct (findOrCreatePatientFromTags Sample.env Sample.tags_doe Sample.with_raw_patient)
    as [r s'] eqn:Hrun.
  assert (Hr : exists p, r = inr p /\ Patient.patientNameRaw p = "John Doe").
  { vm_compute in Hrun. inversion Hrun. eexists. split; reflexivity. }
  destruct Hr as (p & -> & Hname).
  destruct (resolved_patient_stored _ _ _ _ _ Hrun) as (Hin & Hclean & Hmrn).
  exists p, s'. repeat split; try assumption.
  apply Hmrn. reflexivity.
Defined.

(** X4. A patient already stored under the [PatientID] of the tags is not
    stored a second time, whatever the outcome: the collection keeps its
    documents' identities and no identifier is generated; the patient
    returned keeps its identity, its record number, its patient number,
    its gender, its date of birth and its anonymity flag. *)
Theorem known_patient_not_duplicated env (tags : Tags) s q
  (Hq : find (mrn_is (tags !! "PatientID")) (patients s) = Some q) :
  map Patient._id (patients (snd (findOrCreatePatientFromTags env tags s)))
  = map Patient._id (patients s)
  /\ objectIds (snd (findOrCreatePatientFromTags env tags s)) = objectIds s
  /\ forall p, fst (findOrCreatePatientFromTags env tags s) = inr p ->
       Patient._id p = Patient._id q /\ Patient.mrn p = Patient.mrn q
       /\ Patient.patientID p = Patient.patientID q
       /\ Patient.gender p = Patient.gender q
       /\ Patient.dateOfBirth p = Patient.dateOfBirth q
       /\ Patient.isAnonymous p = Patient.isAnonymous q.
Proof.
  destruct (findOrCreatePatientFromTags env tags s) as [[e|p] s'] eqn:Hrun; cbn [fst snd].
  - split; [|split; [|discriminate]].
    + revert Hrun. unfold findOrCreatePatientFromTags. cbv zeta.
      rewrite sentinel_guard_false. unfold bind at 1. unfold Patient_findOne, gets.
      rewrite Hq, upgrade_guard.
      destruct (Js.includes "^" (Patient.patientNameRaw q)); [|discriminate].
      unfold bind, Patient_save, store_save.
      destruct (patientAccepted env (patients s) _); [|discriminate].
      intros H. inversion H. reflexivity.
    + revert Hrun. unfold findOrCreatePatientFromTags. cbv zeta.
      rewrite sentinel_guard_false. unfold bind at 1. unfold Patient_findOne, gets.
      rewrite Hq, upgrade_guard.
      destruct (Js.includes "^" (Patient.patientNameRaw q)); [|discriminate].
      unfold bind, Patient_save, store_save.
      destruct (patientAccepted env (patients s) _); [|discriminate].
      intros H. inversion H. reflexivity.
  - pose proof (findOrCreatePatientFromTags_returns _ _ _ _ _ Hrun) as [_ Hcase].
    rewrite Hq in Hcase.
    destruct Hcase as (Hid & Hmrn & Hpid & Hg & Hd & Ha & Ho & _ & Hst).
    split; [|split; [exact Ho|]].
    + destruct (Js.includes "^" (Patient.patientNameRaw q)).
      * rewrite Hst. apply map_key_replaced, Hid.
      * destruct Hst as [_ ->]. reflexivity.
    + intros p' Hp'. inversion Hp'; subst p'. repeat split; assumption.
Qed.

Lemma known_patient_not_duplicated_witness :
  map Patient._id
    (patients (snd (findOrCreatePatientFromTags Sample.env Sample.tags_doe
                      Sample.with_raw_patient)))
  = ["65a0000000000000000000aa"; "65a0000000000000000000cc"]
  /\ forall p,
       fst (findOrCreatePatientFromTags Sample.env Sample.tags_doe Sample.with_raw_patient)
       = inr p ->
       Patient.patientID p = "65A00001".
Proof.
  destruct (known_patient_not_duplicated Sample.env Sample.tags_doe Sample.with_raw_patient
              Sample.patient_raw) as (Hids & _ & Hp).
  - vm_compute; reflexivity.
  - split; [exact Hids|]. intros p H. apply (Hp p H).
Defined.

(** X5. Once a patient has been resolved for a [PatientID], every later
    resolution for that [PatientID] (whatever the other tags and the
    collaborators) returns this very patient and changes nothing. *)
Theorem patient_resolution_settles env env' (tags tags' : Tags) s p s'
  (Hid : Js.truthy (tags !! "PatientID") = true)
  (Hrun : findOrCreatePatientFromTags env tags s = (inr p, s'))
  (Hsame : tags' !! "PatientID" = tags !! "PatientID") :
  findOrCreatePatientFromTags env' tags' s' = (inr p, s').
Proof.
  destruct (findOrCreatePatientFromTags_returns _ _ _ _ _ Hrun) as [Hname Hcase].
  assert (Hfind : find (mrn_is (tags !! "PatientID")) (patients s') = Some p).
  { destruct (find (mrn_is (tags !! "PatientID")) (patients s)) as [q|] eqn:Hq.
    - destruct Hcase as (Hi & Hmrn & _ & _ & _ & _ & _ & _ & Hst).
      destruct (Js.includes "^" (Patient.patientNameRaw q)).
      + rewrite Hst. apply (find_replaced _ _ q); [exact Hq|apply String.eqb_refl|].
        apply find_some in Hq. destruct Hq as [_ Hq].
        unfold mrn_is in *. apply bool_decide_eq_true in Hq.
        apply bool_decide_eq_true. congruence.
      + destruct Hst as [-> ->]. exact Hq.
    - destruct Hcase as (Hst & _ & _ & Hmrn).
      rewrite Hst. apply find_app_last; [exact Hq|].
      unfold mrn_is. apply bool_decide_eq_true. auto. }
  unfold findOrCreatePatientFromTags. cbv zeta. rewrite sentinel_guard_false.
  unfold bind, Patient_findOne, gets. rewrite Hsame, Hfind, upgrade_guard, Hname.
  reflexivity.
Qed.

Lemma patient_resolution_settles_witness :
  exists p s',
    findOrCreatePatientFromTags Sample.env Sample.tags_doe Sample.empty = (inr p, s')
    /\ findOrCreatePatientFromTags Sample.env_anonymous
         {[ "PatientID" := "P1"; "PatientName" := "Roe^Jane" ]} s' = (inr p, s').
Proof.
  destruct (findOrCreatePatientFromTags Sample.env Sample.tags_doe Sample.empty)
    as [r s'] eqn:Hrun.
  assert (Hr : exists p, r = inr p).
  { vm_compute in Hrun. inversion Hrun. eexists. reflexivity. }
  destruct Hr as (p & ->). exists p, s'. split; [reflexivity|].
  apply (patient_resolution_settles Sample.env Sample.env_anonymous Sample.tags_doe _
           Sample.empty p s'); [reflexivity|exact Hrun|reflexivity].
Defined.

(* ===================================================================== *)
(** ** More on lab resolution *)
(* ===================================================================== *)

Lemma Lab_save_new env l s r s' :
  Lab_save env true l s = (r, s') ->
  match r with
  | inr _ => labs s' = (labs s ++ [l])%list
             /\ existsb (fun x => String.eqb (Lab._id x) (Lab._id l)) (labs s) = false
  | inl _ => s' = s
  end.
Proof.
  unfold Lab_save, store_save.
  destruct (labAccepted env (labs s) l); [intros H; inversion H; reflexivity|].
  destruct (existsb _ (labs s)); intros H; inversion H; auto.
Qed.

Lemma labFromCustomId_run env c s :
  exists o, labFromCustomId env c s = (inr o, s)
            /\ match o with
               | Some l => In l (labs s) /\ Lab.isActive l = true
               | None => True
               end.
Proof.
  unfold labFromCustomId. cbv zeta.
  destruct (_ && _ && _)%bool; [|exists None; split; [reflexivity|exact I]].
  unfold try_catch, Lab_findOne, gets, bind, ret.
  destruct (castObjectId env (Js.or_else c "")) as [oid|].
  - destruct (find _ (labs s)) as [l|] eqn:Hf; [|exists None; auto].
    destruct (Lab.isActive l) eqn:Ha; [|exists None; auto].
    exists (Some l). split; [reflexivity|]. apply find_some in Hf. tauto.
  - destruct (find _ (labs s)) as [l|] eqn:Hf; [|exists None; auto].
    exists (Some l). split; [reflexivity|]. apply find_some in Hf.
    destruct Hf as [Hin Hf]. apply andb_true_iff in Hf. tauto.
Qed.

Lemma labFromSources_outcome env tags c sources s r s' :
  labFromSources env tags c sources s = (r, s') ->
  match r with
  | inr (Some l) => Lab.isActive l = true /\ lab_found_or_added l s s'
  | inr None => s' = s
  | inl _ => labs s' = labs s
  end.
Proof.
  induction sources as [|source rest IH]; cbn [labFromSources]; cbv zeta.
  - intros H. inversion H. reflexivity.
  - destruct (_ && _)%bool; [|exact IH].
    unfold bind at 1. unfold Lab_findOne, gets.
    destruct (find _ (labs s)) as [l|] eqn:Hf.
    + intros H. inversion H; subst. apply find_some in Hf. destruct Hf as [Hin Hf].
      apply andb_true_iff in Hf. split; [tauto|]. left. auto.
    + unfold bind at 1. unfold dateNow at 1. unfold bind at 1. unfold generateObjectId at 1.
      unfold bind. cbn [fst snd].
      match goal with |- context [Lab_save env true ?d ?st] =>
        pose proof (Lab_save_new env d st) as Hsave;
        destruct (Lab_save env true d st) as [[e|u] s2] end.
      * specialize (Hsave _ _ eq_refl). intros H. inversion H; subst.
        rewrite Hsave. reflexivity.
      * specialize (Hsave _ _ eq_refl). destruct Hsave as [Hl Hd].
        intros H. inversion H; subst. cbn [Lab.isActive].
        split; [reflexivity|]. right. cbn in *. auto.
Qed.

Lemma defaultLab_outcome env c s r s' :
  defaultLab env c s = (r, s') ->
  match r with
  | inr l => Lab.identifier l = DEFAULT_LAB_identifier /\ lab_found_or_added l s s'
  | inl _ => labs s' = labs s
  end.
Proof.
  unfold defaultLab. unfold bind at 1. unfold Lab_findOne, gets.
  destruct (find _ (labs s)) as [l|] eqn:Hf.
  - intros H. inversion H; subst. apply find_some in Hf. destruct Hf as [Hin Hf].
    apply String.eqb_eq in Hf. split; [exact Hf|]. left. auto.
  - unfold bind at 1. unfold generateObjectId at 1. unfold bind.
    match goal with |- context [Lab_save env true ?d ?st] =>
      pose proof (Lab_save_new env d st) as Hsave;
      destruct (Lab_save env true d st) as [[e|u] s2] end.
    + specialize (Hsave _ _ eq_refl). intros H. inversion H; subst.
      rewrite Hsave. reflexivity.
    + specialize (Hsave _ _ eq_refl). destruct Hsave as [Hl Hd].
      intros H. inversion H; subst. split; [reflexivity|]. right. cbn in *. auto.
Qed.

Lemma emergencyLab_outcome env tags e0 s r s' :
  emergencyLab env tags e0 s = (r, s') ->
  match r with
  | inr l => Lab.isActive l = true /\ lab_found_or_added l s s'
  | inl _ => labs s' = labs s /\ find Lab.isActive (labs s) = None
  end.
Proof.
  unfold emergencyLab. unfold bind at 1. unfold Lab_findOne, gets.
  destruct (find _ (labs s)) as [l|] eqn:Hf.
  - intros H. inversion H; subst. apply find_some in Hf. destruct Hf as [Hin Hf].
    split; [exact Hf|]. left. auto.
  - unfold bind at 1. unfold generateObjectId at 1. unfold bind.
    match goal with |- context [Lab_save env true ?d ?st] =>
      pose proof (Lab_save_new env d st) as Hsave;
      destruct (Lab_save env true d st) as [[e|u] s2] end.
    + specialize (Hsave _ _ eq_refl). intros H. inversion H; subst.
      rewrite Hsave. auto.
    + specialize (Hsave _ _ eq_refl). destruct Hsave as [Hl Hd].
      intros H. inversion H; subst. split; [reflexivity|]. right. cbn in *. auto.
Qed.

(** Every outcome of the resolution: a returned lab is active or is the
    default lab, and was stored or has been added at the end; the
    resolution throws only when the collection holds no active lab, and
    leaves the collection as it was. *)
Lemma findOrCreateSourceLab_outcome env tags s r s' :
  findOrCreateSourceLab env tags s = (r, s') ->
  match r with
  | inr l =>
      (Lab.isActive l = true \/ Lab.identifier l = DEFAULT_LAB_identifier)
      /\ ((labs s' = labs s /\ In l (labs s))
          \/ (labs s' = (labs s ++ [l])%list
              /\ existsb (fun x => String.eqb (Lab._id x) (Lab._id l)) (labs s) = false
              /\ Lab.isActive l = true))
  | inl _ => labs s' = labs s /\ find Lab.isActive (labs s) = None
  end.
Proof.
  assert (Hemergency : forall e s1 r s',
            labs s1 = labs s ->
            emergencyLab env tags e s1 = (r, s') ->
            match r with
            | inr l =>
                (Lab.isActive l = true \/ Lab.identifier l = DEFAULT_LAB_identifier)
                /\ ((labs s' = labs s /\ In l (labs s))
                    \/ (labs s' = (labs s ++ [l])%list
                        /\ existsb (fun x => String.eqb (Lab._id x) (Lab._id l)) (labs s)
                           = false
                        /\ Lab.isActive l = true))
            | inl _ => labs s' = labs s /\ find Lab.isActive (labs s) = None
            end).
  { intros e s1 r0 s0 Hl H. apply emergencyLab_outcome in H.
    destruct r0 as [e'|l].
    - rewrite <- Hl. exact H.
    - destruct H as [Ha [[-> Hin]|(Hadd & Hd & _)]].
      + split; [auto|]. left. rewrite <- Hl. auto.
      + split; [auto|]. right. rewrite <- Hl. auto. }
  unfold findOrCreateSourceLab, try_catch. cbv zeta. unfold bind at 1.
  destruct (labFromCustomId_run env (tags !! "0011,1010") s) as (o & Ho & Hprop).
  rewrite Ho. destruct o as [l|].
  - intros H. inversion H; subst. destruct Hprop as [Hin Ha]. auto.
  - unfold labFallback. unfold bind at 1.
    destruct (labFromSources env tags (tags !! "0011,1010") (possibleLabSources tags) s)
      as [[e|[l|]] s1] eqn:Hsrc; apply labFromSources_outcome in Hsrc.
    + apply Hemergency, Hsrc.
    + intros H. inversion H; subst.
      destruct Hsrc as [Ha [[-> Hin]|(Hadd & Hd & _)]]; auto.
    + subst s1.
      destruct (defaultLab env (tags !! "0011,1010") s) as [[e|l] s2] eqn:Hdef;
        apply defaultLab_outcome in Hdef.
      * apply Hemergency, Hdef.
      * intros H. inversion H; subst.
        destruct Hdef as [Hi [[-> Hin]|(Hadd & Hd & Ha)]]; auto.
Qed.

(** X6. A lab returned by the resolution is a document of the lab
    collection as the resolution leaves it, and is active or is the
    default lab; the collection is unchanged or has this one lab more, at
    its end. *)
Theorem resolved_lab_stored env (tags : Tags) s l s'
  (Hrun : findOrCreateSourceLab env tags s = (inr l, s')) :
  In l (labs s')
  /\ (Lab.isActive l = true \/ Lab.identifier l = DEFAULT_LAB_identifier)
  /\ (labs s' = labs s \/ labs s' = (labs s ++ [l])%list).
Proof.
  apply findOrCreateSourceLab_outcome in Hrun.
  destruct Hrun as [Ha [[Hl Hin]|(Hl & _ & _)]].
  - rewrite Hl. auto.
  - rewrite Hl. split; [|auto]. apply in_or_app. right. left. reflexivity.
Qed.

Lemma resolved_lab_stored_witness :
  exists l s',
    findOrCreateSourceLab Sample.env Sample.tags_closed_lab Sample.with_closed_lab
    = (inr l, s')
    /\ In l (labs s')
    /\ Lab.name l = "Acme Lab"
    /\ (labs s' = labs Sample.with_closed_lab
        \/ labs s' = (labs Sample.with_closed_lab ++ [l])%list).
Proof.
  destruct (findOrCreateSourceLab Sample.env Sample.tags_closed_lab Sample.with_closed_lab)
    as [r s'] eqn:Hrun.
  assert (Hr : exists l, r = inr l /\ Lab.name l = "Acme Lab").
  { vm_compute in Hrun. inversion Hrun. eexists. split; reflexivity. }
  destruct Hr as (l & -> & Hname).
  destruct (resolved_lab_stored _ _ _ _ _ Hrun) as (Hin & _ & Hl).
  exists l, s'. auto.
Defined.

(** X7. When the lab collection holds an active lab, the resolution
    returns a lab, whatever the tags, the archive and the store's
    validation say: every error on the way ends in the emergency lookup,
    which finds an active lab. *)
Theorem lab_resolution_returns env (tags : Tags) s l0
  (Hin : In l0 (labs s)) (Hactive : Lab.isActive l0 = true) :
  exists l s', findOrCreateSourceLab env tags s = (inr l, s').
Proof.
  destruct (findOrCreateSourceLab env tags s) as [[e|l] s'] eqn:Hrun; [|eauto].
  apply findOrCreateSourceLab_outcome in Hrun. destruct Hrun as [_ Hnone].
  pose proof (find_none _ _ Hnone _ Hin) as H. congruence.
Qed.

Lemma lab_resolution_returns_witness :
  exists l s',
    findOrCreateSourceLab Sample.env_refusing Sample.tags_closed_lab Sample.with_open_lab
    = (inr l, s').
Proof.
  apply (lab_resolution_returns Sample.env_refusing Sample.tags_closed_lab
           Sample.with_open_lab Sample.open_lab).
  - right. left. reflexivity.
  - reflexivity.
Defined.

Lemma find_app_single {A} (f : A -> bool) (l : list A) (d : A) :
  find f (l ++ [d])%list
  = match find f l with
    | Some x => Some x
    | None => if f d then Some d else None
    end.
Proof.
  induction l as [|x l IH]; cbn; [reflexivity|].
  destruct (f x); [reflexivity|exact IH].
Qed.

(** The direct reference on a collection that has one active lab more:
    it still gives nothing, or it gives the new lab. *)
Lemma labFromCustomId_added env c s s' l :
  labs s' = (labs s ++ [l])%list -> Lab.isActive l = true ->
  labFromCustomId env c s = (inr None, s) ->
  labFromCustomId env c s' = (inr None, s')
  \/ labFromCustomId env c s' = (inr (Some l), s').
Proof.
  intros Hl Ha. unfold labFromCustomId. cbv zeta.
  destruct (_ && _ && _)%bool; [|auto].
  unfold try_catch, Lab_findOne, gets, bind, ret. cbv beta.
  destruct (castObjectId env (Js.or_else c "")) as [oid|]; rewrite Hl, find_app_single.
  - destruct (find _ (labs s)) as [x|].
    + destruct (Lab.isActive x); [discriminate|auto].
    + intros _. destruct (String.eqb (Lab._id l) oid); [|auto].
      rewrite Ha. auto.
  - destruct (find _ (labs s)) as [x|]; [discriminate|].
    intros _. destruct (_ && _)%bool; auto.
Qed.

Lemma name_matches_own (l : Lab.t) : name_matches (Lab.name l) l = true.
Proof. unfold name_matches. apply String.eqb_refl. Qed.

Lemma labFromSources_settles env tags c sources s l s' :
  labFromSources env tags c sources s = (inr (Some l), s') ->
  labFromSources env tags c sources s' = (inr (Some l), s').
Proof.
  induction sources as [|source rest IH]; cbn [labFromSources]; cbv zeta.
  - discriminate.
  - destruct (_ && _)%bool; [|exact IH].
    intros H. unfold bind at 1 in H. unfold Lab_findOne, gets in H. cbv beta in H.
    unfold bind at 1. unfold Lab_findOne, gets. cbv beta.
    destruct (find _ (labs s)) as [x|] eqn:Hf.
    + inversion H; subst. rewrite Hf. reflexivity.
    + unfold bind at 1 in H. unfold dateNow at 1 in H. unfold bind at 1 in H.
      unfold generateObjectId at 1 in H. unfold bind at 1 in H. cbn [fst snd] in H.
      match type of H with context [Lab_save env true ?d ?st] =>
        pose proof (Lab_save_new env d st) as Hsave;
        destruct (Lab_save env true d st) as [[e|u] s2] end; [discriminate|].
      specialize (Hsave _ _ eq_refl). destruct Hsave as [Hl _].
      unfold ret in H. inversion H as [[Hd Hs]]. subst s2.
      cbn [labs set_objectIds set_clockReads] in Hl. rewrite Hl.
      rewrite find_app_single, Hf.
      match goal with |- context [if ?b then _ else _] =>
        assert (Hb : b = true) end.
      { unfold name_matches. cbn [Lab.identifier Lab.isActive Lab.name].
        rewrite String.eqb_refl. reflexivity. }
      rewrite Hb. reflexivity.
Qed.

Lemma labFromSources_none env tags c sources s s1 :
  labFromSources env tags c sources s = (inr None, s1) ->
  forall s2, labFromSources env tags c sources s2 = (inr None, s2).
Proof.
  induction sources as [|source rest IH]; cbn [labFromSources]; cbv zeta.
  - reflexivity.
  - destruct (_ && _)%bool; [|exact IH].
    unfold bind at 1. unfold Lab_findOne, gets.
    destruct (find _ (labs s)) as [x|]; [discriminate|].
    unfold bind at 1. unfold dateNow at 1. unfold bind at 1. unfold generateObjectId at 1.
    unfold bind at 1. cbn [fst snd].
    match goal with |- context [Lab_save env true ?d ?st] =>
      destruct (Lab_save env true d st) as [[e|u] s2] end; discriminate.
Qed.

Lemma defaultLab_settles env c s l s' :
  defaultLab env c s = (inr l, s') -> defaultLab env c s' = (inr l, s').
Proof.
  unfold defaultLab. intros H.
  unfold bind at 1 in H. unfold Lab_findOne, gets in H. cbv beta in H.
  unfold bind at 1. unfold Lab_findOne, gets. cbv beta.
  destruct (find _ (labs s)) as [x|] eqn:Hf.
  - inversion H; subst. rewrite Hf. reflexivity.
  - unfold bind at 1 in H. unfold generateObjectId at 1 in H. unfold bind at 1 in H.
    match type of H with context [Lab_save env true ?d ?st] =>
      pose proof (Lab_save_new env d st) as Hsave;
      destruct (Lab_save env true d st) as [[e|u] s2] end; [discriminate|].
    specialize (Hsave _ _ eq_refl). destruct Hsave as [Hl _].
    unfold ret in H. inversion H as [[Hd Hs]]. subst s2.
    cbn [labs set_objectIds] in Hl. rewrite Hl, find_app_single, Hf.
    cbn [Lab.identifier]. rewrite String.eqb_refl. reflexivity.
Qed.

Lemma Lab_save_accepted env l s :
  (forall ls d, labAccepted env ls d = None) ->
  existsb (fun x => String.eqb (Lab._id x) (Lab._id l)) (labs s) = false ->
  Lab_save env true l s = (inr tt, set_labs (labs s ++ [l])%list s).
Proof.
  intros Haccept Hfresh. unfold Lab_save, store_save.
  rewrite Haccept, Hfresh. reflexivity.
Qed.

Lemma labFromSources_accepting env tags c sources s e s' :
  (forall ls d, labAccepted env ls d = None) ->
  existsb (fun x => String.eqb (Lab._id x) (newObjectId env (objectIds s))) (labs s) = false ->
  labFromSources env tags c sources s = (inl e, s') -> False.
Proof.
  intros Haccept Hfresh.
  induction sources as [|source rest IH]; cbn [labFromSources]; cbv zeta.
  - discriminate.
  - destruct (_ && _)%bool; [|exact IH].
    unfold bind at 1. unfold Lab_findOne, gets. cbv beta.
    destruct (find _ (labs s)) as [x|]; [discriminate|].
    unfold bind at 1. unfold dateNow at 1. unfold bind at 1. unfold generateObjectId at 1.
    unfold bind at 1. cbn [fst snd].
    rewrite Lab_save_accepted; [discriminate|exact Haccept|exact Hfresh].
Qed.

Lemma defaultLab_accepting env c s e s' :
  (forall ls d, labAccepted env ls d = None) ->
  existsb (fun x => String.eqb (Lab._id x) (newObjectId env (objectIds s))) (labs s) = false ->
  defaultLab env c s = (inl e, s') -> False.
Proof.
  intros Haccept Hfresh. unfold defaultLab.
  unfold bind at 1. unfold Lab_findOne, gets. cbv beta.
  destruct (find _ (labs s)) as [x|]; [discriminate|].
  unfold bind at 1. unfold generateObjectId at 1. unfold bind at 1.
  rewrite Lab_save_accepted; [discriminate|exact Haccept|exact Hfresh].
Qed.

(** X8. On a store that accepts lab documents and for which the next
    generated identifier is not yet the identifier of a lab, a second
    resolution for the same tags returns the lab of the first and changes
    nothing: no lab is created twice for the same source. *)
Theorem lab_resolution_settles env (tags : Tags) s l s'
  (Haccept : forall ls d, labAccepted env ls d = None)
  (Hfresh : existsb (fun x => String.eqb (Lab._id x) (newObjectId env (objectIds s)))
              (labs s) = false)
  (Hrun : findOrCreateSourceLab env tags s = (inr l, s')) :
  findOrCreateSourceLab env tags s' = (inr l, s').
Proof.
  unfold findOrCreateSourceLab, try_catch in *. cbv zeta in *.
  unfold bind at 1 in Hrun. unfold bind at 1.
  destruct (labFromCustomId_run env (tags !! "0011,1010") s) as (o & Ho & Hprop).
  rewrite Ho in Hrun. destruct o as [l0|].
  - inversion Hrun; subst. rewrite Ho. reflexivity.
  - unfold labFallback in *. unfold bind at 1 in Hrun.
    destruct (labFromSources env tags (tags !! "0011,1010") (possibleLabSources tags) s)
      as [[e|[l1|]] s1] eqn:Hsrc.
    + exfalso. eapply labFromSources_accepting; eauto.
    + inversion Hrun; subst l1 s1. clear Hrun.
      pose proof (labFromSources_settles _ _ _ _ _ _ _ Hsrc) as Hagain.
      apply labFromSources_outcome in Hsrc.
      destruct Hsrc as [Ha [[-> Hin]|(Hadd & _ & _)]].
      * rewrite Ho. unfold bind at 1. rewrite Hagain. reflexivity.
      * destruct (labFromCustomId_added env (tags !! "0011,1010") s s' l Hadd Ha Ho)
          as [Hc|Hc]; rewrite Hc; [|reflexivity].
        unfold bind at 1. rewrite Hagain. reflexivity.
    + pose proof (labFromSources_none _ _ _ _ _ _ Hsrc) as Hnone.
      apply labFromSources_outcome in Hsrc. subst s1.
      destruct (defaultLab env (tags !! "0011,1010") s) as [[e|l1] s2] eqn:Hdef.
      * exfalso. eapply defaultLab_accepting; eauto.
      * inversion Hrun; subst l1 s2. clear Hrun.
        pose proof (defaultLab_settles _ _ _ _ _ Hdef) as Hagain.
        apply defaultLab_outcome in Hdef.
        destruct Hdef as [Hi [[-> Hin]|(Hadd & _ & Ha)]].
        -- rewrite Ho. unfold bind at 1. rewrite Hnone, Hagain. reflexivity.
        -- destruct (labFromCustomId_added env (tags !! "0011,1010") s s' l Hadd Ha Ho)
             as [Hc|Hc]; rewrite Hc; [|reflexivity].
           unfold bind at 1. rewrite Hnone, Hagain. reflexivity.
Qed.

Lemma lab_resolution_settles_witness :
  exists l s',
    findOrCreateSourceLab Sample.env Sample.tags_closed_lab Sample.with_closed_lab
    = (inr l, s')
    /\ findOrCreateSourceLab Sample.env Sample.tags_closed_lab s' = (inr l, s').
Proof.
  destruct (findOrCreateSourceLab Sample.env Sample.tags_closed_lab Sample.with_closed_lab)
    as [r s'] eqn:Hrun.
  assert (Hr : exists l, r = inr l).
  { vm_compute in Hrun. inversion Hrun. eexists. reflexivity. }
  destruct Hr as (l & ->). exists l, s'. split; [reflexivity|].
  apply (lab_resolution_settles Sample.env Sample.tags_closed_lab Sample.with_closed_lab l s').
  - intros ls d. reflexivity.
  - vm_compute. reflexivity.
  - exact Hrun.
Defined.

(* ===================================================================== *)
(** ** Computations that never throw *)
(* ===================================================================== *)

Lemma bind_inl {A B} (m : M A) (k : A -> M B) s e s' :
  bind m k s = (inl e, s') ->
  m s = (inl e, s') \/ exists a s1, m s = (inr a, s1) /\ k a s1 = (inl e, s').
Proof.
  unfold bind. destruct (m s) as [[e0|a] s1]; intros H; [left; inversion H; reflexivity|right].
  exists a, s1. auto.
Qed.

Lemma returns_run {A} (m : M A) s e s' : returns m -> m s = (inl e, s') -> False.
Proof. intros Hm H. destruct (Hm s) as [a Ha]. rewrite H in Ha. discriminate. Qed.

Lemma returns_ret {A} (a : A) : returns (ret a).
Proof. intros s. exists a. reflexivity. Qed.

Lemma returns_gets {A} (f : St -> A) : returns (gets f).
Proof. intros s. eexists. reflexivity. Qed.

Lemma returns_modify f : returns (modify f).
Proof. intros s. eexists. reflexivity. Qed.

Lemma returns_bind {A B} (m : M A) (k : A -> M B) :
  returns m -> (forall a, returns (k a)) -> returns (bind m k).
Proof.
  intros Hm Hk s. unfold bind. destruct (Hm s) as [a Ha].
  destruct (m s) as [[e|a'] s1]; [discriminate|]. apply Hk.
Qed.

(** A [try] whose handler never throws never throws. *)
Lemma returns_try_catch {A} (m : M A) (h : Err -> M A) :
  (forall e, returns (h e)) -> returns (try_catch m h).
Proof.
  intros Hh s. unfold try_catch. destruct (m s) as [[e|a] s1]; [apply Hh|].
  exists a. reflexivity.
Qed.

Lemma returns_dateNow env : returns (dateNow env).
Proof. intros s. eexists. reflexivity. Qed.

Lemma returns_generateObjectId env : returns (generateObjectId env).
Proof. intros s. eexists. reflexivity. Qed.

Lemma returns_jobProgress p : returns (jobProgress p).
Proof. apply returns_modify. Qed.

Lemma returns_redis_setex k t v : returns (redis_setex k t v).
Proof. apply returns_modify. Qed.

Create HintDb returns.
#[local] Hint Resolve returns_ret returns_gets returns_modify returns_dateNow
  returns_generateObjectId returns_jobProgress returns_redis_setex : returns.

(** One step of a proof that a computation never throws. *)
Ltac returns_step :=
  first
    [ solve [auto with returns]
    | progress cbv zeta
    | apply returns_try_catch; intros ?
    | apply returns_bind; [|intros ?]
    | match goal with
      | |- returns (if ?b then _ else _) => destruct b
      | |- returns (match ?x with _ => _ end) => destruct x
      end ].
Ltac never_throws := cbv zeta; repeat returns_step.

Lemma returns_formatDicomDateToISO env d : returns (formatDicomDateToISO env d).
Proof. unfold formatDicomDateToISO. never_throws. Qed.

Lemma returns_method1 env id : returns (method1 env id).
Proof. unfold method1. never_throws. Qed.

Lemma returns_method2 env series d : returns (method2 env series d).
Proof.
  revert d. induction series as [|x r IH]; intros d; cbn [method2]; never_throws;
    try apply IH.
Qed.

Lemma returns_method3 env series d : returns (method3 env series d).
Proof.
  revert d. induction series as [|x r IH]; intros d; cbn [method3]; never_throws;
    try apply IH.
Qed.

#[local] Hint Resolve returns_formatDicomDateToISO returns_method1 returns_method2
  returns_method3 : returns.

Lemma returns_discoverInstances env id studyInfo :
  returns (discoverInstances env id studyInfo).
Proof. unfold discoverInstances. never_throws. Qed.

Lemma returns_collectTags env studyInfo uid d : returns (collectTags env studyInfo uid d).
Proof. unfold collectTags. never_throws. Qed.

Lemma returns_seriesModalities env series acc : returns (seriesModalities env series acc).
Proof.
  revert acc. induction series as [|x r IH]; intros acc; cbn [seriesModalities];
    never_throws; try apply IH.
Qed.
#[local] Hint Resolve returns_seriesModalities : returns.

Lemma returns_collectModalities env studyInfo tags :
  returns (collectModalities env studyInfo tags).
Proof. unfold collectModalities. never_throws. Qed.

#[local] Hint Resolve returns_discoverInstances returns_collectTags
  returns_collectModalities : returns.

(* ===================================================================== *)
(** ** Outcomes of a pipeline run *)
(* ===================================================================== *)

Ltac keeps_side := cbn; intros; congruence.

(** Closes [keeps (fun a b => f b = f a) m] for a step [m] of the
    pipeline that does not write the field [f]. *)
Ltac keeps_field :=
  unfold DicomStudy_findOne;
  first
    [ solve [apply preserves_jobProgress; keeps_side]
    | solve [apply preserves_dateNow; keeps_side]
    | solve [apply preserves_axios_get; keeps_side]
    | solve [apply preserves_redis_setex; keeps_side]
    | solve [apply preserves_generateObjectId; keeps_side]
    | solve [apply preserves_gets; keeps_side]
    | solve [apply preserves_discoverInstances; keeps_side]
    | solve [apply preserves_collectTags; keeps_side]
    | solve [apply preserves_findOrCreatePatientFromTags; keeps_side]
    | solve [apply preserves_findOrCreateSourceLab; keeps_side]
    | solve [apply preserves_collectModalities; keeps_side]
    | solve [apply preserves_formatDicomDateToISO; keeps_side]
    | solve [apply preserves_extractStudyData; keeps_side]
    | solve [apply preserves_notify; keeps_side] ].

(** From a step [Hrun : m s = (r, s')] that does not write the field
    [f]: [f s' = f s]. *)
Ltac field_of f Hrun :=
  match type of Hrun with
  | ?m ?s = (?r, ?s') =>
      let E := fresh "E" in
      assert (E : f s' = f s)
        by (apply (preserves_run (fun a b => f b = f a) m s r s');
            [keeps_field|exact Hrun])
  end.

Lemma jobProgress_run p s r s' : jobProgress p s = (r, s') -> progress s' = p.
Proof. unfold jobProgress, modify. intros H. inversion H. reflexivity. Qed.

(** The upsert writes the study collection only, and only when it
    returns. *)
Lemma upsertStudy_frame env sd lab (tags : Tags) found s r s' :
  upsertStudy env sd lab tags found s = (r, s') ->
  redis s' = redis s /\ progress s' = progress s
  /\ notifications s' = notifications s
  /\ patients s' = patients s /\ labs s' = labs s
  /\ (forall e, r = inl e -> studies s' = studies s).
Proof.
  unfold upsertStudy, bind, dateNow, generateObjectId, DicomStudy_save, store_save, ret.
  cbv zeta. destruct found as [d|].
  - destruct (studyAccepted env _ _); intros H; inversion H; cbn;
      repeat split; try reflexivity; discriminate.
  - destruct (studyAccepted env _ _); [|destruct (existsb _ _)];
      intros H; inversion H; cbn; repeat split; try reflexivity; discriminate.
Qed.

(** Where the extraction stands when it ends: at 80 percent when it
    returns, at 10 or 60 percent when it throws. *)
Lemma extractStudyData_progress env job s r s' :
  extractStudyData env job s = (r, s') ->
  match r with
  | inr _ => progress s' = 80
  | inl _ => progress s' = 10 \/ progress s' = 60
  end.
Proof.
  intros H. destruct r as [e|x].
  - unfold extractStudyData in H. cbv zeta in H.
    apply bind_inl in H. destruct H as [H|(u0 & s2 & H0 & H)];
      [exfalso; eapply returns_run; [|exact H]; auto with returns|].
    apply jobProgress_run in H0.
    apply bind_inl in H. destruct H as [H|(studyInfo & s3 & H1 & H)].
    { field_of progress H. left. congruence. }
    field_of progress H1.
    destruct (negb _) in H.
    { unfold throw in H. inversion H; subst. left. congruence. }
    apply bind_inl in H. destruct H as [H|(u1 & s4 & H2 & H)];
      [exfalso; eapply returns_run; [|exact H]; auto with returns|].
    apply bind_inl in H. destruct H as [H|(d & s5 & H3 & H)];
      [exfalso; eapply returns_run; [|exact H]; auto with returns|].
    apply bind_inl in H. destruct H as [H|(u2 & s6 & H4 & H)];
      [exfalso; eapply returns_run; [|exact H]; auto with returns|].
    apply bind_inl in H. destruct H as [H|(tags & s7 & H5 & H)];
      [exfalso; eapply returns_run; [|exact H]; auto with returns|].
    apply bind_inl in H. destruct H as [H|(u3 & s8 & H6 & H)];
      [exfalso; eapply returns_run; [|exact H]; auto with returns|].
    apply jobProgress_run in H6.
    apply bind_inl in H. destruct H as [H|(patientRecord & s9 & H7 & H)].
    { field_of progress H. right. congruence. }
    field_of progress H7.
    apply bind_inl in H. destruct H as [H|(labRecord & s10 & H8 & H)].
    { field_of progress H. right. congruence. }
    exfalso. eapply returns_run; [|exact H].
    unfold DicomStudy_findOne. never_throws.
  - unfold extractStudyData in H. cbv zeta in H.
    apply bind_inr in H. destruct H as (u0 & s2 & H0 & H).
    apply bind_inr in H. destruct H as (studyInfo & s3 & H1 & H).
    destruct (negb _) in H; [apply throw_inr in H; contradiction|].
    apply bind_inr in H. destruct H as (u1 & s4 & H2 & H).
    apply bind_inr in H. destruct H as (d & s5 & H3 & H).
    apply bind_inr in H. destruct H as (u2 & s6 & H4 & H).
    apply bind_inr in H. destruct H as (tags & s7 & H5 & H).
    apply bind_inr in H. destruct H as (u3 & s8 & H6 & H).
    apply bind_inr in H. destruct H as (patientRecord & s9 & H7 & H).
    apply bind_inr in H. destruct H as (labRecord & s10 & H8 & H).
    apply bind_inr in H. destruct H as (u4 & s11 & H9 & H).
    apply bind_inr in H. destruct H as (modalities & s12 & H10 & H).
    apply bind_inr in H. destruct H as (u5 & s13 & H11 & H).
    apply bind_inr in H. destruct H as (found & s14 & H12 & H).
    apply bind_inr in H. destruct H as (studyDate & s15 & H13 & H).
    apply bind_inr in H. destruct H as (receivedAt & s16 & H14 & H).
    apply ret_inr in H. destruct H as [_ Hs]. subst s16.
    apply jobProgress_run in H11.
    field_of progress H12. field_of progress H13. field_of progress H14.
    congruence.
Qed.

(** A [try] block that throws has written no study, no cache entry and
    sent no notification; it stands at 10, 60 or 80 percent. *)
Lemma processStableStudy_try_throws env job t s e s1 :
  processStableStudy_try env job t s = (inl e, s1) ->
  studies s1 = studies s /\ redis s1 = redis s
  /\ notifications s1 = notifications s
  /\ (progress s1 = 10 \/ progress s1 = 60 \/ progress s1 = 80).
Proof.
  unfold processStableStudy_try. cbv zeta. intros H.
  apply bind_inl in H. destruct H as [H|(x & s2 & Hx & H)].
  - field_of studies H. field_of redis H. field_of notifications H.
    apply extractStudyData_progress in H. tauto.
  - field_of studies Hx. field_of redis Hx. field_of notifications Hx.
    apply extractStudyData_progress in Hx.
    apply bind_inl in H. destruct H as [H|(doc & s3 & Hup & H)].
    + apply upsertStudy_frame in H.
      destruct H as (Hr & Hp & Hn & _ & _ & Hst).
      specialize (Hst e eq_refl).
      repeat split; try congruence. right. right. congruence.
    + exfalso. eapply returns_run; [|exact H]. never_throws.
Qed.

(** What a run that throws has done: the [try] block threw and the
    [catch] block has cached the failure. *)
Lemma processStableStudy_throws env job s e s' :
  processStableStudy env job s = (inl e, s') ->
  exists s1 f,
    processStableStudy_try env job (fst (clock env (clockReads s), tt))
      (snd (dateNow env s)) = (inl e, s1)
    /\ redis s' = <[resultKey (requestId job) := (3600, JobResult.NoSuccess f)]> (redis s1)
    /\ studies s' = studies s1 /\ notifications s' = notifications s1
    /\ progress s' = progress s1
    /\ JobResult.error f = e /\ JobResult.f_orthancStudyId f = orthancStudyId job.
Proof.
  unfold processStableStudy. unfold bind at 1. unfold dateNow at 1. cbn [fst snd].
  unfold try_catch.
  destruct (processStableStudy_try env job _ _) as [[e0|r] s1] eqn:Htry; [|discriminate].
  unfold processStableStudy_catch, bind, dateNow, redis_setex, modify, throw. cbv zeta.
  intros H. inversion H; subst. exists s1. eexists. split; [reflexivity|].
  cbn. repeat split; reflexivity.
Qed.

(** The cache after a run: the entry of the request holds the outcome, the
    other entries are as they were. *)
Lemma processStableStudy_cached env job s :
  exists o,
    redis (snd (processStableStudy env job s))
    = <[resultKey (requestId job) := (3600, o)]> (redis s)
    /\ match fst (processStableStudy env job s), o with
       | inr r, JobResult.Success r' => r' = r
       | inl e, JobResult.NoSuccess f =>
           JobResult.error f = e /\ JobResult.f_orthancStudyId f = orthancStudyId job
       | _, _ => False
       end.
Proof.
  destruct (processStableStudy env job s) as [[e|r] s'] eqn:Hrun; cbn [fst snd].
  - destruct (processStableStudy_throws _ _ _ _ _ Hrun)
      as (s1 & f & Htry & Hredis & _ & _ & _ & He & Hid).
    apply processStableStudy_try_throws in Htry. destruct Htry as (_ & Hr & _).
    exists (JobResult.NoSuccess f). split; [|auto].
    rewrite Hredis, Hr. reflexivity.
  - exists (JobResult.Success r). split; [|reflexivity].
    unfold processStableStudy in Hrun.
    apply bind_inr in Hrun. destruct Hrun as (startTime & s0 & Ht & H).
    field_of redis Ht.
    unfold try_catch in H.
    destruct (processStableStudy_try env job startTime s0) as [[e|r'] s2] eqn:Htry;
      [exfalso; eapply processStableStudy_catch_throws; exact H|].
    inversion H; subst r' s2. clear H.
    unfold processStableStudy_try in Htry. cbv zeta in Htry.
    apply bind_inr in Htry. destruct Htry as (x & s1 & Hx & H).
    apply bind_inr in H. destruct H as (doc & s3 & Hup & H).
    apply bind_inr in H. destruct H as (u1 & s4 & H1 & H).
    apply bind_inr in H. destruct H as (u2 & s5 & H2 & H).
    apply bind_inr in H. destruct H as (u3 & s6 & H3 & H).
    apply bind_inr in H. destruct H as (u4 & s7 & H4 & H).
    apply bind_inr in H. destruct H as (processedAt & s8 & H5 & H).
    apply bind_inr in H. destruct H as (finished & s9 & H6 & H).
    apply bind_inr in H. destruct H as (u5 & s10 & H7 & H).
    apply bind_inr in H. destruct H as (u6 & s11 & H8 & H).
    apply ret_inr in H. destruct H as [Hr Hs]. subst s11.
    field_of redis Hx. apply upsertStudy_frame in Hup. destruct Hup as (Hup & _).
    field_of redis H1. field_of redis H2. field_of redis H3. field_of redis H4.
    field_of redis H5. field_of redis H6. field_of redis H8.
    rewrite Hr in H7. unfold redis_setex, modify in H7. inversion H7 as [[Hu Hs10]].
    rewrite E7, <- Hs10. cbn [redis set_redis]. f_equal. congruence.
Qed.

(** X9. Every run, returning or throwing, leaves its outcome in the cache
    under the key of its request, for 3600 seconds, and changes no other
    cache entry: the result when it returns, the failure with the error
    message and the study identifier when it throws. *)
Theorem run_outcome_cached env job s :
  exists o,
    redis (snd (processStableStudy env job s))
    = <[resultKey (requestId job) := (3600, o)]> (redis s)
    /\ match fst (processStableStudy env job s), o with
       | inr r, JobResult.Success r' => r' = r
       | inl e, JobResult.NoSuccess f =>
           JobResult.error f = e /\ JobResult.f_orthancStudyId f = orthancStudyId job
       | _, _ => False
       end.
Proof. exact (processStableStudy_cached env job s). Qed.



(* ===================================================================== *)
(** ** A store that accepts the documents of a run *)
(* ===================================================================== *)

Lemma le_ids_refl s : le_ids s s.
Proof. unfold le_ids. lia. Qed.

Lemma le_ids_trans a b c : le_ids a b -> le_ids b c -> le_ids a c.
Proof. unfold le_ids. lia. Qed.

Lemma mono_generateObjectId env : keeps le_ids (generateObjectId env).
Proof. intros s. unfold le_ids. cbn. lia. Qed.

Ltac mono_side := unfold le_ids; cbn; intros; lia.

Lemma mono_dateNow env : keeps le_ids (dateNow env).
Proof. apply preserves_dateNow; mono_side. Qed.
Lemma mono_jobProgress p : keeps le_ids (jobProgress p).
Proof. apply preserves_jobProgress; mono_side. Qed.
Lemma mono_axios_get {A} r t (a : Result A) : keeps le_ids (axios_get r t a).
Proof. apply preserves_axios_get; mono_side. Qed.
Lemma mono_gets {A} (f : St -> A) : keeps le_ids (gets f).
Proof. apply preserves_gets; mono_side. Qed.
Lemma mono_Patient_save env b p : keeps le_ids (Patient_save env b p).
Proof. apply preserves_Patient_save; mono_side. Qed.
Lemma mono_Lab_save env b l : keeps le_ids (Lab_save env b l).
Proof. apply preserves_Lab_save; mono_side. Qed.
Lemma mono_formatDicomDateToISO env d : keeps le_ids (formatDicomDateToISO env d).
Proof. apply preserves_formatDicomDateToISO; mono_side. Qed.
Lemma mono_discoverInstances env id info : keeps le_ids (discoverInstances env id info).
Proof. apply preserves_discoverInstances; mono_side. Qed.
Lemma mono_collectTags env info uid d : keeps le_ids (collectTags env info uid d).
Proof. apply preserves_collectTags; mono_side. Qed.
Lemma mono_collectModalities env info tags : keeps le_ids (collectModalities env info tags).
Proof. apply preserves_collectModalities; mono_side. Qed.

Create HintDb mono.
#[local] Hint Resolve mono_generateObjectId mono_dateNow mono_jobProgress mono_axios_get
  mono_gets mono_Patient_save mono_Lab_save mono_formatDicomDateToISO
  mono_discoverInstances mono_collectTags mono_collectModalities : mono.

(** One step of a proof that a computation does not turn the counter of
    identifiers back. *)
Ltac mono_step :=
  first
    [ solve [auto with mono]
    | progress cbv zeta
    | apply (preserves_ret le_ids le_ids_refl)
    | apply (preserves_throw le_ids le_ids_refl)
    | apply (preserves_bind le_ids le_ids_trans); [|intros ?]
    | apply (preserves_try_catch le_ids le_ids_trans); [|intros ?]
    | match goal with
      | |- keeps le_ids (if ?b then _ else _) => destruct b
      | |- keeps le_ids (match ?x with _ => _ end) => destruct x
      end ].
Ltac mono := cbv zeta; repeat mono_step.

Lemma mono_findOrCreatePatientFromTags env tags :
  keeps le_ids (findOrCreatePatientFromTags env tags).
Proof. unfold findOrCreatePatientFromTags, generatePatientID, Patient_findOne. mono. Qed.

Lemma mono_labFromSources env tags c sources :
  keeps le_ids (labFromSources env tags c sources).
Proof.
  induction sources as [|source rest IH]; cbn [labFromSources]; unfold Lab_findOne; mono;
    try apply IH.
Qed.
#[local] Hint Resolve mono_labFromSources : mono.

Lemma mono_findOrCreateSourceLab env tags : keeps le_ids (findOrCreateSourceLab env tags).
Proof.
  unfold findOrCreateSourceLab, labFallback, labFromCustomId, defaultLab, emergencyLab,
    Lab_findOne.
  mono.
Qed.

#[local] Hint Resolve mono_findOrCreatePatientFromTags mono_findOrCreateSourceLab : mono.

Lemma mono_extractStudyData env job : keeps le_ids (extractStudyData env job).
Proof. unfold extractStudyData, DicomStudy_findOne. mono. Qed.

(* ===================================================================== *)
(** ** The documents a run leaves alone *)
(* ===================================================================== *)

Lemma filter_others_replaced {A} (key : A -> string) (d doc : A) (l : list A) :
  key doc = key d ->
  List.filter (fun y => negb (String.eqb (key y) (key doc)))
    (map (fun y => if String.eqb (key y) (key d) then doc else y) l)
  = List.filter (fun y => negb (String.eqb (key y) (key doc))) l.
Proof.
  intros Hk. induction l as [|y l IH]; [reflexivity|].
  cbn [map List.filter]. rewrite IH.
  destruct (String.eqb (key y) (key d)) eqn:E.
  - rewrite String.eqb_refl. cbn [negb]. rewrite Hk, E. reflexivity.
  - reflexivity.
Qed.

(** X11. A run that returns has written one study document, the one whose
    identifier it reports: every other document of the study collection
    is as it was, in the same order, and the collection has the same
    number of documents or one more; the reported document is stored and
    carries the study instance UID of the result. *)
Theorem returned_run_touches_one_study env job s r s'
  (Hrun : processStableStudy env job s = (inr r, s')) :
  List.filter (fun d => negb (String.eqb (Study._id d) (JobResult.studyDatabaseId r)))
    (studies s')
  = List.filter (fun d => negb (String.eqb (Study._id d) (JobResult.studyDatabaseId r)))
      (studies s)
  /\ (length (studies s) <= length (studies s') <= S (length (studies s)))%nat
  /\ exists doc,
      In doc (studies s')
      /\ Study._id doc = JobResult.studyDatabaseId r
      /\ Study.studyInstanceUID (Study.data doc) = JobResult.studyInstanceUID r.
Proof.
  destruct (processStableStudy_returns _ _ _ _ _ Hrun)
    as (x & s1 & doc & e & Hx & Huid & _ & Hid & Hdata & _ & Hcase).
  destruct (extractStudyData_returns _ _ _ _ _ Hx) as (_ & _ & Hux & _).
  rewrite Hid.
  assert (Hdoc : Study.studyInstanceUID (Study.data doc) = JobResult.studyInstanceUID r)
    by congruence.
  destruct (find (uid_is (x_studyInstanceUID x)) (studies s)) as [d|] eqn:Hfind.
  - destruct Hcase as (Hsame & _ & Hst). rewrite Hst.
    split; [apply (filter_others_replaced Study._id), Hsame|].
    split; [rewrite length_map; lia|].
    exists doc. split; [|auto].
    apply find_some in Hfind. destruct Hfind as [Hin _].
    apply (In_replaced _ d); [exact Hin|apply String.eqb_refl].
  - destruct Hcase as (_ & Hnew & Hst). rewrite Hst.
    split; [|split].
    + rewrite List.filter_app. cbn [List.filter]. rewrite String.eqb_refl. cbn [negb].
      apply app_nil_r.
    + rewrite length_app. cbn [length]. lia.
    + exists doc. split; [|auto]. apply in_or_app. right. left. reflexivity.
Qed.

Lemma returned_run_touches_one_study_witness :
  exists r s',
    processStableStudy Sample.env Sample.job_abc Sample.reported = (inr r, s')
    /\ length (studies s') = length (studies Sample.reported)
    /\ exists doc, In doc (studies s')
                   /\ Study._id doc = JobResult.studyDatabaseId r
                   /\ Study.studyInstanceUID (Study.data doc) = "1.2.840.1".
Proof.
  destruct (processStableStudy Sample.env Sample.job_abc Sample.reported)
    as [r s'] eqn:Hrun.
  assert (Hr : exists r0, r = inr r0 /\ JobResult.studyInstanceUID r0 = "1.2.840.1"
                          /\ length (studies s') = length (studies Sample.reported)).
  { vm_compute in Hrun. inversion Hrun. eexists. repeat split; reflexivity. }
  destruct Hr as (r0 & -> & Huid & Hlen).
  destruct (returned_run_touches_one_study _ _ _ _ _ Hrun) as (_ & _ & doc & Hin & Hid & Hu).
  exists r0, s'. split; [reflexivity|]. split; [exact Hlen|].
  exists doc. rewrite <- Huid. auto.
Defined.

(* ===================================================================== *)
(** ** A study that the archive knows and the store accepts *)
(* ===================================================================== *)

Lemma findOrCreatePatientFromTags_accepting env (tags : Tags) s :
  (forall l d, patientAccepted env l d = None) ->
  (forall n, (objectIds s <= n)%nat ->
     existsb (fun x => String.eqb (Patient._id x) (newObjectId env n)) (patients s) = false) ->
  exists p s', findOrCreatePatientFromTags env tags s = (inr p, s').
Proof.
  intros Haccept Hfresh.
  destruct (findOrCreatePatientFromTags env tags s) as [[e|p] s'] eqn:H; [exfalso|eauto].
  unfold findOrCreatePatientFromTags in H. cbv zeta in H.
  rewrite sentinel_guard_false in H.
  apply bind_inl in H. destruct H as [H|(found & s0 & Hf & H)];
    [unfold Patient_findOne, gets in H; discriminate|].
  unfold Patient_findOne, gets in Hf. inversion Hf; subst found s0. clear Hf.
  destruct (find (mrn_is (tags !! "PatientID")) (patients s)) as [q|].
  - rewrite upgrade_guard in H.
    destruct (Js.includes "^" (Patient.patientNameRaw q)); [|discriminate].
    apply bind_inl in H. destruct H as [H|(u & s1 & Hs & H)]; [|discriminate].
    unfold Patient_save, store_save in H. rewrite Haccept in H. discriminate.
  - apply bind_inl in H. destruct H as [H|(pid & s1 & Hpid & H)];
      [unfold generatePatientID, bind, generateObjectId, ret in H; discriminate|].
    assert (E1 : patients s1 = patients s /\ objectIds s1 = S (objectIds s)).
    { unfold generatePatientID, bind, generateObjectId, ret in Hpid.
      inversion Hpid. split; reflexivity. }
    apply bind_inl in H. destruct H as [H|(mrn & s2 & Hmrn & H)].
    { destruct (Js.truthy (tags !! "PatientID")); discriminate. }
    assert (E2 : patients s2 = patients s1 /\ objectIds s2 = objectIds s1).
    { destruct (Js.truthy (tags !! "PatientID")).
      - apply ret_inr in Hmrn. destruct Hmrn as [_ ->]. auto.
      - unfold dateNow, bind, ret in Hmrn. inversion Hmrn. auto. }
    apply bind_inl in H. destruct H as [H|(dob & s3 & Hdob & H)].
    { destruct (Js.truthy (tags !! "PatientBirthDate")); [|discriminate].
      apply bind_inl in H. destruct H as [H|(d & s4 & Hd & H)]; [|discriminate].
      eapply returns_run; [|exact H]. apply returns_formatDicomDateToISO. }
    assert (E3 : patients s3 = patients s2 /\ objectIds s3 = objectIds s2).
    { destruct (Js.truthy (tags !! "PatientBirthDate")).
      - apply bind_inr in Hdob. destruct Hdob as (d & s4 & Hd & Hr).
        apply ret_inr in Hr. destruct Hr as [_ <-].
        field_of patients Hd. field_of objectIds Hd. auto.
      - apply ret_inr in Hdob. destruct Hdob as [_ ->]. auto. }
    apply bind_inl in H. destruct H as [H|(oid & s4 & Hoid & H)];
      [unfold generateObjectId in H; discriminate|].
    unfold generateObjectId in Hoid. inversion Hoid; subst oid s4. clear Hoid.
    apply bind_inl in H. destruct H as [H|(u & s5 & Hs & H)]; [|discriminate].
    unfold Patient_save, store_save in H. rewrite Haccept in H.
    cbn [Patient._id patients set_objectIds] in H.
    destruct E1 as [P1 O1]. destruct E2 as [P2 O2]. destruct E3 as [P3 O3].
    rewrite P3, P2, P1 in H. rewrite Hfresh in H by lia. discriminate.
Qed.

Lemma findOrCreateSourceLab_accepting env (tags : Tags) s :
  (forall l d, labAccepted env l d = None) ->
  existsb (fun x => String.eqb (Lab._id x) (newObjectId env (objectIds s))) (labs s) = false ->
  exists l s', findOrCreateSourceLab env tags s = (inr l, s').
Proof.
  intros Haccept Hfresh.
  unfold findOrCreateSourceLab, try_catch. cbv zeta. unfold bind at 1.
  destruct (labFromCustomId_run env (tags !! "0011,1010") s) as (o & Ho & _).
  rewrite Ho. destruct o as [l|]; [eauto|].
  unfold labFallback. unfold bind at 1.
  destruct (labFromSources env tags (tags !! "0011,1010") (possibleLabSources tags) s)
    as [[e|[l|]] s1] eqn:Hsrc.
  - exfalso. eapply labFromSources_accepting; eauto.
  - eauto.
  - apply labFromSources_outcome in Hsrc. subst s1.
    destruct (defaultLab env (tags !! "0011,1010") s) as [[e|l] s2] eqn:Hdef; [|eauto].
    exfalso. eapply defaultLab_accepting; eauto.
Qed.

Lemma upsertStudy_accepting env sd lab (tags : Tags) found s :
  (forall l d, studyAccepted env l d = None) ->
  existsb (fun x => String.eqb (Study._id x) (newObjectId env (objectIds s))) (studies s)
  = false ->
  exists doc s', upsertStudy env sd lab tags found s = (inr doc, s').
Proof.
  intros Haccept Hfresh.
  unfold upsertStudy, bind, dateNow, generateObjectId, DicomStudy_save, store_save, ret.
  cbv zeta. destruct found as [d|]; rewrite Haccept; [eauto|].
  cbn [Study._id studies objectIds set_clockReads set_objectIds].
  rewrite Hfresh. eauto.
Qed.

(** The four fields that freshness of identifiers depends on, across a
    step that writes none of them. *)
Ltac store_of Hrun :=
  field_of patients Hrun; field_of labs Hrun; field_of studies Hrun;
  field_of objectIds Hrun.

Lemma extractStudyData_accepting env job s info :
  getStudy env (orthancStudyId job) = inr info ->
  Js.truthy (studyInstanceUIDOf info) = true ->
  accepting env -> fresh_ids env s ->
  exists x s1, extractStudyData env job s = (inr x, s1).
Proof.
  intros Hstudy Huid (Hpa & Hla & _) Hfresh.
  destruct (extractStudyData env job s) as [[e|x] s'] eqn:H; [exfalso|eauto].
  unfold extractStudyData in H. cbv zeta in H.
  apply bind_inl in H. destruct H as [H|(u0 & s2 & H0 & H)];
    [eapply returns_run; [|exact H]; auto with returns|].
  apply bind_inl in H. destruct H as [H|(studyInfo & s3 & H1 & H)].
  { unfold axios_get in H. rewrite Hstudy in H. discriminate. }
  assert (studyInfo = info) as ->.
  { unfold axios_get in H1. rewrite Hstudy in H1. inversion H1. reflexivity. }
  rewrite Huid in H. cbn [negb] in H.
  apply bind_inl in H. destruct H as [H|(u1 & s4 & H2 & H)];
    [eapply returns_run; [|exact H]; auto with returns|].
  apply bind_inl in H. destruct H as [H|(d & s5 & H3 & H)];
    [eapply returns_run; [|exact H]; auto with returns|].
  apply bind_inl in H. destruct H as [H|(u2 & s6 & H4 & H)];
    [eapply returns_run; [|exact H]; auto with returns|].
  apply bind_inl in H. destruct H as [H|(tags & s7 & H5 & H)];
    [eapply returns_run; [|exact H]; auto with returns|].
  apply bind_inl in H. destruct H as [H|(u3 & s8 & H6 & H)];
    [eapply returns_run; [|exact H]; auto with returns|].
  store_of H0. store_of H1. store_of H2. store_of H3. store_of H4. store_of H5.
  store_of H6.
  assert (Hp8 : patients s8 = patients s) by congruence.
  assert (Hl8 : labs s8 = labs s) by congruence.
  assert (Ho8 : objectIds s8 = objectIds s) by congruence.
  apply bind_inl in H. destruct H as [H|(patientRecord & s9 & H7 & H)].
  { destruct (findOrCreatePatientFromTags_accepting env tags s8 Hpa) as (p & s9 & Hp).
    - intros n Hn. rewrite Hp8. apply Hfresh. lia.
    - rewrite Hp in H. discriminate. }
  field_of labs H7.
  pose proof (preserves_run le_ids _ _ _ _ (mono_findOrCreatePatientFromTags env tags) H7)
    as Ho9.
  unfold le_ids in Ho9.
  apply bind_inl in H. destruct H as [H|(labRecord & s10 & H8 & H)].
  { destruct (findOrCreateSourceLab_accepting env tags s9 Hla) as (l & s10 & Hl).
    - replace (labs s9) with (labs s) by congruence. apply Hfresh. lia.
    - rewrite Hl in H. discriminate. }
  eapply returns_run; [|exact H].
  unfold DicomStudy_findOne. never_throws.
Qed.


(** The generated identifiers end in decimal digits: none of them is the
    identifier of the two patients stored by hand. *)
Lemma fresh_ids_with_raw_patient : fresh_ids Sample.env Sample.with_raw_patient.
Proof.
  intros n _. split; [|split; reflexivity].
  cbn [Sample.with_raw_patient patients set_patients existsb Sample.sentinel
       Sample.patient_raw Patient._id].
  unfold Sample.env, newObjectId, Js.of_Z.
  destruct (10 + Z.of_nat n) as [|p|p] eqn:E; try lia.
  cbn [Z.to_int NilZero.string_of_int].
  destruct (Pos.to_uint p); reflexivity.
Qed.


(* ===================================================================== *)
(** ** The job queue: what becomes of a job *)
(* ===================================================================== *)

Section JobFacts.
Import Queue.
Local Open Scope list_scope.

(** X13. When the processor loop has stopped, no job is left behind:
    every job of the queue is completed or failed, and none is being
    processed. *)
Theorem stopped_queue_is_drained q
  (Hreach : reachable q) (Hoff : isProcessing q = false) :
  Forall (fun kj => Job.status (snd kj) = Completed \/ Job.status (snd kj) = Failed)
    (jobs q)
  /\ processing q = ∅.
Proof.
  pose proof (reachable_wf q Hreach) as Hwf.
  destruct (wf_alive q Hwf Hoff) as [Hwait Hproc].
  split; [|exact Hproc].
  apply List.Forall_forall. intros [k j] Hin. cbn [snd].
  destruct (Job.status j) eqn:Hst; auto; exfalso.
  - assert (Hw : In j (getWaitingJobs q)).
    { unfold getWaitingJobs. apply filter_In. split.
      - apply in_map_iff. exists (k, j). auto.
      - unfold is_waiting. rewrite Hst. reflexivity. }
    rewrite Hwait in Hw. exact Hw.
  - assert (Hk : k ∈ processing q).
    { apply (wf_processing q Hwf). exists j. split; [exact Hin|].
      unfold is_active. rewrite Hst. reflexivity. }
    rewrite Hproc in Hk. revert Hk. apply not_elem_of_empty.
Qed.

Lemma drained_queue_reachable : reachable drained_queue.
Proof.
  unfold reachable, drained_queue, sample_queue.
  apply (rtc_l _ _ (snd (add Sample.job_gone 995 new))); [apply step_add|].
  apply (rtc_l _ _ (processJob_settle 1 (inl "Request failed with status code 404") 10
                      (snd (add Sample.job_gone 995 new)))).
  - apply step_settle. vm_compute. reflexivity.
  - apply rtc_once, step_wake. reflexivity.
Qed.

Lemma stopped_queue_is_drained_witness :
  Forall (fun kj => Job.status (snd kj) = Completed \/ Job.status (snd kj) = Failed)
    (jobs drained_queue)
  /\ processing drained_queue = ∅.
Proof.
  apply (stopped_queue_is_drained drained_queue).
  - exact drained_queue_reachable.
  - reflexivity.
Defined.

Lemma same_job_refl j : same_job j j.
Proof. repeat split. Qed.

Lemma same_job_trans a b c : same_job a b -> same_job b c -> same_job a c.
Proof. unfold same_job. intros (? & ? & ? & ?) (? & ? & ? & ?). repeat split; congruence. Qed.

Lemma update_same_job q q' k k0 f j :
  (forall x, same_job x (f x)) ->
  jobs q' = update k0 f (jobs q) -> getJob k q = Some j ->
  exists j', getJob k q' = Some j' /\ same_job j j'.
Proof.
  intros Hf Hq Hj. destruct (Nat.eq_dec k k0) as [->|Hk].
  - rewrite (getJob_updated q q' k0 f Hq), Hj. cbn. eauto.
  - rewrite (getJob_other q q' k k0 f Hk Hq), Hj. eauto using same_job_refl.
Qed.

Lemma begin_same_job job q k j :
  getJob k q = Some j ->
  exists j', getJob k (processJob_begin job q) = Some j' /\ same_job j j'.
Proof.
  apply (update_same_job q (processJob_begin job q) k (Job.id job)
           (fun j => Job.set_progress 10 (Job.set_status Active j))); [|reflexivity].
  intros x. repeat split.
Qed.

Lemma admission_loop_same_job n : forall q k j,
  getJob k q = Some j ->
  exists j', getJob k (admission_loop n q) = Some j' /\ same_job j j'.
Proof.
  induction n as [|n IH]; intros q k j Hj; cbn [admission_loop];
    [eauto using same_job_refl|].
  destruct (_ && _)%bool; [|eauto using same_job_refl].
  destruct (getWaitingJobs q) as [|job rest]; [apply IH, Hj|].
  destruct (begin_same_job job q k j Hj) as (j1 & Hj1 & Hs1).
  destruct (IH _ k j1 Hj1) as (j2 & Hj2 & Hs2).
  eauto using same_job_trans.
Qed.

Lemma schedule_same_job q k j :
  getJob k q = Some j ->
  exists j', getJob k (schedule q) = Some j' /\ same_job j j'.
Proof.
  intros Hj. unfold schedule. destruct (_ || _)%bool.
  - apply admission_loop_same_job, Hj.
  - exists j. split; [exact Hj|apply same_job_refl].
Qed.

Lemma add_same_job jobData now q k j :
  wf q -> getJob k q = Some j ->
  exists j', getJob k (snd (add jobData now q)) = Some j' /\ same_job j j'.
Proof.
  intros Hwf Hj. unfold add. cbv zeta. cbn [snd].
  assert (Hfresh : ~ In (nextJobId q) (map fst (jobs q))).
  { rewrite (wf_keys q Hwf), in_seq. pose proof (wf_next q Hwf). lia. }
  match goal with
  | |- context [map_set _ ?x _] => set (job := x) in *
  end.
  assert (Hj1 : forall b,
    getJob k (set_isProcessing b (set_jobs (map_set (nextJobId q) job (jobs q))
                                    (set_nextJobId (S (nextJobId q)) q))) = Some j).
  { intros b. eapply getJob_app; [exact Hj|]. cbn. apply map_set_fresh, Hfresh. }
  cbn [isProcessing set_jobs set_nextJobId].
  destruct (isProcessing q) eqn:Hp; cbn [negb].
  - exists j. split; [|apply same_job_refl].
    erewrite getJob_same_jobs; [exact (Hj1 true)|reflexivity].
  - unfold startProcessing. cbn [isProcessing set_jobs set_nextJobId]. rewrite Hp.
    apply schedule_same_job, Hj1.
Qed.

Lemma step_same_job q q' k j :
  wf q -> step q q' -> getJob k q = Some j ->
  exists j', getJob k q' = Some j' /\ same_job j j'.
Proof.
  intros Hwf Hstep Hj.
  destruct Hstep as [jobData now q|q Hon|k0 p q Hk0|k0 outcome p q Hk0].
  - apply add_same_job; assumption.
  - apply schedule_same_job; assumption.
  - apply (update_same_job q _ k k0 (Job.set_progress p)); [|reflexivity|exact Hj].
    intros x. repeat split.
  - eapply (update_same_job q _ k k0); [|reflexivity|exact Hj].
    intros x. destruct outcome; repeat split.
Qed.

(** A step of the queue does not take a job back to an earlier stage. *)
Lemma step_stage q q' k j j' :
  wf q -> step q q' -> getJob k q = Some j -> getJob k q' = Some j' ->
  (stage (Job.status j) <= stage (Job.status j'))%nat.
Proof.
  intros Hwf Hstep Hj Hj'.
  assert (Hst : statusOf k q = Some (Job.status j)) by (unfold statusOf; rewrite Hj; reflexivity).
  assert (Hkeep : forall st, Job.status j = st -> st <> Waiting ->
                    statusOf k q' = Some st ->
                    (stage st <= stage (Job.status j'))%nat).
  { intros st _ _ H. unfold statusOf in H. rewrite Hj' in H. inversion H. cbn [stage]. lia. }
  destruct (Job.status j) eqn:Ej.
  - cbn. lia.
  - destruct Hstep as [jobData now q|q Hon|k0 p q Hk0|k0 outcome p q Hk0].
    + apply (Hkeep Active eq_refl); [discriminate|].
      apply add_status; [assumption..|discriminate].
    + apply (Hkeep Active eq_refl); [discriminate|].
      apply schedule_status; [assumption..|discriminate].
    + destruct (Nat.eq_dec k k0) as [->|Hk].
      * erewrite getJob_updated in Hj' by reflexivity. rewrite Hj in Hj'.
        inversion Hj'. cbn. rewrite Ej. cbn [stage]. lia.
      * erewrite getJob_other in Hj'; [|exact Hk|reflexivity].
        rewrite Hj in Hj'. inversion Hj'; subst. rewrite Ej. cbn [stage]. lia.
    + destruct (Nat.eq_dec k k0) as [->|Hk].
      * unfold processJob_settle in Hj'.
        erewrite getJob_updated in Hj' by reflexivity. rewrite Hj in Hj'.
        inversion Hj'. destruct outcome; cbn; lia.
      * unfold processJob_settle in Hj'.
        erewrite getJob_other in Hj'; [|exact Hk|reflexivity].
        rewrite Hj in Hj'. inversion Hj'; subst. rewrite Ej. cbn [stage]. lia.
  - assert (H : statusOf k q' = Some Completed)
      by (eapply step_settled_status; eauto).
    unfold statusOf in H. rewrite Hj' in H. inversion H. cbn [stage]. lia.
  - assert (H : statusOf k q' = Some Failed)
      by (eapply step_settled_status; eauto).
    unfold statusOf in H. rewrite Hj' in H. inversion H. cbn [stage]. lia.
Qed.

(** X14. A job is never removed from the queue and never goes back: in
    every later state of a reachable queue the job is still stored under
    its number, with the number, type, data and arrival time it had, at
    the same or a later stage of its life (waiting, active, then
    completed or failed). *)
Theorem job_moves_forward q q' k j
  (Hreach : reachable q) (Hsteps : rtc step q q') (Hjob : getJob k q = Some j) :
  exists j',
    getJob k q' = Some j'
    /\ same_job j j'
    /\ (stage (Job.status j) <= stage (Job.status j'))%nat.
Proof.
  pose proof (reachable_wf q Hreach) as Hwf. clear Hreach.
  revert j Hjob. induction Hsteps as [q|q q1 q2 Hstep Hrtc IH]; intros j Hjob.
  - exists j. split; [exact Hjob|]. split; [apply same_job_refl|lia].
  - destruct (step_same_job q q1 k j Hwf Hstep Hjob) as (j1 & Hj1 & Hs1).
    pose proof (step_stage q q1 k j j1 Hwf Hstep Hjob Hj1) as Hst1.
    destruct (IH (step_wf q q1 Hwf Hstep) j1 Hj1) as (j2 & Hj2 & Hs2 & Hst2).
    exists j2. split; [exact Hj2|]. split; [eapply same_job_trans; eauto|lia].
Qed.

Lemma job_moves_forward_witness :
  exists j',
    getJob 1 drained_queue = Some j'
    /\ Job.data j' = Sample.job_gone
    /\ (1 <= stage (Job.status j'))%nat.
Proof.
  destruct (job_moves_forward sample_queue drained_queue 1
              {| Job.id := 1; Job.type := "process-stable-study";
                 Job.data := Sample.job_gone; Job.status := Active;
                 Job.createdAt := 995; Job.progress := 10;
                 Job.result := None; Job.error := None |})
    as (j' & Hj' & (_ & _ & Hdata & _) & Hstage).
  - unfold sample_queue. apply rtc_once, step_add.
  - unfold drained_queue.
    apply (rtc_l _ _ (processJob_settle 1 (inl "Request failed with status code 404") 10
                        sample_queue)).
    + apply step_settle. vm_compute. reflexivity.
    + apply rtc_once, step_wake. reflexivity.
  - vm_compute. reflexivity.
  - exists j'. auto.
Defined.

End JobFacts.

(* ===================================================================== *)
(** ** The routes *)
(* ===================================================================== *)

Section RouteFacts.
Import Queue.
Import Routes.
Local Open Scope list_scope.

Lemma begin_young job q k j j' :
  getJob k q = Some j -> getJob k (processJob_begin job q) = Some j' ->
  Job.status j' = Job.status j \/ Job.status j' = Active.
Proof.
  intros Hj Hj'. destruct (Nat.eq_dec k (Job.id job)) as [->|Hk].
  - unfold processJob_begin in Hj'.
    erewrite getJob_updated in Hj' by reflexivity.
    rewrite Hj in Hj'. inversion Hj'. right. reflexivity.
  - unfold processJob_begin in Hj'.
    erewrite getJob_other in Hj'; [|exact Hk|reflexivity].
    rewrite Hj in Hj'. inversion Hj'. left. reflexivity.
Qed.

Lemma admission_loop_young n : forall q k j j',
  getJob k q = Some j -> getJob k (admission_loop n q) = Some j' ->
  Job.status j' = Job.status j \/ Job.status j' = Active.
Proof.
  induction n as [|n IH]; intros q k j j' Hj Hj'; cbn [admission_loop] in Hj'.
  - rewrite Hj in Hj'. inversion Hj'. auto.
  - destruct (_ && _)%bool; [|rewrite Hj in Hj'; inversion Hj'; auto].
    destruct (getWaitingJobs q) as [|job rest]; [eapply IH; eauto|].
    destruct (begin_same_job job q k j Hj) as (j1 & Hj1 & _).
    destruct (begin_young job q k j j1 Hj Hj1) as [H1|H1];
      destruct (IH _ k j1 j' Hj1 Hj') as [H2|H2]; rewrite ?H2, ?H1; auto.
Qed.

(** [add] stores the new job under the next number and returns it; when
    [add] returns, the job is waiting or has been admitted. *)
Lemma add_stores_job jobData now q :
  wf q ->
  exists j,
    getJob (nextJobId q) (snd (add jobData now q)) = Some j
    /\ fst (add jobData now q) = Some j
    /\ same_job {| Job.id := nextJobId q; Job.type := "process-stable-study";
                   Job.data := jobData; Job.status := Waiting; Job.createdAt := now;
                   Job.progress := 0; Job.result := None; Job.error := None |} j
    /\ (Job.status j = Waiting \/ Job.status j = Active).
Proof.
  intros Hwf. unfold add. cbv zeta. cbn [fst snd].
  assert (Hfresh : ~ In (nextJobId q) (map fst (jobs q))).
  { rewrite (wf_keys q Hwf), in_seq. pose proof (wf_next q Hwf). lia. }
  match goal with
  | |- context [map_set _ ?x _] => set (job := x) in *
  end.
  assert (Hj1 : forall b,
    getJob (nextJobId q)
      (set_isProcessing b (set_jobs (map_set (nextJobId q) job (jobs q))
                             (set_nextJobId (S (nextJobId q)) q))) = Some job).
  { intros b. unfold getJob. cbn [jobs set_isProcessing set_jobs set_nextJobId].
    rewrite (map_set_fresh _ _ _ Hfresh), find_key_split by exact Hfresh. reflexivity. }
  cbn [isProcessing set_jobs set_nextJobId].
  destruct (isProcessing q) eqn:Hp; cbn [negb].
  - assert (Hq1 : getJob (nextJobId q)
                    (set_jobs (map_set (nextJobId q) job (jobs q))
                       (set_nextJobId (S (nextJobId q)) q)) = Some job)
      by (erewrite getJob_same_jobs; [exact (Hj1 true)|reflexivity]).
    exists job. rewrite Hq1. repeat split; auto.
  - unfold startProcessing. cbn [isProcessing set_jobs set_nextJobId]. rewrite Hp.
    destruct (schedule_same_job _ _ _ (Hj1 true)) as (j' & Hj' & Hsame).
    exists j'. rewrite Hj'. repeat split; try apply Hsame.
    unfold schedule in Hj'. destruct (_ || _)%bool.
    + destruct (admission_loop_young _ _ _ _ _ (Hj1 true) Hj') as [H|H]; auto.
    + pose proof (Hj1 true) as H1. unfold getJob in Hj', H1.
      cbn [jobs set_isProcessing set_jobs set_nextJobId] in Hj', H1.
      rewrite H1 in Hj'. inversion Hj'. auto.
Qed.

(** X15. [POST /stable-study] either refuses the request and leaves the
    queue as it is, or answers 202 after one job has been added: the job
    is stored under the number the answer reports, it carries the trimmed,
    non-empty study id and the request id of the answer, and it is waiting
    or already admitted. *)
Theorem stableStudy_queues_one_job body now random submittedAt createdAt q
  (Hreach : reachable q) :
  match fst (stableStudy body now random submittedAt createdAt q) with
  | Status202 a =>
      exists id j,
        extractStudyId body = Some id
        /\ a_orthancStudyId a = Js.trim id
        /\ a_orthancStudyId a <> ""%string
        /\ jobId a = nextJobId q
        /\ getJob (jobId a) (snd (stableStudy body now random submittedAt createdAt q))
           = Some j
        /\ Job.id j = jobId a
        /\ orthancStudyId (Job.data j) = a_orthancStudyId a
        /\ requestId (Job.data j) = a_requestId a
        /\ (Job.status j = Waiting \/ Job.status j = Active)
        /\ reachable (snd (stableStudy body now random submittedAt createdAt q))
  | _ => snd (stableStudy body now random submittedAt createdAt q) = q
  end.
Proof.
  unfold stableStudy. cbv zeta.
  destruct (negb (Js.truthy (extractStudyId body))
            || String.eqb (Js.trim (Js.or_else (extractStudyId body) "")) "")%bool eqn:Hguard.
  - destruct body; reflexivity.
  - cbn [fst snd a_orthancStudyId jobId a_requestId].
    apply orb_false_iff in Hguard. destruct Hguard as [Htruthy Hblank].
    apply negb_false_iff in Htruthy.
    destruct (extractStudyId body) as [id|] eqn:Hid; [|discriminate].
    cbn [Js.truthy] in Htruthy. cbn [Js.or_else] in *. rewrite Htruthy in *.
    match goal with
    | |- context [add ?d createdAt q] =>
        destruct (add_stores_job d createdAt q (reachable_wf q Hreach))
          as (j & Hj & _ & (Hjid & _ & Hdata & _) & Hstatus)
    end.
    exists id, j. split; [reflexivity|]. split; [reflexivity|].
    split; [apply String.eqb_neq, Hblank|]. split; [reflexivity|].
    split; [exact Hj|]. cbn [Job.id Job.data] in Hjid, Hdata.
    split; [exact Hjid|]. rewrite Hdata. cbn [orthancStudyId requestId].
    split; [reflexivity|]. split; [reflexivity|]. split; [exact Hstatus|].
    eapply rtc_r; [exact Hreach|apply step_add].
Qed.

Lemma stableStudy_queues_one_job_witness :
  (exists a q',
     stableStudy (BodyObject [("  9442d79e-85ba  "%string, ""%string)]) 1000 "k3j9x2m1q"
       1001 1002 new = (Status202 a, q')
     /\ a_orthancStudyId a = "9442d79e-85ba"%string
     /\ a_requestId a = "stable_1000_k3j9x2m1q"%string)
  /\ match fst (stableStudy (BodyObject [("  9442d79e-85ba  "%string, ""%string)]) 1000
                  "k3j9x2m1q" 1001 1002 new) with
     | Status202 a =>
         exists id j,
           extractStudyId (BodyObject [("  9442d79e-85ba  "%string, ""%string)]) = Some id
           /\ a_orthancStudyId a = Js.trim id
           /\ a_orthancStudyId a <> ""%string
           /\ jobId a = nextJobId new
           /\ getJob (jobId a)
                (snd (stableStudy (BodyObject [("  9442d79e-85ba  "%string, ""%string)])
                        1000 "k3j9x2m1q" 1001 1002 new)) = Some j
           /\ Job.id j = jobId a
           /\ orthancStudyId (Job.data j) = a_orthancStudyId a
           /\ requestId (Job.data j) = a_requestId a
           /\ (Job.status j = Waiting \/ Job.status j = Active)
           /\ reachable
                (snd (stableStudy (BodyObject [("  9442d79e-85ba  "%string, ""%string)])
                        1000 "k3j9x2m1q" 1001 1002 new))
     | _ => snd (stableStudy (BodyObject [("  9442d79e-85ba  "%string, ""%string)]) 1000
                   "k3j9x2m1q" 1001 1002 new) = new
     end.
Proof.
  split.
  - eexists. eexists. split; [vm_compute; reflexivity|]. split; reflexivity.
  - apply (stableStudy_queues_one_job
             (BodyObject [("  9442d79e-85ba  "%string, ""%string)]) 1000 "k3j9x2m1q"
             1001 1002 new).
    apply rtc_refl.
Defined.



End RouteFacts.
